(** * LocalFlaskChat/app.py: the video review backend, embedded and verified

    The development follows [src/LocalFlaskChat/app.py].  Every route
    handler is a function from a request and a world to a response and a
    world.  The world holds the directory tree below the working
    directory of the process, the log of the input/output operations
    performed so far and the global random source.

    What is outside the model, and how it is cut off:
    - a file holds the list of records that Python's [csv] module reads
      from it and writes to it (quoting, line ends and the text encoding
      are the library's business);
    - a session identifier and a model name are one path component each,
      as in the layout [data/<uuid>/<model>/<kind>.csv]; pathlib's
      splitting of a segment at separators and the resolution of [..] by
      the operating system are not modelled.  The code joins the
      identifier of the request to the path unchecked, so this is what
      the program does for an identifier that is a plain name
      ([plain_component]) only: the properties that set the paths of a
      request against other paths of the tree assume such an identifier,
      the others speak of the tree at the paths of the request alone;
    - an input/output operation fails only for the reasons the tree shows
      (a missing file, a directory where a file is expected or the other
      way round), never for permissions or a full disk;
    - the request body is the value [request.get_json()] returned; a
      number in it is an integer. *)

From Stdlib Require Import Ascii DecimalString DecimalNat.
From stdpp Require Import base option list strings gmap fin_maps fin_sets.

Local Open Scope string_scope.
Local Open Scope list_scope.
Set Warnings "-register-all".
Set Default Proof Using "Type".

(** ** Python values that the handlers touch *)

(** The parsed JSON body of a request, and the value of a query argument. *)
Inductive jval :=
| JNull
| JBool (b : bool)
| JNum (z : Z)
| JStr (s : string)
| JArr (l : list jval)
| JObj (o : list (string * jval)).

(** Python's truth value, as [not x] and [all([...])] test it. *)
Definition truthy (v : jval) : bool :=
  match v with
  | JNull => false
  | JBool b => b
  | JNum z => negb (Z.eqb z 0)
  | JStr s => negb (String.eqb s "")
  | JArr l => negb (Nat.eqb (length l) 0)
  | JObj o => negb (Nat.eqb (length o) 0)
  end.

(** [x in l] for a list [l] of strings: only an equal string is a member. *)
Definition in_strs (v : jval) (l : list string) : bool :=
  match v with
  | JStr s => bool_decide (s ∈ l)
  | _ => false
  end.

(** The exceptions that reach the [except Exception] clause of a handler. *)
Inductive exn :=
| KeyError (k : string)
| TypeError
| AttributeError
| ValueError
| OSError.

(** A cell of a row that [csv.DictReader] produced: a string, [None] (the
    reader's [restval]) or the list of surplus fields (under [restkey]). *)
Inductive pyval :=
| PStr (s : string)
| PNone
| PList (l : list string).

(** A key of such a row: a column name, or [None] (the reader's [restkey]). *)
Abbreviation key := (option string) (only parsing).

(** A Python [dict]: keys are unique and keep their insertion order. *)
Abbreviation pydict := (list (option string * pyval)) (only parsing).

Fixpoint dict_get (k : key) (d : pydict) : option pyval :=
  match d with
  | [] => None
  | (k', v) :: d' => if decide (k = k') then Some v else dict_get k d'
  end.

(** [d[k] = v]: an existing key keeps its place, a new one goes last. *)
Fixpoint dict_set (k : key) (v : pyval) (d : pydict) : pydict :=
  match d with
  | [] => [(k, v)]
  | (k', v') :: d' =>
      if decide (k = k') then (k', v) :: d' else (k', v') :: dict_set k v d'
  end.

Definition dict_keys (d : pydict) : list key := d.*1.

(** [dict(pairs)] *)
Definition dict_of_pairs (l : list (key * pyval)) : pydict :=
  fold_left (fun d kv => dict_set kv.1 kv.2 d) l [].

(** ** The directory tree *)

Abbreviation record := (list string) (only parsing).
Abbreviation csv_file := (list (list string)) (only parsing).

Inductive node :=
| File (content : csv_file)
| Dir (entries : gmap string node).

Abbreviation path := (list string) (only parsing).

Fixpoint lookup_path (p : path) (n : node) : option node :=
  match p with
  | [] => Some n
  | c :: p' =>
      match n with
      | Dir es => es !! c ≫= lookup_path p'
      | File _ => None
      end
  end.

(** [Path.mkdir(parents=True, exist_ok=True)] *)
Fixpoint mkdir_parents (p : path) (n : node) : exn + node :=
  match n with
  | File _ => inl OSError
  | Dir es =>
      match p with
      | [] => inr n
      | c :: p' =>
          match mkdir_parents p' (default (Dir ∅) (es !! c)) with
          | inr sub => inr (Dir (<[c := sub]> es))
          | inl e => inl e
          end
      end
  end.

(** The tree with the file at [p] created or replaced, holding [content]:
    what [open(p, 'w')] and the writes up to a flush leave behind. *)
Fixpoint write_at (p : path) (content : csv_file) (n : node) : exn + node :=
  match n with
  | File _ => inl OSError
  | Dir es =>
      match p with
      | [] => inl OSError
      | [c] =>
          match es !! c with
          | Some (Dir _) => inl OSError
          | _ => inr (Dir (<[c := File content]> es))
          end
      | c :: p' =>
          match es !! c with
          | Some sub =>
              match write_at p' content sub with
              | inr sub' => inr (Dir (<[c := sub']> es))
              | inl e => inl e
              end
          | None => inl OSError
          end
      end
  end.

(** Removal of the entry at [p], with everything below it. *)
Fixpoint remove_at (p : path) (n : node) : node :=
  match n with
  | File _ => n
  | Dir es =>
      match p with
      | [] => n
      | [c] => Dir (delete c es)
      | c :: p' =>
          match es !! c with
          | Some sub => Dir (<[c := remove_at p' sub]> es)
          | None => n
          end
      end
  end.

(** ** The world and the monad of the handlers *)

Inductive io_event :=
| EvExists (p : path)
| EvMkdir (p : path)
| EvRead (p : path)
| EvWrite (p : path)
| EvRmtree (p : path).

Record world := World {
  root : node;                (* the working directory of the process *)
  io_log : list io_event;     (* operations performed, oldest first *)
  rand : nat -> nat           (* the draws the random source will give *)
}.

Definition M (A : Type) : Type := world -> (exn + A) * world.

Definition ret {A} (a : A) : M A := fun w => (inr a, w).
Definition raise {A} (e : exn) : M A := fun w => (inl e, w).
Definition bind {A B} (m : M A) (f : A -> M B) : M B :=
  fun w => match m w with
           | (inr a, w') => f a w'
           | (inl e, w') => (inl e, w')
           end.

Global Instance M_ret : MRet M := @ret.
Global Instance M_bind : MBind M := fun A B f m => bind m f.

Definition log_event (e : io_event) : M unit :=
  fun w => (inr tt, World (root w) (io_log w ++ [e]) (rand w)).

Definition set_root (n : node) : M unit :=
  fun w => (inr tt, World n (io_log w) (rand w)).

Definition get_root : M node := fun w => (inr (root w), w).

Definition lift {A} (r : exn + A) : M A := fun w => (r, w).

(** [for x in l: body x] *)
Fixpoint for_each {A} (l : list A) (body : A -> M unit) : M unit :=
  match l with
  | [] => ret tt
  | x :: l' => body x;; for_each l' body
  end.

(** [p.exists()] *)
Definition path_exists (p : path) : M bool :=
  log_event (EvExists p);;
  n ← get_root;
  ret (bool_decide (is_Some (lookup_path p n))).

(** [p.mkdir(parents=True, exist_ok=True)] *)
Definition mkdir (p : path) : M unit :=
  log_event (EvMkdir p);;
  n ← get_root;
  n' ← lift (mkdir_parents p n);
  set_root n'.

(** [open(p, 'r')] and the records the csv reader finds in the file. *)
Definition read_file (p : path) : M csv_file :=
  log_event (EvRead p);;
  n ← get_root;
  match lookup_path p n with
  | Some (File c) => ret c
  | _ => raise OSError
  end.

(** [shutil.rmtree(p)] *)
Definition rmtree (p : path) : M unit :=
  log_event (EvRmtree p);;
  n ← get_root;
  match lookup_path p n with
  | Some (Dir _) => set_root (remove_at p n)
  | _ => raise OSError
  end.

(** [random.choice(l)] for a list of strings. *)
Definition random_choice (l : list string) : M string :=
  fun w => (inr (nth (rand w 0 `mod` length l) l ""),
            World (root w) (io_log w) (fun n => rand w (S n))).

(** The error monad of the pure parts. *)
Global Instance exn_ret : MRet (sum exn) := fun A a => inr a.
Global Instance exn_bind : MBind (sum exn) :=
  fun A B f m => match m with inr a => f a | inl e => inl e end.

(** [d[k]] *)
Definition subscript (k : string) (d : pydict) : exn + pyval :=
  match dict_get (Some k) d with
  | Some v => inr v
  | None => inl (KeyError k)
  end.

(** The key under which a [dict] files a value: a list is unhashable. *)
Definition hash_key (v : pyval) : exn + key :=
  match v with
  | PStr s => inr (Some s)
  | PNone => inr None
  | PList _ => inl TypeError
  end.

(** [v == j] for a cell [v] of a row and a value [j] of the request. *)
Definition py_eq (v : pyval) (j : jval) : bool :=
  match v, j with
  | PStr s, JStr t => String.eqb s t
  | PNone, JNull => true
  | PList l, JArr js =>
      bool_decide (length l = length js) &&
      forallb (fun sj => match sj.2 with
                         | JStr t => String.eqb sj.1 t
                         | _ => false
                         end) (zip l js)
  | _, _ => false
  end.

(** The cell that holds a string of the request.  The handlers store a
    request value in a row only after it passed a membership test in a
    list of strings, so the last case is never reached. *)
Definition to_cell (j : jval) : pyval :=
  match j with
  | JStr s => PStr s
  | _ => PNone
  end.

(** ** csv.DictReader *)

(** One row: [dict(zip(fieldnames, row))], then the surplus fields under
    [restkey] (None), or [restval] (None) for the missing ones. *)
Definition dictreader_row (fieldnames : list string) (row : record) : pydict :=
  let d := dict_of_pairs (zip (Some <$> fieldnames) (PStr <$> row)) in
  let lf := length fieldnames in
  let lr := length row in
  if decide (lf < lr) then dict_set None (PList (drop lf row)) d
  else if decide (lr < lf) then
    fold_left (fun d k => dict_set (Some k) PNone d) (drop lr fieldnames) d
  else d.

(** The first record gives the field names; blank records are skipped. *)
Definition DictReader (f : csv_file) : list pydict :=
  match f with
  | [] => []
  | fieldnames :: rest =>
      dictreader_row fieldnames <$> filter (fun r => r ≠ []) rest
  end.

(** ** Paths *)

Definition MODEL_NAMES : list string :=
  [ "qwen_CoT_video_image_info";
    "qwen_CoT_video_image_raw";
    "qwen_CoT_description_info";
    "qwen_video_image_info";
    "qwen_video_image_raw";
    "qwen_description_info";
    "smol_CoT_video_image_info";
    "smol_CoT_video_image_raw";
    "smol_CoT_description_info";
    "smol_video_image_info";
    "smol_video_image_raw";
    "smol_description_info" ].

Definition DATA_DIR : path := ["data"].

(** [DATA_DIR / uuid_str / model_name]: pathlib joins strings only.  Each
    string is taken as one component, which is what the join gives for a
    plain name ([plain_component] below). *)
Definition get_model_dir (uuid_str model_name : jval) : exn + path :=
  match uuid_str with
  | JStr u =>
      match model_name with
      | JStr m => inr (DATA_DIR ++ [u; m])
      | _ => inl TypeError
      end
  | _ => inl TypeError
  end.

Definition get_csv_path (uuid_str model_name : jval) (csv_type : string)
  : exn + path :=
  model_dir ← get_model_dir uuid_str model_name;
  mret (model_dir ++ [csv_type +:+ ".csv"]).

(** [filepath.parent] *)
Definition parent (p : path) : path := removelast p.

(** ** Text formatting *)

(** [f'{i}'] *)
Definition str_of_nat (i : nat) : string :=
  NilEmpty.string_of_uint (Nat.to_uint i).

Fixpoint zeros (k : nat) : string :=
  match k with
  | 0 => ""
  | S k' => String "0"%char (zeros k')
  end.

(** [f'{i:04d}'] for [width = 4]: zeros on the left up to the width. *)
Definition zero_pad (width i : nat) : string :=
  let s := str_of_nat i in
  zeros (width - String.length s) +:+ s.

(** [f'P{i:04d}'], the identifier every generated row starts with. *)
Definition product_id_of (i : nat) : string := "P" +:+ zero_pad 4 i.

(** ** Writing a file record by record *)

(** [open(p, 'w')]: the file is created or emptied. *)
Definition open_w (p : path) : M unit :=
  log_event (EvWrite p);;
  n ← get_root;
  n' ← lift (write_at p [] n);
  set_root n'.

(** [writer.writerow(r)] on the file opened at [p]. *)
Definition writerow (p : path) (r : record) : M unit :=
  n ← get_root;
  match lookup_path p n with
  | Some (File c) =>
      n' ← lift (write_at p (c ++ [r]) n);
      set_root n'
  | _ => raise OSError
  end.

(** ** create_sample_csv *)

Definition categories : list string :=
  ["Electronics"; "Clothing"; "Home & Garden"; "Sports"; "Books"].
Definition brands : list string :=
  ["BrandA"; "BrandB"; "BrandC"; "BrandD"; "BrandE"].
Definition labels : list string := ["Yes"; "N/A"; "No"].

Definition video_description_header : record :=
  ["product_id"; "description_key1"; "description_key2"; "description_key3"].
Definition product_info_header : record :=
  ["product_id"; "brand"; "price"; "spec"; "category"].
Definition judgement_header : record :=
  ["product_id"; "product_name"; "category"; "video_url"; "thumbnail_url";
   "ground_truth_image_url"; "label"; "reason"].

Definition video_description_row (i : nat) : record :=
  [ product_id_of i;
    "Video shows product features " +:+ str_of_nat i;
    "Duration: " +:+ str_of_nat (30 + i mod 60) +:+ " seconds";
    "Quality: " +:+ (if Nat.eqb (i mod 3) 0 then "HD" else "Standard") ].

Definition product_info_row (i : nat) : record :=
  [ product_id_of i;
    nth (i mod length brands) brands "";
    "$" +:+ str_of_nat ((i * 10) mod 500 + 20);
    "Model-" +:+ str_of_nat i +:+ "-XL";
    nth (i mod length categories) categories "" ].

Definition reasons (i : nat) : gmap string string :=
  {[ "Yes" := "Product clearly matches criteria " +:+ str_of_nat i;
     "N/A" := "Product information insufficient for determination "
              +:+ str_of_nat i;
     "No" := "Product does not meet the required standards "
             +:+ str_of_nat i ]}.

Definition judgement_row (i : nat) (label reason : string) : record :=
  [ product_id_of i;
    "Sample Product " +:+ str_of_nat i;
    nth (i mod length categories) categories "";
    "http://example.com/video" +:+ str_of_nat i +:+ ".mp4";
    "http://example.com/thumb" +:+ str_of_nat i +:+ ".jpg";
    "http://example.com/gt" +:+ str_of_nat i +:+ ".jpg";
    label;
    reason ].

Definition default_num_items : nat := 50.

(** [range(1, num_items + 1)] is [seq 1 num_items]. *)
Definition create_sample_csv (filepath : path) (csv_type : string)
    (num_items : nat) : M unit :=
  mkdir (parent filepath);;
  if decide (csv_type = "video_description") then
    open_w filepath;;
    writerow filepath video_description_header;;
    for_each (seq 1 num_items) (fun i =>
      writerow filepath (video_description_row i))
  else if decide (csv_type = "product_info") then
    open_w filepath;;
    writerow filepath product_info_header;;
    for_each (seq 1 num_items) (fun i =>
      writerow filepath (product_info_row i))
  else if decide (csv_type = "judgement") then
    open_w filepath;;
    writerow filepath judgement_header;;
    for_each (seq 1 num_items) (fun i =>
      label ← random_choice labels;
      reason ← lift (match reasons i !! label with
                     | Some r => inr r
                     | None => inl (KeyError label)
                     end);
      writerow filepath (judgement_row i label reason))
  else mret tt.

(** ** Requests and responses *)

Record item := Item {
  it_product_id : pyval;
  it_product_name : pyval;
  it_category : pyval;
  it_video_url : pyval;
  it_thumbnail_url : pyval;
  it_ground_truth_image_url : pyval;
  it_label : pyval;
  it_reason : pyval;
  it_video_description : pydict;
  it_product_info : pydict
}.

(** The value handed to [jsonify]. *)
Inductive payload :=
| POk                                   (* {'ok': True} *)
| PFail (error : string)                (* {'ok': False, 'error': ...} *)
| PError (error : string)               (* {'error': ...} *)
| PFailExn (e : exn)                    (* {'ok': False, 'error': str(e)} *)
| PErrorExn (e : exn)                   (* {'error': str(e)} *)
| PStatus (status : gmap string string)
| PResults (counts : gmap string nat) (items : list item).

Record response := Response { status_code : nat; body : payload }.

(** [try: ... except Exception as e: return ..., 500] *)
Definition handler (run : M response) (on_exn : exn -> payload)
  : world -> response * world :=
  fun w => match run w with
           | (inr r, w') => (r, w')
           | (inl e, w') => (Response 500 (on_exn e), w')
           end.

(** [data.get(k)] on the parsed body: only a JSON object has [get]. *)
Definition json_get (k : string) (data : jval) : exn + jval :=
  match data with
  | JObj o =>
      match list_find (fun kv => kv.1 = k) o with
      | Some (_, (_, v)) => inr v
      | None => inr JNull
      end
  | _ => inl AttributeError
  end.

(** [request.args.get(k)]: the first value given for [k], or None. *)
Definition args_get (k : string) (args : list (string * string)) : jval :=
  match list_find (fun kv => kv.1 = k) args with
  | Some (_, (_, v)) => JStr v
  | None => JNull
  end.

(** ** The three generation routes *)

Definition make_video_description (data : jval) : world -> response * world :=
  handler
    (uuid_str ← lift (json_get "uuid" data);
     model ← lift (json_get "model" data);
     if negb (truthy uuid_str) || negb (truthy model) then
       mret (Response 400 (PFail "Missing uuid or model"))
     else if negb (in_strs model MODEL_NAMES) then
       mret (Response 400 (PFail "Invalid model name"))
     else
       csv_path ← lift (get_csv_path uuid_str model "video_description");
       create_sample_csv csv_path "video_description" default_num_items;;
       mret (Response 200 POk))
    PFailExn.

Definition make_product_info (data : jval) : world -> response * world :=
  handler
    (uuid_str ← lift (json_get "uuid" data);
     model ← lift (json_get "model" data);
     if negb (truthy uuid_str) || negb (truthy model) then
       mret (Response 400 (PFail "Missing uuid or model"))
     else if negb (in_strs model MODEL_NAMES) then
       mret (Response 400 (PFail "Invalid model name"))
     else
       csv_path ← lift (get_csv_path uuid_str model "product_info");
       create_sample_csv csv_path "product_info" default_num_items;;
       mret (Response 200 POk))
    PFailExn.

Definition judge (data : jval) : world -> response * world :=
  handler
    (uuid_str ← lift (json_get "uuid" data);
     model ← lift (json_get "model" data);
     if negb (truthy uuid_str) || negb (truthy model) then
       mret (Response 400 (PFail "Missing uuid or model"))
     else if negb (in_strs model MODEL_NAMES) then
       mret (Response 400 (PFail "Invalid model name"))
     else
       csv_path ← lift (get_csv_path uuid_str model "judgement");
       create_sample_csv csv_path "judgement" default_num_items;;
       mret (Response 200 POk))
    PFailExn.

(** ** get_status *)

Definition status_word (present : bool) : string :=
  if present then "complete" else "pending".

Definition get_status (args : list (string * string))
  : world -> response * world :=
  handler
    (let uuid_str := args_get "uuid" args in
     let model := args_get "model" args in
     if negb (truthy uuid_str) || negb (truthy model) then
       mret (Response 400 (PError "Missing uuid or model"))
     else if negb (in_strs model MODEL_NAMES) then
       mret (Response 400 (PError "Invalid model name"))
     else
       video_desc_path ← lift (get_csv_path uuid_str model "video_description");
       product_info_path ← lift (get_csv_path uuid_str model "product_info");
       judgement_path ← lift (get_csv_path uuid_str model "judgement");
       vd ← path_exists video_desc_path;
       pi ← path_exists product_info_path;
       jd ← path_exists judgement_path;
       mret (Response 200 (PStatus
         {[ "video_description_csv" := status_word vd;
            "product_info_csv" := status_word pi;
            "judgement_csv" := status_word jd ]})))
    PErrorExn.

(** ** get_results *)

(** [{k: v for k, v in row.items() if k != 'product_id'}] *)
Definition non_key_columns (row : pydict) : pydict :=
  filter (fun kv => kv.1 ≠ Some "product_id") row.

(** The loop that fills [video_descriptions], and the identical one that
    fills [product_infos]: [m[row['product_id']] = {...}] for every row. *)
Fixpoint load_by_product_id (rows : list pydict) (m : gmap key pydict)
  : exn + gmap key pydict :=
  match rows with
  | [] => inr m
  | row :: rows' =>
      product_id ← subscript "product_id" row;
      k ← hash_key product_id;
      load_by_product_id rows' (<[k := non_key_columns row]> m)
  end.

(** [if label in label_counts: label_counts[label] += 1] *)
Definition count_label (label : pyval) (label_counts : gmap string nat)
  : exn + gmap string nat :=
  k ← hash_key label;
  match k with
  | Some s =>
      match label_counts !! s with
      | Some c => inr (<[s := c + 1]> label_counts)
      | None => inr label_counts
      end
  | None => inr label_counts
  end.

(** The body of the loop over the judgement rows. *)
Definition judgement_item (video_descriptions product_infos : gmap key pydict)
    (row : pydict) : exn + item :=
  product_id ← subscript "product_id" row;
  label ← subscript "label" row;
  product_name ← subscript "product_name" row;
  category ← subscript "category" row;
  video_url ← subscript "video_url" row;
  thumbnail_url ← subscript "thumbnail_url" row;
  ground_truth_image_url ← subscript "ground_truth_image_url" row;
  reason ← subscript "reason" row;
  k ← hash_key product_id;
  mret (Item product_id product_name category video_url thumbnail_url
             ground_truth_image_url label reason
             (default [] (video_descriptions !! k))
             (default [] (product_infos !! k))).

Fixpoint judgement_loop (video_descriptions product_infos : gmap key pydict)
    (rows : list pydict) (items : list item) (label_counts : gmap string nat)
  : exn + (list item * gmap string nat) :=
  match rows with
  | [] => inr (items, label_counts)
  | row :: rows' =>
      it ← judgement_item video_descriptions product_infos row;
      label_counts' ← count_label (it_label it) label_counts;
      judgement_loop video_descriptions product_infos rows'
                     (items ++ [it]) label_counts'
  end.

(** [jsonify] sorts the keys of every mapping (Flask's default), and
    sorting fails when [None] stands among other keys. *)
Definition sortable_keys (d : pydict) : bool :=
  negb (bool_decide (None ∈ dict_keys d) && bool_decide (1 < length d)).

Definition jsonify_results (label_counts : gmap string nat)
    (items : list item) : exn + response :=
  if forallb (fun it => sortable_keys (it_video_description it)
                        && sortable_keys (it_product_info it)) items
  then inr (Response 200 (PResults label_counts items))
  else inl TypeError.

Definition get_results (args : list (string * string))
  : world -> response * world :=
  handler
    (let uuid_str := args_get "uuid" args in
     let model := args_get "model" args in
     if negb (truthy uuid_str) || negb (truthy model) then
       mret (Response 400 (PError "Missing uuid or model"))
     else if negb (in_strs model MODEL_NAMES) then
       mret (Response 400 (PError "Invalid model name"))
     else
       video_desc_path ← lift (get_csv_path uuid_str model "video_description");
       product_info_path ← lift (get_csv_path uuid_str model "product_info");
       judgement_path ← lift (get_csv_path uuid_str model "judgement");
       vd ← path_exists video_desc_path;
       pi ← path_exists product_info_path;
       jd ← path_exists judgement_path;
       if negb (vd && pi && jd) then
         mret (Response 400 (PError "Not all required CSV files exist"))
       else
         f ← read_file video_desc_path;
         video_descriptions ← lift (load_by_product_id (DictReader f) ∅);
         f ← read_file product_info_path;
         product_infos ← lift (load_by_product_id (DictReader f) ∅);
         f ← read_file judgement_path;
         r ← lift (judgement_loop video_descriptions product_infos
                     (DictReader f) []
                     {[ "Yes" := 0; "N/A" := 0; "No" := 0 ]});
         lift (jsonify_results r.2 r.1))
    PErrorExn.

(** ** override_label *)

(** The loop that reads the judgement rows:
    [if row['product_id'] == product_id: row['label'] = new_label]. *)
Fixpoint override_rows (product_id new_label : jval) (reader : list pydict)
    (rows : list pydict) : exn + list pydict :=
  match reader with
  | [] => inr rows
  | row :: rest =>
      pid ← subscript "product_id" row;
      let row' := if py_eq pid product_id
                  then dict_set (Some "label") (to_cell new_label) row
                  else row in
      override_rows product_id new_label rest (rows ++ [row'])
  end.

Section Writer.

(** [str(l)] for a list [l] of strings, which is what [csv.writer] puts
    in a cell that holds a list.  No property below depends on it. *)
Variable py_str_list : list string -> string.

(** The text [csv.writer] writes for a cell: [None] gives the empty one. *)
Definition cell_text (v : pyval) : string :=
  match v with
  | PStr s => s
  | PNone => ""
  | PList l => py_str_list l
  end.

Definition key_text (k : key) : string := default "" k.

(** [DictWriter._dict_to_list] with [extrasaction='raise'], [restval='']. *)
Definition dict_to_list (fieldnames : list key) (rowdict : pydict)
  : exn + record :=
  if forallb (fun k => bool_decide (k ∈ fieldnames)) (dict_keys rowdict)
  then inr ((fun k => cell_text (default (PStr "") (dict_get k rowdict)))
              <$> fieldnames)
  else inl ValueError.

Definition override_label (data : jval) : world -> response * world :=
  handler
    (uuid_str ← lift (json_get "uuid" data);
     model ← lift (json_get "model" data);
     product_id ← lift (json_get "product_id" data);
     new_label ← lift (json_get "new_label" data);
     if negb (truthy uuid_str && truthy model && truthy product_id
              && truthy new_label) then
       mret (Response 400 (PFail "Missing required parameters"))
     else if negb (in_strs model MODEL_NAMES) then
       mret (Response 400 (PFail "Invalid model name"))
     else if negb (in_strs new_label ["Yes"; "N/A"; "No"]) then
       mret (Response 400 (PFail "Invalid label"))
     else
       judgement_path ← lift (get_csv_path uuid_str model "judgement");
       present ← path_exists judgement_path;
       if negb present then
         mret (Response 400 (PFail "Judgement CSV not found"))
       else
         f ← read_file judgement_path;
         rows ← lift (override_rows product_id new_label (DictReader f) []);
         match rows with
         | [] => (mret tt : M unit)
         | first :: _ =>
             open_w judgement_path;;
             let fieldnames := dict_keys first in
             writerow judgement_path (key_text <$> fieldnames);;
             for_each rows (fun row =>
               r ← lift (dict_to_list fieldnames row);
               writerow judgement_path r)
         end;;
         mret (Response 200 POk))
    PFailExn.

End Writer.

(** ** clear_all *)

(** [uuid_dir = DATA_DIR / uuid_str], the identifier being one component
    as in [get_model_dir]. *)
Definition clear_all (data : jval) : world -> response * world :=
  handler
    (uuid_str ← lift (json_get "uuid" data);
     if negb (truthy uuid_str) then
       mret (Response 400 (PFail "Missing uuid"))
     else
       uuid_dir ← lift (match uuid_str with
                         | JStr u => inr (DATA_DIR ++ [u])
                         | _ => inl TypeError
                         end);
       present ← path_exists uuid_dir;
       (if (present : bool) then rmtree uuid_dir else mret tt);;
       mret (Response 200 POk))
    PFailExn.

(** The world after one more logged operation. *)
Definition logged (e : io_event) (w : world) : world :=
  World (root w) (io_log w ++ [e]) (rand w).

(** ** The generated tables *)

Inductive kind := VideoDescription | ProductInfo | Judgement.

Definition kind_name (k : kind) : string :=
  match k with
  | VideoDescription => "video_description"
  | ProductInfo => "product_info"
  | Judgement => "judgement"
  end.

Definition header_of (k : kind) : record :=
  match k with
  | VideoDescription => video_description_header
  | ProductInfo => product_info_header
  | Judgement => judgement_header
  end.

(** The label and the row that the [j]-th draw of [rnd] gives to the
    row numbered [i]. *)
Definition drawn_label (rnd : nat -> nat) (j : nat) : string :=
  nth (rnd j mod length labels) labels "".

Definition drawn_judgement_row (rnd : nat -> nat) (first j : nat) : record :=
  judgement_row (first + j) (drawn_label rnd j)
    (default "" (reasons (first + j) !! drawn_label rnd j)).

(** The data rows below the header, numbered from [first]. *)
Definition rows_of (k : kind) (rnd : nat -> nat) (first num_items : nat)
  : list record :=
  match k with
  | VideoDescription => video_description_row <$> seq first num_items
  | ProductInfo => product_info_row <$> seq first num_items
  | Judgement => drawn_judgement_row rnd first <$> seq 0 num_items
  end.

(** The first field of every record: the [product_id] column of a table
    whose header starts with it. *)
Definition first_column (rows : list record) : list string := hd "" <$> rows.

(** The number a string of decimal digits stands for. *)
Definition digits_value (s : string) : option nat :=
  Nat.of_uint <$> NilEmpty.uint_of_string s.

(** A file can be created or replaced at [p]: every directory on the way
    is there or can be made (no file has its name), and no directory has
    the name of the file itself. *)
Fixpoint writable (p : path) (n : node) : bool :=
  match n with
  | File _ => false
  | Dir es =>
      match p with
      | [] => false
      | [c] => match es !! c with Some (Dir _) => false | _ => true end
      | c :: p' =>
          match es !! c with
          | Some sub => writable p' sub
          | None => true
          end
      end
  end.

(** The three generation routes, by the kind of table they generate. *)
Definition generation_route (k : kind) : jval -> world -> response * world :=
  match k with
  | VideoDescription => make_video_description
  | ProductInfo => make_product_info
  | Judgement => judge
  end.

(** ** A session to run the handlers on

    Session [s1], model [qwen_video_image_raw]: descriptions for P0001
    and P0002, product information for P0001 and P0003, and judgements
    for P0002, P0001, P0003 in this order, the last with a label outside
    the three known ones. *)

Definition example_model : string := "qwen_video_image_raw".

Definition example_video_description : csv_file :=
  [ video_description_header;
    ["P0001"; "Video shows product features 1"; "Duration: 31 seconds";
     "Quality: Standard"];
    ["P0002"; "Video shows product features 2"; "Duration: 32 seconds";
     "Quality: Standard"] ].

Definition example_product_info : csv_file :=
  [ product_info_header;
    ["P0001"; "BrandB"; "$30"; "Model-1-XL"; "Clothing"];
    ["P0003"; "BrandD"; "$50"; "Model-3-XL"; "Sports"] ].

Definition example_judgement : csv_file :=
  [ judgement_header;
    ["P0002"; "Sample Product 2"; "Home & Garden"; "v2"; "t2"; "g2";
     "Yes"; "Product clearly matches criteria 2"];
    ["P0001"; "Sample Product 1"; "Clothing"; "v1"; "t1"; "g1";
     "No"; "Product does not meet the required standards 1"];
    ["P0003"; "Sample Product 3"; "Sports"; "v3"; "t3"; "g3";
     "Maybe"; "to be reviewed"] ].

Definition example_root : node :=
  Dir {[ "data" := Dir {[ "s1" := Dir {[ example_model := Dir
    {[ "video_description.csv" := File example_video_description;
       "product_info.csv" := File example_product_info;
       "judgement.csv" := File example_judgement ]} ]} ]} ]}.

Definition example_world : world := World example_root [] (fun n => n).

Definition example_args : list (string * string) :=
  [("uuid", "s1"); ("model", example_model)].

Definition example_body : jval :=
  JObj [("uuid", JStr "s1"); ("model", JStr example_model)].

Definition example_path (k : kind) : path :=
  ["data"; "s1"; example_model; kind_name k +:+ ".csv"].

(** A request for a model that is not in [MODEL_NAMES]. *)
Definition unknown_model_body : jval :=
  JObj [("uuid", JStr "s1"); ("model", JStr "gpt4");
        ("product_id", JStr "P0001"); ("new_label", JStr "No")].

Definition unknown_model_args : list (string * string) :=
  [("uuid", "s1"); ("model", "gpt4")].

(** The path of a table of a session, as [get_csv_path] derives it. *)
Definition table_path (u m : string) (k : kind) : path :=
  DATA_DIR ++ [u; m; kind_name k +:+ ".csv"].

(** [p.exists()] on a tree. *)
Definition present (p : path) (n : node) : bool :=
  bool_decide (is_Some (lookup_path p n)).

(** ** Tables *)

(** A table: no column name twice in the header, and every data record
    as long as the header. *)
Definition is_table (header : record) (rows : list record) : Prop :=
  NoDup header /\ Forall (fun r => length r = length header) rows.

(** A table with a [product_id] column. *)
Definition keyed_table (header : record) (rows : list record) : Prop :=
  "product_id" ∈ header /\ is_table header rows.

(** A table with all the columns of a judgement table. *)
Definition judgement_table (header : record) (rows : list record) : Prop :=
  Forall (fun c => c ∈ header) judgement_header /\ is_table header rows.

(** The field of a record in the column named [col]. *)
Definition field (header : record) (col : string) (r : record)
  : option string :=
  match list_find (fun c => c = col) header with
  | Some (i, _) => r !! i
  | None => None
  end.

(** A record of a table as a mapping from column names to fields. *)
Definition row_dict (header : record) (r : record) : pydict :=
  zip (Some <$> header) (PStr <$> r).

(** The item of a judgement record: its own fields, and the entries of
    the two mappings under its [product_id], or the empty mapping. *)
Definition joined_item (header : record) (vds pis : gmap key pydict)
    (r : record) : item :=
  let cell col := PStr (default "" (field header col r)) in
  let pid := Some (default "" (field header "product_id" r)) in
  Item (cell "product_id") (cell "product_name") (cell "category")
       (cell "video_url") (cell "thumbnail_url")
       (cell "ground_truth_image_url") (cell "label") (cell "reason")
       (default [] (vds !! pid)) (default [] (pis !! pid)).

(** The number of records whose label is [l]. *)
Definition label_count (header : record) (l : string) (rows : list record)
  : nat :=
  length (filter (fun r => field header "label" r = Some l) rows).

(** The records whose label is one of the three known ones. *)
Definition known_label_rows (header : record) (rows : list record)
  : list record :=
  filter (fun r => Exists (fun l => field header "label" r = Some l) labels)
         rows.

(** The mapping [d] has the column [k], and not with a list in it. *)
Definition has_text (k : string) (d : pydict) : Prop :=
  exists v, dict_get (Some k) d = Some v /\ forall l, v ≠ PList l.

(** A product information table in which P0001 stands twice. *)
Definition duplicate_header : record := ["product_id"; "brand"; "price"].
Definition duplicate_rows_before : list record :=
  [["P0001"; "BrandA"; "$10"]].
Definition duplicate_row_last : record := ["P0001"; "BrandB"; "$20"].
Definition duplicate_rows_after : list record :=
  [["P0002"; "BrandC"; "$30"]].

(** The header and the data rows of the example tables. *)
Definition example_rows (f : csv_file) : list record := tail f.

(** The example session before its product information is generated. *)
Definition incomplete_world : world :=
  World (remove_at (example_path ProductInfo) example_root) [] (fun n => n).

(** The record [r] with [v] in the column named [col]. *)
Definition set_field (header : record) (col v : string) (r : record)
  : record :=
  match list_find (fun c => c = col) header with
  | Some (i, _) => <[i := v]> r
  | None => r
  end.

(** A judgement record after an override of [pid] to [new_label]. *)
Definition relabelled (header : record) (pid new_label : string) (r : record)
  : record :=
  if decide (field header "product_id" r = Some pid)
  then set_field header "label" new_label r
  else r.

(** A judgement table in which P0001 stands twice, and the request that
    overrides its label to [No]. *)
Definition repeated_judgement_rows : list record :=
  [ ["P0001"; "Sample Product 1"; "Clothing"; "v1"; "t1"; "g1";
     "Yes"; "Product clearly matches criteria 1"];
    ["P0002"; "Sample Product 2"; "Home & Garden"; "v2"; "t2"; "g2";
     "N/A"; "Product information insufficient for determination 2"];
    ["P0001"; "Sample Product 1"; "Clothing"; "v1"; "t1"; "g1";
     "Yes"; "second opinion"] ].

Definition repeated_world : world :=
  World (Dir {[ "data" := Dir {[ "s1" := Dir {[ example_model := Dir
           {[ "judgement.csv" :=
                File (judgement_header :: repeated_judgement_rows) ]} ]} ]} ]})
        [] (fun n => n).

Definition override_body (pid lab : string) : jval :=
  JObj [("uuid", JStr "s1"); ("model", JStr example_model);
        ("product_id", JStr pid); ("new_label", JStr lab)].

(** The example session with a judgement table that has only its header,
    and one without any judgement table. *)
Definition header_only_world : world :=
  World (Dir {[ "data" := Dir {[ "s1" := Dir {[ example_model := Dir
           {[ "judgement.csv" := File [judgement_header] ]} ]} ]} ]})
        [] (fun n => n).

Definition no_judgement_world : world :=
  World (remove_at (example_path Judgement) example_root) [] (fun n => n).

(** * More of the code *)

(** ** ensure_model_dir and pull_data *)

Definition ensure_model_dir (uuid_str model_name : jval) : M path :=
  model_dir ← lift (get_model_dir uuid_str model_name);
  mkdir model_dir;;
  mret model_dir.

(** [isinstance(v, int)]: Python's [bool] is a subclass of [int]. *)
Definition isinstance_int (v : jval) : bool :=
  match v with
  | JNum _ | JBool _ => true
  | _ => false
  end.

(** [v < 1] for a value that passed [isinstance(v, int)]: [True] is 1 and
    [False] is 0. *)
Definition below_one (v : jval) : bool :=
  match v with
  | JNum z => Z.ltb z 1
  | JBool b => negb b
  | _ => false
  end.

Definition pull_data (data : jval) : world -> response * world :=
  handler
    (uuid_str ← lift (json_get "uuid" data);
     days_back ← lift (json_get "days_back" data);
     if negb (truthy uuid_str) || negb (truthy days_back) then
       mret (Response 400 (PFail "Missing uuid or days_back"))
     else if negb (isinstance_int days_back) || below_one days_back then
       mret (Response 400 (PFail "days_back must be a positive integer"))
     else
       for_each MODEL_NAMES (fun model_name =>
         ensure_model_dir uuid_str (JStr model_name);; mret tt);;
       mret (Response 200 POk))
    PFailExn.

(** ** Notions for the properties of the routes *)

(** The values of [days_back] that [pull_data] lets through: an integer
    from 1 on, or [true]. *)
Definition positive_int (v : jval) : bool :=
  match v with
  | JNum z => Z.leb 1 z
  | JBool b => b
  | _ => false
  end.


(** The directory of a model of a session, as [get_model_dir] derives it. *)
Definition model_dir_path (u m : string) : path := DATA_DIR ++ [u; m].

(** The directory of a session. *)
Definition session_path (u : string) : path := DATA_DIR ++ [u].

(** A computation changes the tree at [p] and in the directories on the
    way to [p] at most: what is found at any other path stays. *)
Definition touches_only {A} (p : path) (m : M A) : Prop :=
  forall w q, ¬ q `prefix_of` p ->
    lookup_path q (root (m w).2) = lookup_path q (root w).

Definition is_probe_or_read (e : io_event) : Prop :=
  match e with
  | EvExists _ | EvRead _ => True
  | _ => False
  end.

(** A computation leaves the tree and the random source as they are and
    logs nothing but existence probes and reads. *)
Definition read_only {A} (m : M A) : Prop :=
  forall w, root (m w).2 = root w
            /\ rand (m w).2 = rand w
            /\ exists evs, io_log (m w).2 = io_log w ++ evs
                           /\ Forall is_probe_or_read evs.

(** A request to [pull_data] for the example session. *)
Definition pull_body (days_back : jval) : jval :=
  JObj [("uuid", JStr "s1"); ("days_back", days_back)].


(** The judgement table of another session, next to the example one. *)
Definition other_table : path := ["data"; "s2"; example_model; "judgement.csv"].

Definition two_sessions_world : world :=
  World (Dir {[ "data" := Dir
    {[ "s1" := Dir {[ example_model := Dir
         {[ "video_description.csv" := File example_video_description;
            "product_info.csv" := File example_product_info;
            "judgement.csv" := File example_judgement ]} ]};
       "s2" := Dir {[ example_model := Dir
         {[ "judgement.csv" :=
              File (judgement_header :: repeated_judgement_rows) ]} ]} ]} ]})
    [] (fun n => n).


(** A world whose working directory is empty. *)
Definition fresh_world : world := World (Dir ∅) [] (fun n => n).

(** A request without a session: the body holds an empty [uuid], the
    query string none at all. *)
Definition no_uuid_fields : list (string * jval) :=
  [("uuid", JStr ""); ("model", JStr example_model); ("days_back", JNum 7);
   ("product_id", JStr "P0001"); ("new_label", JStr "No")].

Definition no_uuid_args : list (string * string) := [("model", example_model)].

(** The columns that [get_results] reads in every row of a table. *)
Definition columns_read (k : kind) : list string :=
  match k with
  | Judgement =>
      ["product_id"; "label"; "product_name"; "category"; "video_url";
       "thumbnail_url"; "ground_truth_image_url"; "reason"]
  | _ => ["product_id"]
  end.

(** What the loop of [override_label] makes of one row. *)
Definition override_row (product_id new_label : jval) (row : pydict)
  : pydict :=
  if py_eq (default PNone (dict_get (Some "product_id") row)) product_id
  then dict_set (Some "label") (to_cell new_label) row
  else row.

(** A judgement file whose second record has one field more than the
    header. *)
Definition ragged_rows_before : list record :=
  [["P0001"; "Sample Product 1"; "Clothing"; "v1"; "t1"; "g1";
    "Yes"; "Product clearly matches criteria 1"]].
Definition ragged_row : record :=
  ["P0002"; "Sample Product 2"; "Home & Garden"; "v2"; "t2"; "g2";
   "N/A"; "Product information insufficient"; "for determination 2"].
Definition ragged_rows_after : list record :=
  [["P0003"; "Sample Product 3"; "Sports"; "v3"; "t3"; "g3";
    "No"; "Product does not meet the required standards 3"]].

Definition ragged_world : world :=
  World (Dir {[ "data" := Dir {[ "s1" := Dir {[ example_model := Dir
           {[ "judgement.csv" :=
                File (judgement_header
                      :: ragged_rows_before ++ ragged_row :: ragged_rows_after)
           ]} ]} ]} ]})
        [] (fun n => n).

(** The columns of a table of each kind, as the data model gives them:
    [product_id] first, then the columns of the kind. *)
Definition table_columns (k : kind) : record :=
  match k with
  | VideoDescription =>
      ["product_id"; "description_key1"; "description_key2";
       "description_key3"]
  | ProductInfo => ["product_id"; "brand"; "price"; "spec"; "category"]
  | Judgement =>
      ["product_id"; "product_name"; "category"; "video_url";
       "thumbnail_url"; "ground_truth_image_url"; "label"; "reason"]
  end.

(** A name that a directory entry can have and that pathlib keeps as one
    component: not empty, not [.] or [..], without [/] and without the
    null character. *)
Definition plain_component (s : string) : bool :=
  negb (String.eqb s "") && negb (String.eqb s ".")
  && negb (String.eqb s "..")
  && forallb (fun c => negb (Ascii.eqb c "/"%char)
                       && negb (Ascii.eqb c Ascii.zero))
       (String.list_ascii_of_string s).

(** A path of the tree: every component is a plain name. *)
Definition plain_path (q : path) : Prop :=
  Forall (fun c => plain_component c = true) q.

(** * Properties *)

(** ** The directory tree *)

Lemma lookup_path_app (p q : path) (n : node) :
  lookup_path (p ++ q) n = lookup_path p n ≫= lookup_path q.
Proof.
  revert n. induction p as [|c p IH]; intros n; simpl; [done|].
  destruct n as [f|es]; [done|].
  destruct (es !! c) as [sub|]; simpl; [apply IH|done].
Qed.

Lemma lookup_path_below_file (p q : path) (n : node) (f : csv_file) :
  lookup_path p n = Some (File f) -> q ≠ [] -> lookup_path (p ++ q) n = None.
Proof.
  intros Hp Hq. rewrite lookup_path_app, Hp. simpl.
  destruct q; [done|reflexivity].
Qed.

Lemma lookup_path_below_none (p q : path) (n : node) :
  lookup_path p n = None -> lookup_path (p ++ q) n = None.
Proof. intros Hp. rewrite lookup_path_app, Hp. reflexivity. Qed.

Lemma write_at_cons (x y : string) (p : path) (c : csv_file)
    (es : gmap string node) :
  write_at (x :: y :: p) c (Dir es) =
  match es !! x with
  | Some sub =>
      match write_at (y :: p) c sub with
      | inr sub' => inr (Dir (<[x := sub']> es))
      | inl e => inl e
      end
  | None => inl OSError
  end.
Proof. reflexivity. Qed.

Lemma remove_at_cons (x y : string) (p : path) (es : gmap string node) :
  remove_at (x :: y :: p) (Dir es) =
  match es !! x with
  | Some sub => Dir (<[x := remove_at (y :: p) sub]> es)
  | None => Dir es
  end.
Proof. reflexivity. Qed.

(** A successful write leaves the written records at the path. *)
Lemma lookup_write_at (p : path) (c : csv_file) (n n' : node) :
  write_at p c n = inr n' -> lookup_path p n' = Some (File c).
Proof.
  revert n n'. induction p as [|x p IH]; intros n n' H.
  - destruct n; discriminate.
  - destruct n as [f|es]; [discriminate|].
    destruct p as [|y p]; [simpl in H|rewrite write_at_cons in H].
    + assert (n' = Dir (<[x := File c]> es)) as ->.
      { destruct (es !! x) as [[|]|]; congruence. }
      simpl. rewrite lookup_insert_eq. reflexivity.
    + destruct (es !! x) as [sub|]; [|discriminate].
      destruct (write_at (y :: p) c sub) as [e|sub'] eqn:Hw;
        simpl in H; [discriminate|].
      injection H as <-. cbn [lookup_path]. rewrite lookup_insert_eq.
      simpl. apply (IH _ _ Hw).
Qed.

(** Where a file is, a write succeeds. *)
Lemma write_at_over_file (p : path) (c c0 : csv_file) (n : node) :
  p ≠ [] -> lookup_path p n = Some (File c0) ->
  exists n', write_at p c n = inr n'.
Proof.
  revert n. induction p as [|x p IH]; intros n Hp H; [done|].
  destruct n as [f|es]; [discriminate|]. simpl in H.
  destruct (es !! x) as [sub|] eqn:Hx; [|discriminate]. simpl in H.
  destruct p as [|y p].
  - simpl in H. injection H as ->. simpl. rewrite Hx. eauto.
  - destruct (IH sub) as [sub' Hs]; [done|done|].
    rewrite write_at_cons, Hx, Hs. eauto.
Qed.

(** After [remove_at p] nothing is found at [p] or below it. *)
Lemma lookup_remove_at (p q : path) (n : node) :
  p ≠ [] -> lookup_path (p ++ q) (remove_at p n) = None.
Proof.
  revert n. induction p as [|x p IH]; intros n Hp; [done|].
  destruct n as [f|es]; [reflexivity|].
  destruct p as [|y p].
  - simpl. by rewrite lookup_delete_eq.
  - rewrite remove_at_cons. destruct (es !! x) as [sub|] eqn:Hx.
    + change ((x :: y :: p) ++ q) with (x :: ((y :: p) ++ q)).
      cbn [lookup_path]. rewrite lookup_insert_eq. simpl. by apply IH.
    + simpl. by rewrite Hx.
Qed.

(** ** Running the monad *)

Lemma run_bind {A B} (m : M A) (f : A -> M B) (w : world) :
  (m ≫= f) w = match m w with
               | (inr a, w') => f a w'
               | (inl e, w') => (inl e, w')
               end.
Proof. reflexivity. Qed.

Lemma run_ret {A} (a : A) (w : world) : (mret a : M A) w = (inr a, w).
Proof. reflexivity. Qed.

Lemma run_lift {A} (r : exn + A) (w : world) : lift r w = (r, w).
Proof. reflexivity. Qed.


Lemma run_path_exists (p : path) (w : world) :
  path_exists p w =
  (inr (bool_decide (is_Some (lookup_path p (root w)))), logged (EvExists p) w).
Proof. reflexivity. Qed.

Lemma run_mkdir (p : path) (w : world) :
  mkdir p w =
  match mkdir_parents p (root w) with
  | inr n' => (inr tt, World n' (io_log w ++ [EvMkdir p]) (rand w))
  | inl e => (inl e, logged (EvMkdir p) w)
  end.
Proof.
  unfold mkdir, logged, mbind, M_bind, bind, lift. simpl.
  by destruct (mkdir_parents p (root w)).
Qed.

Lemma run_read_file (p : path) (w : world) :
  read_file p w =
  match lookup_path p (root w) with
  | Some (File c) => (inr c, logged (EvRead p) w)
  | _ => (inl OSError, logged (EvRead p) w)
  end.
Proof.
  unfold read_file, logged, mbind, M_bind, bind. simpl.
  by destruct (lookup_path p (root w)) as [[|]|].
Qed.

Lemma run_open_w (p : path) (w : world) :
  open_w p w =
  match write_at p [] (root w) with
  | inr n' => (inr tt, World n' (io_log w ++ [EvWrite p]) (rand w))
  | inl e => (inl e, logged (EvWrite p) w)
  end.
Proof.
  unfold open_w, logged, mbind, M_bind, bind, lift. simpl.
  by destruct (write_at p [] (root w)).
Qed.

Lemma run_writerow (p : path) (r : record) (w : world) :
  writerow p r w =
  match lookup_path p (root w) with
  | Some (File c) =>
      match write_at p (c ++ [r]) (root w) with
      | inr n' => (inr tt, World n' (io_log w) (rand w))
      | inl e => (inl e, w)
      end
  | _ => (inl OSError, w)
  end.
Proof.
  unfold writerow, mbind, M_bind, bind, lift. simpl.
  by destruct (lookup_path p (root w)) as [[c|]|].
Qed.

Lemma run_rmtree (p : path) (w : world) :
  rmtree p w =
  match lookup_path p (root w) with
  | Some (Dir _) =>
      (inr tt, World (remove_at p (root w)) (io_log w ++ [EvRmtree p]) (rand w))
  | _ => (inl OSError, logged (EvRmtree p) w)
  end.
Proof.
  unfold rmtree, logged, mbind, M_bind, bind. simpl.
  by destruct (lookup_path p (root w)) as [[|]|].
Qed.

(** A row written to an open file lands behind the ones it holds. *)
Lemma writerow_appends (p : path) (r : record) (c : csv_file) (w : world) :
  p ≠ [] -> lookup_path p (root w) = Some (File c) ->
  exists n', writerow p r w = (inr tt, World n' (io_log w) (rand w))
             /\ lookup_path p n' = Some (File (c ++ [r])).
Proof.
  intros Hp H. rewrite run_writerow, H.
  destruct (write_at_over_file p (c ++ [r]) c (root w) Hp H) as [n' Hn'].
  rewrite Hn'. exists n'. split; [done|]. by eapply lookup_write_at.
Qed.

Lemma for_each_writerow {A} (p : path) (f : A -> record) (l : list A)
    (c : csv_file) (w : world) :
  p ≠ [] -> lookup_path p (root w) = Some (File c) ->
  exists n', for_each l (fun x => writerow p (f x)) w
             = (inr tt, World n' (io_log w) (rand w))
             /\ lookup_path p n' = Some (File (c ++ (f <$> l))).
Proof.
  intros Hp. revert c w. induction l as [|x l IH]; intros c w H.
  - exists (root w). simpl. rewrite app_nil_r. by destruct w.
  - destruct (writerow_appends p (f x) c w Hp H) as (n1 & Hr & Hl).
    destruct (IH (c ++ [f x]) (World n1 (io_log w) (rand w)) Hl)
      as (n2 & Hr2 & Hl2).
    exists n2. cbn [for_each]. rewrite run_bind, Hr, Hr2.
    split; [done|]. by rewrite Hl2, <- app_assoc.
Qed.


(** ** The table generator *)

Lemma write_at_nil (c : csv_file) (n : node) : write_at [] c n = inl OSError.
Proof. by destruct n. Qed.

Lemma write_at_inr_path (p : path) (c : csv_file) (n n' : node) :
  write_at p c n = inr n' -> p ≠ [].
Proof. intros H ->. by rewrite write_at_nil in H. Qed.

(** A drawn label has its reason. *)
Lemma reasons_drawn (rnd : nat -> nat) (i j : nat) :
  is_Some (reasons i !! drawn_label rnd j).
Proof.
  unfold drawn_label.
  assert (rnd j mod length labels < 3) as H
    by (apply Nat.mod_upper_bound; discriminate).
  destruct (rnd j mod length labels) as [|[|[|?]]]; [..|lia];
    eexists; reflexivity.
Qed.

Lemma drawn_rows_shift (rnd : nat -> nat) (first k : nat) :
  drawn_judgement_row rnd first <$> seq 1 k
  = drawn_judgement_row (fun n => rnd (S n)) (S first) <$> seq 0 k.
Proof.
  rewrite <- fmap_S_seq, <- list_fmap_compose.
  apply list_fmap_ext. intros _ j _. unfold drawn_judgement_row, drawn_label.
  simpl. by rewrite Nat.add_succ_r.
Qed.

(** The loop of the judgement branch: one draw and one row per index. *)
Lemma judgement_rows_written (p : path) (k : nat) :
  forall (first : nat) (c : csv_file) (w : world),
  p ≠ [] -> lookup_path p (root w) = Some (File c) ->
  exists n',
    for_each (seq first k) (fun i =>
      label ← random_choice labels;
      reason ← lift (match reasons i !! label with
                     | Some r => inr r
                     | None => inl (KeyError label)
                     end);
      writerow p (judgement_row i label reason)) w
    = (inr tt, World n' (io_log w) (fun j => rand w (k + j)))
    /\ lookup_path p n'
       = Some (File (c ++ (drawn_judgement_row (rand w) first <$> seq 0 k))).
Proof.
  induction k as [|k IH]; intros first c w Hp H.
  - exists (root w). simpl. rewrite app_nil_r. by destruct w.
  - cbn [seq for_each].
    set (w1 := World (root w) (io_log w) (fun n => rand w (S n))).
    destruct (reasons_drawn (rand w) first 0) as [t Ht].
    destruct (writerow_appends p
                (judgement_row first (drawn_label (rand w) 0) t) c w1 Hp H)
      as (n1 & Hr & Hl).
    destruct (IH (S first) _ (World n1 (io_log w) (rand w1)) Hp Hl)
      as (n2 & Hr2 & Hl2).
    exists n2. split.
    + rewrite run_bind.
      change ((label ← random_choice labels;
               reason ← lift (match reasons first !! label with
                             | Some r => inr r
                             | None => inl (KeyError label)
                             end);
               writerow p (judgement_row first label reason)) w)
        with ((reason ← lift (match reasons first !! drawn_label (rand w) 0 with
                             | Some r => inr r
                             | None => inl (KeyError (drawn_label (rand w) 0))
                             end);
               writerow p (judgement_row first (drawn_label (rand w) 0) reason))
                w1).
      rewrite Ht, run_bind, run_lift, Hr. exact Hr2.
    + rewrite Hl2, <- app_assoc. do 2 f_equal.
      change (seq 0 (S k)) with (0 :: seq 1 k). rewrite fmap_cons.
      rewrite drawn_rows_shift. cbn [app]. f_equal.
      unfold drawn_judgement_row. rewrite Nat.add_0_r, Ht. reflexivity.
Qed.

(** What [create_sample_csv] does once the directory can be made and the
    file can be opened: the header and the rows, and nothing else. *)
Lemma create_sample_csv_writes (k : kind) (p : path) (num_items : nat)
    (w : world) (n1 n2 : node) :
  mkdir_parents (parent p) (root w) = inr n1 ->
  write_at p [] n1 = inr n2 ->
  exists n3,
    create_sample_csv p (kind_name k) num_items w
    = (inr tt, World n3 (io_log w ++ [EvMkdir (parent p); EvWrite p])
                 (fun j => rand w (match k with
                                   | Judgement => num_items + j
                                   | _ => j
                                   end)))
    /\ lookup_path p n3
       = Some (File (header_of k :: rows_of k (rand w) 1 num_items)).
Proof.
  intros Hm Ho.
  pose proof (write_at_inr_path _ _ _ _ Ho) as Hp.
  pose proof (lookup_write_at _ _ _ _ Ho) as Hl.
  set (w2 := World n2 ((io_log w ++ [EvMkdir (parent p)]) ++ [EvWrite p])
                (rand w)).
  destruct (writerow_appends p (header_of k) [] w2 Hp Hl) as (n3 & Hr & Hl3).
  unfold create_sample_csv. rewrite run_bind, run_mkdir, Hm.
  destruct k; simpl kind_name;
    repeat (rewrite decide_False by discriminate);
    rewrite decide_True by reflexivity;
    rewrite run_bind, run_open_w; cbn [root io_log rand]; rewrite Ho;
    rewrite run_bind; fold w2; simpl header_of in Hr; rewrite Hr.
  - destruct (for_each_writerow p video_description_row (seq 1 num_items)
                _ (World n3 (io_log w2) (rand w2)) Hp Hl3) as (n4 & Hr4 & Hl4).
    exists n4. rewrite Hr4. subst w2. cbn [io_log rand].
    rewrite <- app_assoc. split; [reflexivity|]. exact Hl4.
  - destruct (for_each_writerow p product_info_row (seq 1 num_items)
                _ (World n3 (io_log w2) (rand w2)) Hp Hl3) as (n4 & Hr4 & Hl4).
    exists n4. rewrite Hr4. subst w2. cbn [io_log rand].
    rewrite <- app_assoc. split; [reflexivity|]. exact Hl4.
  - destruct (judgement_rows_written p num_items 1
                _ (World n3 (io_log w2) (rand w2)) Hp Hl3) as (n4 & Hr4 & Hl4).
    exists n4. rewrite Hr4. subst w2. cbn [io_log rand].
    rewrite <- app_assoc. split; [reflexivity|]. exact Hl4.
Qed.

Lemma rows_of_length (k : kind) (rnd : nat -> nat) (first n : nat) :
  length (rows_of k rnd first n) = n.
Proof. destruct k; simpl; by rewrite length_fmap, length_seq. Qed.

(** Whenever the generator returns, the mkdir and the open went through. *)
Lemma create_sample_csv_inr (k : kind) (p : path) (num_items : nat)
    (w w' : world) :
  create_sample_csv p (kind_name k) num_items w = (inr tt, w') ->
  exists n1 n2, mkdir_parents (parent p) (root w) = inr n1
                /\ write_at p [] n1 = inr n2.
Proof.
  unfold create_sample_csv. rewrite run_bind, run_mkdir.
  destruct (mkdir_parents (parent p) (root w)) as [e|n1]; [discriminate|].
  destruct (write_at p [] n1) as [e|n2] eqn:Ho; [|eauto].
  destruct k; simpl kind_name;
    repeat (rewrite decide_False by discriminate);
    rewrite decide_True by reflexivity;
    rewrite run_bind, run_open_w; cbn [root io_log rand]; rewrite Ho;
    discriminate.
Qed.

Lemma writable_cons (x y : string) (p : path) (es : gmap string node) :
  writable (x :: y :: p) (Dir es) =
  match es !! x with
  | Some sub => writable (y :: p) sub
  | None => true
  end.
Proof. reflexivity. Qed.

Lemma writable_empty_dir (p : path) : p ≠ [] -> writable p (Dir ∅) = true.
Proof.
  destruct p as [|x [|y p]]; [done|..]; intros _.
  - simpl. by rewrite lookup_empty.
  - by rewrite writable_cons, lookup_empty.
Qed.

Lemma writable_can_create (p : path) (content : csv_file) (n : node) :
  writable p n = true ->
  exists n1 n2, mkdir_parents (parent p) n = inr n1
                /\ write_at p content n1 = inr n2.
Proof.
  revert n. induction p as [|x p IH]; intros n H.
  - by destruct n.
  - destruct n as [f|es]; [discriminate|].
    destruct p as [|y p].
    + exists (Dir es). simpl in *.
      destruct (es !! x) as [[?|?]|]; [eauto|discriminate|eauto].
    + rewrite writable_cons in H.
      assert (writable (y :: p) (default (Dir ∅) (es !! x)) = true) as Hs.
      { destruct (es !! x); [done|]. by apply writable_empty_dir. }
      destruct (IH _ Hs) as (n1 & n2 & Hm & Hw).
      exists (Dir (<[x := n1]> es)), (Dir (<[x := n2]> (<[x := n1]> es))).
      change (parent (x :: y :: p)) with (x :: parent (y :: p)).
      cbn [mkdir_parents]. rewrite Hm. split; [done|].
      by rewrite write_at_cons, lookup_insert_eq, Hw.
Qed.

Lemma writable_over_file (p : path) (old : csv_file) (n : node) :
  p ≠ [] -> lookup_path p n = Some (File old) -> writable p n = true.
Proof.
  revert n. induction p as [|x p IH]; intros n Hp H; [done|].
  destruct n as [f|es]; [discriminate|]. simpl in H.
  destruct (es !! x) as [sub|] eqn:Hx; [|discriminate]. simpl in H.
  destruct p as [|y p].
  - simpl in *. injection H as ->. by rewrite Hx.
  - rewrite writable_cons, Hx. by apply IH.
Qed.

(** ** Validation of the request *)

Lemma json_get_obj (k : string) (o : list (string * jval)) :
  exists v, json_get k (JObj o) = inr v.
Proof.
  simpl. destruct (list_find _ o) as [[? [? v]]|]; eauto.
Qed.

Lemma in_strs_false (v : jval) (l : list string) :
  (forall s, v = JStr s -> s ∉ l) -> in_strs v l = false.
Proof.
  intros H. destruct v; try reflexivity. simpl.
  apply bool_decide_eq_false. by apply H.
Qed.

Lemma in_strs_true (s : string) (l : list string) :
  s ∈ l -> in_strs (JStr s) l = true.
Proof. intros H. simpl. by apply bool_decide_eq_true. Qed.

Lemma truthy_str (s : string) : s ≠ "" -> truthy (JStr s) = true.
Proof.
  intros H. simpl. apply negb_true_iff. by apply String.eqb_neq.
Qed.

(** ** C9: an unknown model name is rejected before anything is touched *)

(** C9.  On each of the six routes that take a model (the three
    generation routes, status, results and override_label), a request
    whose model is not one of the 12 names of [MODEL_NAMES] is answered
    with status 400, whatever the other fields hold, and the world is
    left as it was: no file or directory is probed, read, written or
    removed. *)
Theorem invalid_model_rejected (py_str_list : list string -> string)
    (o : list (string * jval)) (args : list (string * string)) (w : world) :
  (forall s, json_get "model" (JObj o) = inr (JStr s) -> s ∉ MODEL_NAMES) ->
  (forall s, args_get "model" args = JStr s -> s ∉ MODEL_NAMES) ->
  length MODEL_NAMES = 12
  /\ Forall (fun r : response * world => status_code r.1 = 400 /\ r.2 = w)
       [ make_video_description (JObj o) w;
         make_product_info (JObj o) w;
         judge (JObj o) w;
         get_status args w;
         get_results args w;
         override_label py_str_list (JObj o) w ].
Proof.
  intros Hpost Hget. split; [reflexivity|].
  destruct (json_get_obj "uuid" o) as [uv Hu].
  destruct (json_get_obj "model" o) as [mv Hm].
  destruct (json_get_obj "product_id" o) as [pv Hp].
  destruct (json_get_obj "new_label" o) as [lv Hl].
  assert (in_strs mv MODEL_NAMES = false) as Hin.
  { apply in_strs_false. intros s ->. by apply Hpost. }
  assert (in_strs (args_get "model" args) MODEL_NAMES = false) as Hin'.
  { apply in_strs_false. intros s Hs. by apply Hget. }
  repeat apply Forall_cons_2; [..|apply Forall_nil_2].
  - unfold make_video_description, handler.
    rewrite run_bind, run_lift, Hu, run_bind, run_lift, Hm.
    destruct (truthy uv), (truthy mv); simpl; rewrite ?Hin; simpl; done.
  - unfold make_product_info, handler.
    rewrite run_bind, run_lift, Hu, run_bind, run_lift, Hm.
    destruct (truthy uv), (truthy mv); simpl; rewrite ?Hin; simpl; done.
  - unfold judge, handler.
    rewrite run_bind, run_lift, Hu, run_bind, run_lift, Hm.
    destruct (truthy uv), (truthy mv); simpl; rewrite ?Hin; simpl; done.
  - unfold get_status, handler. cbv zeta.
    destruct (truthy (args_get "uuid" args)),
      (truthy (args_get "model" args)); simpl; rewrite ?Hin'; simpl; done.
  - unfold get_results, handler. cbv zeta.
    destruct (truthy (args_get "uuid" args)),
      (truthy (args_get "model" args)); simpl; rewrite ?Hin'; simpl; done.
  - unfold override_label, handler.
    rewrite run_bind, run_lift, Hu, run_bind, run_lift, Hm,
      run_bind, run_lift, Hp, run_bind, run_lift, Hl.
    destruct (truthy uv), (truthy mv), (truthy pv), (truthy lv); simpl;
      rewrite ?Hin; simpl; done.
Qed.

Lemma invalid_model_rejected_witness :
  ((forall s, json_get "model" unknown_model_body = inr (JStr s) ->
              s ∉ MODEL_NAMES)
   /\ (forall s, args_get "model" unknown_model_args = JStr s ->
                 s ∉ MODEL_NAMES))
  /\ length MODEL_NAMES = 12
  /\ Forall (fun r : response * world =>
               status_code r.1 = 400 /\ r.2 = example_world)
       [ make_video_description unknown_model_body example_world;
         make_product_info unknown_model_body example_world;
         judge unknown_model_body example_world;
         get_status unknown_model_args example_world;
         get_results unknown_model_args example_world;
         override_label (fun _ => "") unknown_model_body example_world ].
Proof.
  assert (forall s, JStr "gpt4" = JStr s -> s ∉ MODEL_NAMES) as H.
  { intros s [= <-]. apply (bool_decide_unpack _). vm_compute. reflexivity. }
  split; [split; intros s Hs; apply H; vm_compute in Hs; congruence|].
  apply (invalid_model_rejected (fun _ => "")
           [("uuid", JStr "s1"); ("model", JStr "gpt4");
            ("product_id", JStr "P0001"); ("new_label", JStr "No")]
           unknown_model_args example_world).
  - intros s Hs. apply H. vm_compute in Hs. congruence.
  - intros s Hs. apply H. vm_compute in Hs. congruence.
Defined.

(** ** The identifiers of the generated rows *)

Lemma digits_value_zeros (k : nat) (s : string) :
  digits_value (zeros k +:+ s) = digits_value s.
Proof.
  induction k as [|k IH]; [reflexivity|].
  unfold digits_value in *. simpl.
  destruct (NilEmpty.uint_of_string (zeros k +:+ s)) as [d|];
    destruct (NilEmpty.uint_of_string s) as [d'|]; simpl in *;
    try discriminate; [|done].
  injection IH as IH. f_equal. exact IH.
Qed.

Lemma digits_value_str_of_nat (i : nat) : digits_value (str_of_nat i) = Some i.
Proof.
  unfold digits_value, str_of_nat. rewrite NilEmpty.usu. simpl.
  f_equal. apply DecimalNat.Unsigned.of_to.
Qed.

Lemma digits_value_zero_pad (width i : nat) :
  digits_value (zero_pad width i) = Some i.
Proof.
  unfold zero_pad. rewrite digits_value_zeros. apply digits_value_str_of_nat.
Qed.

Global Instance product_id_of_inj : Inj (=) (=) product_id_of.
Proof.
  intros i j H.
  change (String "P"%char (zero_pad 4 i) = String "P"%char (zero_pad 4 j)) in H.
  injection H as H. apply (f_equal digits_value) in H.
  rewrite !digits_value_zero_pad in H. congruence.
Qed.

Lemma first_column_rows_of (k : kind) (rnd : nat -> nat) (n : nat) :
  first_column (rows_of k rnd 1 n) = product_id_of <$> seq 1 n.
Proof.
  unfold first_column. destruct k; simpl rows_of.
  - rewrite <- list_fmap_compose. by apply list_fmap_ext.
  - rewrite <- list_fmap_compose. by apply list_fmap_ext.
  - rewrite <- fmap_S_seq, <- !list_fmap_compose. by apply list_fmap_ext.
Qed.

(** ** C10: generated rows have pairwise distinct identifiers *)

(** C10.  For every kind of table and every count, when the generator
    returns, the file holds the header, whose first column is
    [product_id], and rows whose identifiers are [P0001], [P0002], ... up
    to the one of the count, each made from the row number by
    [product_id_of], which is injective; so no two rows of a generated
    table share a [product_id]. *)
Theorem generated_product_ids_distinct (k : kind) (p : path)
    (num_items : nat) (w w' : world) :
  create_sample_csv p (kind_name k) num_items w = (inr tt, w') ->
  exists rows,
    lookup_path p (root w') = Some (File (header_of k :: rows))
    /\ header_of k !! 0 = Some "product_id"
    /\ first_column rows = product_id_of <$> seq 1 num_items
    /\ NoDup (first_column rows)
    /\ (forall i j, product_id_of i = product_id_of j -> i = j).
Proof.
  intros H. destruct (create_sample_csv_inr _ _ _ _ _ H) as (n1 & n2 & Hm & Ho).
  destruct (create_sample_csv_writes k p num_items w n1 n2 Hm Ho)
    as (n3 & Hr & Hl).
  rewrite Hr in H. injection H as <-.
  exists (rows_of k (rand w) 1 num_items).
  split; [exact Hl|]. split; [by destruct k|].
  split; [apply first_column_rows_of|]. split.
  - rewrite first_column_rows_of. apply NoDup_fmap_2; [apply _|apply NoDup_seq].
  - intros i j. apply product_id_of_inj.
Qed.

Lemma generated_product_ids_distinct_witness :
  let w' := (create_sample_csv (example_path ProductInfo)
               (kind_name ProductInfo) 3 example_world).2 in
  create_sample_csv (example_path ProductInfo) (kind_name ProductInfo) 3
    example_world = (inr tt, w')
  /\ exists rows,
       lookup_path (example_path ProductInfo) (root w')
       = Some (File (header_of ProductInfo :: rows))
       /\ header_of ProductInfo !! 0 = Some "product_id"
       /\ first_column rows = product_id_of <$> seq 1 3
       /\ NoDup (first_column rows)
       /\ (forall i j, product_id_of i = product_id_of j -> i = j).
Proof.
  intros w'. split; [vm_compute; reflexivity|].
  apply (generated_product_ids_distinct ProductInfo (example_path ProductInfo)
           3 example_world w').
  vm_compute. reflexivity.
Defined.

(** ** get_status and clear_all *)

Lemma get_csv_path_video_description (u m : string) :
  get_csv_path (JStr u) (JStr m) "video_description"
  = inr (table_path u m VideoDescription).
Proof. reflexivity. Qed.

Lemma get_csv_path_product_info (u m : string) :
  get_csv_path (JStr u) (JStr m) "product_info"
  = inr (table_path u m ProductInfo).
Proof. reflexivity. Qed.

Lemma get_csv_path_judgement (u m : string) :
  get_csv_path (JStr u) (JStr m) "judgement"
  = inr (table_path u m Judgement).
Proof. reflexivity. Qed.

Lemma model_name_truthy (m : string) :
  m ∈ MODEL_NAMES -> truthy (JStr m) = true.
Proof.
  intros Hm. apply truthy_str. intros ->. revert Hm.
  apply (bool_decide_unpack _). vm_compute. reflexivity.
Qed.

Lemma get_status_run (args : list (string * string)) (u m : string)
    (w : world) :
  args_get "uuid" args = JStr u -> u ≠ "" ->
  args_get "model" args = JStr m -> m ∈ MODEL_NAMES ->
  get_status args w =
  (Response 200 (PStatus
     {[ "video_description_csv" :=
          status_word (present (table_path u m VideoDescription) (root w));
        "product_info_csv" :=
          status_word (present (table_path u m ProductInfo) (root w));
        "judgement_csv" :=
          status_word (present (table_path u m Judgement) (root w)) ]}),
   World (root w)
     (io_log w ++ [EvExists (table_path u m VideoDescription);
                   EvExists (table_path u m ProductInfo);
                   EvExists (table_path u m Judgement)])
     (rand w)).
Proof.
  intros Hu Hu' Hm Hm'. unfold get_status, handler. cbv zeta.
  rewrite Hu, Hm, (truthy_str u Hu'), (in_strs_true m _ Hm'),
    (model_name_truthy m Hm').
  cbn [negb orb].
  rewrite run_bind, run_lift, get_csv_path_video_description.
  rewrite run_bind, run_lift, get_csv_path_product_info.
  rewrite run_bind, run_lift, get_csv_path_judgement.
  rewrite run_bind, run_path_exists, run_bind, run_path_exists,
    run_bind, run_path_exists, run_ret.
  unfold logged. cbn [root io_log rand]. rewrite <- !app_assoc. reflexivity.
Qed.

(** After [clear_all] nothing is left below the directory of the session,
    whether the route removed it, found nothing to remove, or failed on a
    file that has the name of the session. *)
Lemma clear_all_clears (data : jval) (u : string) (q : path) (w : world) :
  json_get "uuid" data = inr (JStr u) -> u ≠ "" -> q ≠ [] ->
  lookup_path ((DATA_DIR ++ [u]) ++ q) (root (clear_all data w).2) = None.
Proof.
  intros Hu Hu' Hq. unfold clear_all, handler.
  rewrite run_bind, run_lift, Hu, (truthy_str u Hu'). cbn [negb].
  rewrite run_bind, run_lift, run_bind, run_path_exists.
  destruct (lookup_path (DATA_DIR ++ [u]) (root w)) as [[f|es]|] eqn:Hl.
  - rewrite bool_decide_eq_true_2 by eauto.
    rewrite run_bind, run_rmtree. cbn [logged root]. rewrite Hl.
    cbn [snd root]. by eapply lookup_path_below_file.
  - rewrite bool_decide_eq_true_2 by eauto.
    rewrite run_bind, run_rmtree. cbn [logged root]. rewrite Hl.
    rewrite run_ret. cbn [snd root]. by apply lookup_remove_at.
  - rewrite bool_decide_eq_false_2 by (intros [? ?]; discriminate).
    rewrite run_bind, !run_ret. cbn [logged snd root].
    by apply lookup_path_below_none.
Qed.

(** ** C7: the status route *)

(** C7, as the code has it.  For a session and a valid model name, the
    status route answers 200 with a mapping whose keys are exactly
    [video_description_csv], [product_info_csv] and [judgement_csv]; each
    is [complete] when the path of its table exists and [pending]
    otherwise.  The route only probes the three paths for existence: it
    reads no file and leaves the tree as it is.  After [clear_all] for
    the session all three are [pending]. *)
Theorem get_status_probes (args : list (string * string)) (data : jval)
    (u m : string) (w : world) :
  args_get "uuid" args = JStr u -> u ≠ "" ->
  args_get "model" args = JStr m -> m ∈ MODEL_NAMES ->
  json_get "uuid" data = inr (JStr u) ->
  exists st w1,
    get_status args w = (Response 200 (PStatus st), w1)
    /\ dom st
       = ({[ "video_description_csv"; "product_info_csv"; "judgement_csv" ]}
          : gset string)
    /\ st !! "video_description_csv"
       = Some (if present (table_path u m VideoDescription) (root w)
               then "complete" else "pending")
    /\ st !! "product_info_csv"
       = Some (if present (table_path u m ProductInfo) (root w)
               then "complete" else "pending")
    /\ st !! "judgement_csv"
       = Some (if present (table_path u m Judgement) (root w)
               then "complete" else "pending")
    /\ root w1 = root w
    /\ io_log w1 = io_log w ++ [EvExists (table_path u m VideoDescription);
                                EvExists (table_path u m ProductInfo);
                                EvExists (table_path u m Judgement)]
    /\ (get_status args (clear_all data w).2).1
       = Response 200 (PStatus {[ "video_description_csv" := "pending";
                                  "product_info_csv" := "pending";
                                  "judgement_csv" := "pending" ]}).
Proof.
  intros Hu Hu' Hm Hm' Hd. eexists _, _.
  split; [apply (get_status_run args u m w Hu Hu' Hm Hm')|].
  split; [rewrite !dom_insert_L, dom_singleton_L; set_solver|].
  do 3 (split; [reflexivity|]). do 2 (split; [reflexivity|]).
  rewrite (get_status_run args u m _ Hu Hu' Hm Hm'). cbn [fst].
  assert (forall k, present (table_path u m k) (root (clear_all data w).2)
                    = false) as Hk.
  { intros k. apply bool_decide_eq_false_2.
    change (table_path u m k)
      with ((DATA_DIR ++ [u]) ++ [m; kind_name k +:+ ".csv"]).
    rewrite (clear_all_clears data u _ w Hd Hu'); [|done].
    intros [? ?]; discriminate. }
  rewrite !Hk. reflexivity.
Qed.

Lemma example_model_valid : example_model ∈ MODEL_NAMES.
Proof. apply (bool_decide_unpack _). vm_compute. reflexivity. Qed.

Lemma get_status_probes_witness :
  (args_get "uuid" example_args = JStr "s1" /\ "s1" ≠ ""
   /\ args_get "model" example_args = JStr example_model
   /\ example_model ∈ MODEL_NAMES
   /\ json_get "uuid" example_body = inr (JStr "s1"))
  /\ exists st w1,
       get_status example_args example_world = (Response 200 (PStatus st), w1)
       /\ dom st
          = ({[ "video_description_csv"; "product_info_csv"; "judgement_csv" ]}
             : gset string)
       /\ st !! "video_description_csv"
          = Some (if present (table_path "s1" example_model VideoDescription)
                       (root example_world)
                  then "complete" else "pending")
       /\ st !! "product_info_csv"
          = Some (if present (table_path "s1" example_model ProductInfo)
                       (root example_world)
                  then "complete" else "pending")
       /\ st !! "judgement_csv"
          = Some (if present (table_path "s1" example_model Judgement)
                       (root example_world)
                  then "complete" else "pending")
       /\ root w1 = root example_world
       /\ io_log w1
          = io_log example_world
            ++ [EvExists (table_path "s1" example_model VideoDescription);
                EvExists (table_path "s1" example_model ProductInfo);
                EvExists (table_path "s1" example_model Judgement)]
       /\ (get_status example_args (clear_all example_body example_world).2).1
          = Response 200 (PStatus {[ "video_description_csv" := "pending";
                                     "product_info_csv" := "pending";
                                     "judgement_csv" := "pending" ]}).
Proof.
  split.
  - repeat split; try reflexivity; [discriminate|apply example_model_valid].
  - apply (get_status_probes example_args example_body "s1" example_model
             example_world).
    + reflexivity.
    + discriminate.
    + reflexivity.
    + apply example_model_valid.
    + reflexivity.
Defined.

(** The keys of the answer are not the bare names of the tables: on the
    example session, where all three tables exist, the answer has no key
    [video_description]. *)
Lemma get_status_keys_counterexample :
  exists st,
    (get_status example_args example_world).1 = Response 200 (PStatus st)
    /\ st !! "video_description" = None
    /\ st !! "video_description_csv" = Some "complete"
    /\ dom st ≠ ({[ "video_description"; "product_info"; "judgement" ]}
                 : gset string).
Proof.
  eexists. split.
  - rewrite (get_status_run example_args "s1" example_model example_world);
      [reflexivity|reflexivity|discriminate|reflexivity
      |apply example_model_valid].
  - split; [reflexivity|]. split; [reflexivity|].
    intros H. assert ("video_description" ∈
      dom ({[ "video_description_csv" :=
                status_word (present (table_path "s1" example_model
                                        VideoDescription) (root example_world));
              "product_info_csv" :=
                status_word (present (table_path "s1" example_model
                                        ProductInfo) (root example_world));
              "judgement_csv" :=
                status_word (present (table_path "s1" example_model
                                        Judgement) (root example_world)) ]}
           : gmap string string)) as Hin.
    { rewrite H. set_solver. }
    apply elem_of_dom in Hin. destruct Hin as [v Hv]. discriminate Hv.
Qed.

(** ** Python dicts *)

Lemma dict_get_set (k k' : key) (v : pyval) (d : pydict) :
  dict_get k (dict_set k' v d)
  = if decide (k = k') then Some v else dict_get k d.
Proof.
  induction d as [|[k0 v0] d IH]; simpl.
  - by destruct (decide (k = k')).
  - destruct (decide (k' = k0)) as [->|Hne]; simpl.
    + by destruct (decide (k = k0)).
    + rewrite IH. destruct (decide (k = k0)) as [->|]; [|done].
      by rewrite decide_False by congruence.
Qed.

Lemma dict_set_fresh (k : key) (v : pyval) (d : pydict) :
  k ∉ d.*1 -> dict_set k v d = d ++ [(k, v)].
Proof.
  induction d as [|[k0 v0] d IH]; intros H; simpl; [done|].
  rewrite fmap_cons, not_elem_of_cons in H. destruct H as [H1 H2].
  rewrite decide_False by done. by rewrite IH.
Qed.

Lemma fold_dict_set_nodup (l d : pydict) :
  NoDup (d ++ l).*1 ->
  fold_left (fun d kv => dict_set kv.1 kv.2 d) l d = d ++ l.
Proof.
  revert d. induction l as [|[k v] l IH]; intros d H; simpl.
  - by rewrite app_nil_r.
  - rewrite dict_set_fresh.
    + rewrite IH; rewrite <- app_assoc; [done|exact H].
    + rewrite fmap_app, fmap_cons in H. apply NoDup_app in H.
      destruct H as (_ & H & _). intros Hin. apply (H k Hin). left.
Qed.

Lemma dict_of_pairs_nodup (l : pydict) : NoDup l.*1 -> dict_of_pairs l = l.
Proof. intros H. unfold dict_of_pairs. by rewrite fold_dict_set_nodup. Qed.

(** ** csv.DictReader on a table *)

Lemma dictreader_row_table (header r : record) :
  NoDup header -> length r = length header ->
  dictreader_row header r = row_dict header r.
Proof.
  intros Hnd Hlen. unfold dictreader_row, row_dict.
  rewrite decide_False by lia. rewrite decide_False by lia.
  apply dict_of_pairs_nodup. rewrite fst_zip.
  - apply NoDup_fmap_2; [apply _|done].
  - rewrite !length_fmap. lia.
Qed.

Lemma DictReader_table (header : record) (rows : list record) :
  header ≠ [] -> is_table header rows ->
  DictReader (header :: rows) = row_dict header <$> rows.
Proof.
  intros Hne [Hnd Hlen]. simpl.
  induction rows as [|r rows IH]; [done|].
  apply Forall_cons in Hlen. destruct Hlen as [Hr Hrows].
  rewrite filter_cons_True.
  - rewrite !fmap_cons. f_equal; [by apply dictreader_row_table|by apply IH].
  - intros ->. destruct header; [done|discriminate].
Qed.

Lemma list_find_cons_eq (col c : string) (h : list string) :
  list_find (fun c0 => c0 = col) (c :: h)
  = if decide (c = col) then Some (0, c)
    else prod_map S id <$> list_find (fun c0 => c0 = col) h.
Proof. reflexivity. Qed.

Lemma dict_get_row_dict (header r : record) (col : string) :
  dict_get (Some col) (row_dict header r) = PStr <$> field header col r.
Proof.
  unfold row_dict, field. revert r.
  induction header as [|c h IH]; intros r; [done|].
  destruct r as [|x r].
  - rewrite fmap_nil, zip_with_nil_r.
    by destruct (list_find (fun c0 => c0 = col) (c :: h)) as [[i ?]|].
  - cbn [fmap list_fmap zip zip_with dict_get]. rewrite list_find_cons_eq.
    destruct (decide (c = col)) as [->|Hne].
    + by rewrite decide_True by done.
    + rewrite decide_False by congruence.
      rewrite IH. by destruct (list_find (fun c0 => c0 = col) h) as [[i ?]|].
Qed.

Lemma field_is_Some (header r : record) (col : string) :
  col ∈ header -> length r = length header ->
  is_Some (field header col r).
Proof.
  intros Hin Hlen. unfold field.
  destruct (list_find (fun c => c = col) header) as [[i c]|] eqn:Hf.
  - apply list_find_Some in Hf. destruct Hf as (Hi & _).
    apply lookup_lt_is_Some. rewrite Hlen. by eapply lookup_lt_Some.
  - apply list_find_None in Hf. rewrite Forall_forall in Hf.
    by destruct (Hf col Hin).
Qed.

Lemma subscript_row_dict (header r : record) (col : string) :
  col ∈ header -> length r = length header ->
  subscript col (row_dict header r)
  = inr (PStr (default "" (field header col r))).
Proof.
  intros Hin Hlen. unfold subscript. rewrite dict_get_row_dict.
  by destruct (field_is_Some header r col Hin Hlen) as [v ->].
Qed.

Lemma row_dict_keys (header r : record) :
  None ∉ dict_keys (row_dict header r).
Proof.
  unfold dict_keys, row_dict. intros H.
  apply list_elem_of_fmap in H. destruct H as ([k v] & Hk & Hin).
  simpl in Hk. subst k. apply elem_of_zip_l in Hin.
  apply list_elem_of_fmap in Hin. by destruct Hin as (? & ? & _).
Qed.

(** ** csv.DictReader on any file: a named column is always there *)

Lemma has_text_set_same (k : string) (v : pyval) (d : pydict) :
  (forall l, v ≠ PList l) -> has_text k (dict_set (Some k) v d).
Proof.
  intros Hv. exists v. rewrite dict_get_set. by rewrite decide_True.
Qed.

Lemma has_text_set_other (k : string) (k' : key) (v : pyval) (d : pydict) :
  has_text k d -> k' ≠ Some k \/ (forall l, v ≠ PList l) ->
  has_text k (dict_set k' v d).
Proof.
  intros (v0 & Hg & Hv0) H. unfold has_text. rewrite dict_get_set.
  destruct (decide (Some k = k')) as [<-|Hne].
  - destruct H as [H|H]; [done|]. by exists v.
  - by exists v0.
Qed.

Lemma has_text_fold {A} (f : A -> key * pyval) (l : list A) (d0 : pydict)
    (k : string) :
  (forall a, a ∈ l -> forall x, (f a).2 ≠ PList x) ->
  has_text k d0 \/ (exists a, a ∈ l /\ (f a).1 = Some k) ->
  has_text k (fold_left (fun d a => dict_set (f a).1 (f a).2 d) l d0).
Proof.
  revert d0. induction l as [|a l IH]; intros d0 Hv H; simpl.
  - destruct H as [H|(a & Ha & _)]; [done|]. by apply elem_of_nil in Ha.
  - apply IH; [intros b Hb; apply Hv; by right|].
    destruct (decide ((f a).1 = Some k)) as [Heq|Hne].
    + left. rewrite Heq. apply has_text_set_same. apply Hv. by left.
    + destruct H as [H|(b & Hb & Hk)].
      * left. apply has_text_set_other; [done|by left].
      * apply elem_of_cons in Hb. destruct Hb as [->|Hb]; [done|eauto].
Qed.

Lemma dictreader_row_has_text (fieldnames row : record) (k : string) :
  k ∈ fieldnames -> has_text k (dictreader_row fieldnames row).
Proof.
  intros Hin. apply list_elem_of_lookup in Hin. destruct Hin as [i Hi].
  pose proof (lookup_lt_Some _ _ _ Hi) as Hlt.
  assert (forall a : key * pyval,
            a ∈ zip (Some <$> fieldnames) (PStr <$> row) ->
            forall x, a.2 ≠ PList x) as Hvals.
  { intros [k0 v0] Ha x. apply elem_of_zip_r in Ha.
    apply list_elem_of_fmap in Ha. destruct Ha as (s & -> & _). done. }
  assert (i < length row ->
          has_text k (dict_of_pairs (zip (Some <$> fieldnames) (PStr <$> row))))
    as Hzip.
  { intros Hr. apply lookup_lt_is_Some in Hr. destruct Hr as [x Hx].
    apply (has_text_fold id); [exact Hvals|]. right.
    exists (Some k, PStr x). split; [|done].
    apply list_elem_of_lookup. exists i.
    rewrite lookup_zip_with, !list_lookup_fmap, Hi, Hx. done. }
  unfold dictreader_row.
  destruct (decide (length fieldnames < length row)) as [H1|H1].
  - apply has_text_set_other; [apply Hzip; lia|by left].
  - destruct (decide (length row < length fieldnames)) as [H2|H2];
      [|apply Hzip; lia].
    apply (has_text_fold (fun k0 => (Some k0, PNone))); [done|].
    destruct (decide (i < length row)) as [Hr|Hr]; [left; by apply Hzip|].
    right. exists k. split; [|done]. apply list_elem_of_lookup.
    exists (i - length row). rewrite lookup_drop. rewrite <- Hi. f_equal. lia.
Qed.

Lemma dict_get_fold_inv {A} (f : A -> key * pyval) (l : list A) (d0 : pydict)
    (k : key) :
  is_Some (dict_get k (fold_left (fun d a => dict_set (f a).1 (f a).2 d) l d0))
  -> is_Some (dict_get k d0) \/ exists a, a ∈ l /\ (f a).1 = k.
Proof.
  revert d0. induction l as [|a l IH]; intros d0 H; simpl in H; [by left|].
  destruct (IH _ H) as [H1|(b & Hb & Hk)].
  - rewrite dict_get_set in H1. destruct (decide (k = (f a).1)) as [->|Hne].
    + right. exists a. split; [by left|done].
    + by left.
  - right. exists b. split; [by right|done].
Qed.

(** A row that [csv.DictReader] produced has no other string keys than
    the field names. *)
Lemma dictreader_row_key (fieldnames row : record) (k : string) :
  is_Some (dict_get (Some k) (dictreader_row fieldnames row)) ->
  k ∈ fieldnames.
Proof.
  assert (is_Some (dict_get (Some k)
            (dict_of_pairs (zip (Some <$> fieldnames) (PStr <$> row)))) ->
          k ∈ fieldnames) as Hzip.
  { intros H. apply (dict_get_fold_inv id) in H.
    destruct H as [[v Hv]|([k0 v0] & Ha & Hk)]; [discriminate|].
    simpl in Hk. subst k0. apply elem_of_zip_l in Ha.
    apply list_elem_of_fmap in Ha. destruct Ha as (s & [= ->] & Hs). done. }
  unfold dictreader_row.
  destruct (decide (length fieldnames < length row)) as [H1|H1].
  - rewrite dict_get_set, decide_False by discriminate. exact Hzip.
  - destruct (decide (length row < length fieldnames)) as [H2|H2];
      [|exact Hzip].
    intros H. apply (dict_get_fold_inv (fun k0 => (Some k0, PNone))) in H.
    destruct H as [H|(k0 & Hk0 & Hk)]; [by apply Hzip|].
    simpl in Hk. injection Hk as ->.
    apply list_elem_of_lookup in Hk0. destruct Hk0 as [i Hi].
    rewrite lookup_drop in Hi. by eapply list_elem_of_lookup_2.
Qed.

(** In a table the column of a name is the one at its place in the header. *)
Lemma field_at (header r : record) (i : nat) (c : string) :
  NoDup header -> header !! i = Some c -> field header c r = r !! i.
Proof.
  intros Hnd Hi. unfold field.
  destruct (list_find (fun c0 => c0 = c) header) as [[j c']|] eqn:Hf.
  - apply list_find_Some in Hf. destruct Hf as (Hj & -> & _).
    by rewrite (NoDup_lookup _ _ _ _ Hnd Hj Hi).
  - apply list_find_None in Hf. rewrite Forall_forall in Hf.
    destruct (Hf c); [|done]. by eapply list_elem_of_lookup_2.
Qed.

Lemma NoDup_zip_fst {A B} (ks : list A) (vs : list B) :
  NoDup ks -> NoDup (zip ks vs).*1.
Proof.
  revert vs. induction ks as [|k ks IH]; intros vs H; [constructor|].
  destruct vs as [|v vs]; [constructor|]. simpl.
  apply NoDup_cons in H. destruct H as [Hk H].
  apply NoDup_cons. split; [|by apply IH].
  intros Hin. apply Hk. apply list_elem_of_fmap in Hin.
  destruct Hin as ([k' v'] & -> & Hin). by apply elem_of_zip_l in Hin.
Qed.

Lemma dict_get_fill (l : list string) (d : pydict) (c : string) :
  dict_get (Some c) (fold_left (fun d k => dict_set (Some k) PNone d) l d)
  = if decide (c ∈ l) then Some PNone else dict_get (Some c) d.
Proof.
  revert d. induction l as [|k l IH]; intros d; cbn [fold_left].
  - destruct (decide (c ∈ [])) as [H|H]; [by apply elem_of_nil in H|done].
  - rewrite IH, dict_get_set.
    destruct (decide (c ∈ l)) as [Hl|Hl];
      destruct (decide (c ∈ k :: l)) as [Hkl|Hkl]; try done.
    + destruct Hkl. by right.
    + apply elem_of_cons in Hkl. destruct Hkl as [->|Hkl]; [|done].
      by rewrite decide_True.
    + rewrite decide_False; [done|]. intros [= ->]. apply Hkl. by left.
Qed.

(** The cell that [csv.DictReader] files under a column of the header:
    the field of the record at the place of the column, or [None] where
    the record is too short. *)
Lemma dict_get_dictreader_row (header r : record) (c : string) :
  NoDup header -> c ∈ header ->
  dict_get (Some c) (dictreader_row header r)
  = Some (default PNone (PStr <$> field header c r)).
Proof.
  intros Hnd Hin. apply list_elem_of_lookup in Hin. destruct Hin as [i Hi].
  pose proof (lookup_lt_Some _ _ _ Hi) as Hlt.
  rewrite (field_at header r i c Hnd Hi).
  assert (dict_of_pairs (zip (Some <$> header) (PStr <$> r))
          = row_dict header r) as Hzip.
  { apply dict_of_pairs_nodup, NoDup_zip_fst.
    apply NoDup_fmap_2; [apply _|done]. }
  assert (dict_get (Some c) (row_dict header r) = PStr <$> r !! i) as Hget
    by (by rewrite dict_get_row_dict, (field_at header r i c Hnd Hi)).
  unfold dictreader_row. rewrite Hzip.
  destruct (decide (length header < length r)) as [H1|H1].
  - rewrite dict_get_set, decide_False by discriminate. rewrite Hget.
    destruct (r !! i) as [x|] eqn:Hx; [done|].
    apply lookup_ge_None in Hx. lia.
  - destruct (decide (length r < length header)) as [H2|H2].
    + rewrite dict_get_fill. destruct (decide (c ∈ drop (length r) header))
        as [Hd|Hd].
      * apply list_elem_of_lookup in Hd. destruct Hd as [j Hj].
        rewrite lookup_drop in Hj.
        pose proof (NoDup_lookup _ _ _ _ Hnd Hi Hj) as ->.
        rewrite (proj2 (lookup_ge_None r (length r + j))) by lia. done.
      * rewrite Hget. destruct (r !! i) as [x|] eqn:Hx; [done|].
        destruct Hd. apply lookup_ge_None in Hx.
        apply list_elem_of_lookup. exists (i - length r).
        rewrite lookup_drop. rewrite <- Hi. f_equal. lia.
    + rewrite Hget. destruct (r !! i) as [x|] eqn:Hx; [done|].
      apply lookup_ge_None in Hx. lia.
Qed.

(** The surplus fields of a record longer than the header stand under
    the key [None]; a record that is not longer has no such key. *)
Lemma dict_get_dictreader_row_rest (header r : record) :
  dict_get None (dictreader_row header r)
  = if decide (length header < length r)
    then Some (PList (drop (length header) r)) else None.
Proof.
  assert (dict_get None
            (dict_of_pairs (zip (Some <$> header) (PStr <$> r))) = None)
    as Hzip.
  { apply eq_None_not_Some. intros H.
    apply (dict_get_fold_inv id) in H.
    destruct H as [[v Hv]|([k0 v0] & Ha & Hk)]; [discriminate|].
    simpl in Hk. subst k0. apply elem_of_zip_l in Ha.
    apply list_elem_of_fmap in Ha. destruct Ha as (s & [=] & _). }
  unfold dictreader_row.
  destruct (decide (length header < length r)) as [H1|H1].
  - by rewrite dict_get_set, decide_True.
  - destruct (decide (length r < length header)) as [H2|H2]; [|exact Hzip].
    apply eq_None_not_Some. intros H.
    apply (dict_get_fold_inv (fun k0 => (Some k0, PNone))) in H.
    destruct H as [H|(k0 & _ & Hk)]; [|discriminate].
    rewrite Hzip in H. by destruct H.
Qed.

(** The comprehension that drops the key column keeps every other key
    with its value. *)
Lemma dict_get_non_key_columns (k : key) (d : pydict) :
  dict_get k (non_key_columns d)
  = if decide (k = Some "product_id") then None else dict_get k d.
Proof.
  unfold non_key_columns. induction d as [|[k0 v0] d IH]; simpl.
  - by destruct (decide (k = Some "product_id")).
  - rewrite filter_cons. simpl.
    destruct (decide (k0 ≠ Some "product_id")) as [Hk0|Hk0]; simpl.
    + destruct (decide (k = k0)) as [->|Hne].
      * by rewrite decide_False.
      * exact IH.
    + apply dec_stable in Hk0. subst k0. rewrite IH.
      destruct (decide (k = Some "product_id")); done.
Qed.

(** ** The keyed mappings of get_results *)

Lemma load_by_product_id_app (rows1 rows2 : list pydict) (m : gmap key pydict) :
  load_by_product_id (rows1 ++ rows2) m
  = load_by_product_id rows1 m ≫= load_by_product_id rows2.
Proof.
  revert m. induction rows1 as [|row rows1 IH]; intros m; [done|].
  cbn [app load_by_product_id].
  destruct (subscript "product_id" row) as [e|v]; [done|]. simpl.
  destruct (hash_key v) as [e|k]; [done|]. simpl. apply IH.
Qed.

(** Rows with other identifiers leave the entry of an identifier alone. *)
Lemma load_by_product_id_frame (rows : list pydict) (m m' : gmap key pydict)
    (k : key) :
  load_by_product_id rows m = inr m' ->
  (forall r v, r ∈ rows -> subscript "product_id" r = inr v ->
               hash_key v ≠ inr k) ->
  m' !! k = m !! k.
Proof.
  revert m. induction rows as [|row rows IH]; intros m H Hk.
  - by injection H as <-.
  - cbn [load_by_product_id] in H.
    destruct (subscript "product_id" row) as [e|v] eqn:Hs; [discriminate|].
    simpl in H. destruct (hash_key v) as [e|k'] eqn:Hh; [discriminate|].
    simpl in H. rewrite (IH _ H).
    + apply lookup_insert_ne. intros ->. apply (Hk row v); [by left|done|done].
    + intros r v' Hr. apply Hk. by right.
Qed.

Lemma load_by_product_id_total (fieldnames : record) (records : list record)
    (m : gmap key pydict) :
  "product_id" ∈ fieldnames ->
  exists m', load_by_product_id (dictreader_row fieldnames <$> records) m
             = inr m'.
Proof.
  intros Hin. revert m. induction records as [|r records IH]; intros m.
  - by exists m.
  - rewrite fmap_cons. cbn [load_by_product_id].
    destruct (dictreader_row_has_text fieldnames r _ Hin) as (v & Hv & Hl).
    unfold subscript. rewrite Hv. simpl.
    destruct v as [s| |l]; [apply IH|apply IH|by destruct (Hl l)].
Qed.

(** ** C5: among rows with one identifier the last one wins *)

(** C5.  For every file whose header has distinct column names, among
    them [product_id], loaded into a keyed mapping (the loop that fills
    [video_descriptions] and the one that fills [product_infos]): the
    load succeeds, and for a record [r] with the identifier [pid] after
    which no record has this identifier, the mapping holds under [pid]
    the columns of [r], one by one: under every column of the header
    other than [product_id] the field that [r] has in this column (None
    where [r] is too short), nothing under [product_id] or under a name
    that is no column, and the surplus fields of [r], if it has any,
    under the key None.  Whatever records with the same identifier stand
    before [r] leave no trace.  Where [r] is as long as the header, the
    entry is the list of the columns with the fields of [r], in the order
    of the header, without [product_id]. *)
Theorem duplicate_ids_last_row_wins (header : record)
    (before after : list record) (r : record) (pid : string) :
  NoDup header -> "product_id" ∈ header ->
  field header "product_id" r = Some pid ->
  (forall r', r' ∈ after -> field header "product_id" r' ≠ Some pid) ->
  exists m d,
    load_by_product_id (DictReader (header :: before ++ r :: after)) ∅ = inr m
    /\ m !! Some pid = Some d
    /\ (forall c, c ∈ header -> c ≠ "product_id" ->
          dict_get (Some c) d = Some (default PNone (PStr <$> field header c r)))
    /\ dict_get (Some "product_id") d = None
    /\ (forall c, c ∉ header -> dict_get (Some c) d = None)
    /\ dict_get None d
       = (if decide (length header < length r)
          then Some (PList (drop (length header) r)) else None)
    /\ (length r = length header ->
        d = filter (fun kv => kv.1 ≠ Some "product_id")
              (zip (Some <$> header) (PStr <$> r))).
Proof.
  intros Hnd Hin Hfield Hafter.
  assert (r ≠ []) as Hr.
  { intros ->. unfold field in Hfield.
    destruct (list_find _ header) as [[i c]|]; discriminate. }
  assert (forall r', subscript "product_id" (dictreader_row header r')
                     = inr (default PNone
                              (PStr <$> field header "product_id" r')))
    as Hsub.
  { intros r'. unfold subscript.
    by rewrite (dict_get_dictreader_row header r' _ Hnd Hin). }
  assert (subscript "product_id" (dictreader_row header r) = inr (PStr pid))
    as Hpid by (by rewrite Hsub, Hfield).
  destruct (load_by_product_id_total header
              (filter (fun r => r ≠ []) (before ++ r :: after)) ∅ Hin)
    as [m Hm].
  exists m, (non_key_columns (dictreader_row header r)).
  split; [exact Hm|]. split.
  - rewrite filter_app, filter_cons_True, fmap_app, fmap_cons in Hm by done.
    rewrite load_by_product_id_app in Hm.
    destruct (load_by_product_id _ ∅) as [e|m1]; [discriminate|].
    simpl in Hm. cbn [load_by_product_id] in Hm. rewrite Hpid in Hm.
    simpl in Hm. rewrite (load_by_product_id_frame _ _ _ _ Hm).
    + apply lookup_insert_eq.
    + intros d v Hd Hs Hh. apply list_elem_of_fmap in Hd.
      destruct Hd as (r' & -> & Hr'). apply list_elem_of_filter in Hr'.
      destruct Hr' as [_ Hr']. apply (Hafter r' Hr').
      rewrite Hsub in Hs. injection Hs as <-.
      destruct (field header "product_id" r') as [x|]; simpl in Hh;
        congruence.
  - split; [|split; [|split; [|split]]].
    + intros c Hc Hne. rewrite dict_get_non_key_columns.
      rewrite decide_False by congruence.
      by apply dict_get_dictreader_row.
    + by rewrite dict_get_non_key_columns, decide_True.
    + intros c Hc. rewrite dict_get_non_key_columns.
      destruct (decide (Some c = Some "product_id")); [done|].
      apply eq_None_not_Some. intros H. by apply dictreader_row_key in H.
    + rewrite dict_get_non_key_columns, decide_False by discriminate.
      apply dict_get_dictreader_row_rest.
    + intros Hlen. by rewrite (dictreader_row_table header r Hnd Hlen).
Qed.

Lemma duplicate_ids_last_row_wins_witness :
  (NoDup duplicate_header
   /\ "product_id" ∈ duplicate_header
   /\ field duplicate_header "product_id" duplicate_row_last = Some "P0001"
   /\ (forall r', r' ∈ duplicate_rows_after ->
         field duplicate_header "product_id" r' ≠ Some "P0001"))
  /\ exists m d,
       load_by_product_id
         (DictReader (duplicate_header :: duplicate_rows_before
                        ++ duplicate_row_last :: duplicate_rows_after)) ∅
       = inr m
       /\ m !! Some "P0001" = Some d
       /\ (forall c, c ∈ duplicate_header -> c ≠ "product_id" ->
             dict_get (Some c) d
             = Some (default PNone
                       (PStr <$> field duplicate_header c duplicate_row_last)))
       /\ dict_get (Some "product_id") d = None
       /\ (forall c, c ∉ duplicate_header -> dict_get (Some c) d = None)
       /\ dict_get None d
          = (if decide (length duplicate_header < length duplicate_row_last)
             then Some (PList (drop (length duplicate_header)
                                 duplicate_row_last))
             else None)
       /\ (length duplicate_row_last = length duplicate_header ->
           d = filter (fun kv => kv.1 ≠ Some "product_id")
                 (zip (Some <$> duplicate_header)
                      (PStr <$> duplicate_row_last))).
Proof.
  assert (NoDup duplicate_header /\ "product_id" ∈ duplicate_header)
    as [H0 H1] by (apply (bool_decide_unpack _); vm_compute; reflexivity).
  assert (forall r', r' ∈ duplicate_rows_after ->
            field duplicate_header "product_id" r' ≠ Some "P0001") as H2.
  { intros r' Hr'. apply list_elem_of_singleton in Hr'. subst r'.
    vm_compute. discriminate. }
  split.
  - split; [exact H0|]. split; [exact H1|]. split; [reflexivity|exact H2].
  - apply (duplicate_ids_last_row_wins duplicate_header duplicate_rows_before
             duplicate_rows_after duplicate_row_last "P0001").
    + exact H0.
    + exact H1.
    + reflexivity.
    + exact H2.
Defined.

(** On this table the mapping keeps the brand of the second P0001 row. *)
Example duplicate_ids_example :
  match load_by_product_id
          (DictReader (duplicate_header :: duplicate_rows_before
                         ++ duplicate_row_last :: duplicate_rows_after)) ∅
  with
  | inr m => Some (m !! Some "P0001", m !! Some "P0002")
  | inl _ => None
  end
  = Some (Some [(Some "brand", PStr "BrandB"); (Some "price", PStr "$20")],
          Some [(Some "brand", PStr "BrandC"); (Some "price", PStr "$30")]).
Proof. vm_compute. reflexivity. Qed.

(** ** get_results on tables *)

(** Every entry of a loaded mapping comes from [non_key_columns] of a row. *)
Lemma load_by_product_id_values (P : pydict -> Prop) (rows : list pydict)
    (m m' : gmap key pydict) :
  load_by_product_id rows m = inr m' ->
  (forall k d, m !! k = Some d -> P d) ->
  (forall r, r ∈ rows -> P (non_key_columns r)) ->
  forall k d, m' !! k = Some d -> P d.
Proof.
  revert m. induction rows as [|row rows IH]; intros m H Hm Hrows.
  - by injection H as <-.
  - cbn [load_by_product_id] in H.
    destruct (subscript "product_id" row) as [e|v]; [discriminate|].
    simpl in H. destruct (hash_key v) as [e|k']; [discriminate|].
    simpl in H. apply (IH _ H).
    + intros k d Hk. apply lookup_insert_Some in Hk.
      destruct Hk as [[_ <-]|[_ Hk]]; [apply Hrows; by left|by eapply Hm].
    + intros r Hr. apply Hrows. by right.
Qed.

Lemma non_key_columns_keys (d : pydict) :
  None ∉ dict_keys d -> None ∉ dict_keys (non_key_columns d).
Proof.
  unfold dict_keys, non_key_columns. intros H Hin. apply H.
  apply list_elem_of_fmap in Hin. destruct Hin as (kv & Hk & Hin).
  apply list_elem_of_filter in Hin. destruct Hin as [_ Hin].
  apply list_elem_of_fmap. eauto.
Qed.

Lemma sortable_keys_text (d : pydict) :
  None ∉ dict_keys d -> sortable_keys d = true.
Proof.
  intros H. unfold sortable_keys. by rewrite bool_decide_eq_false_2.
Qed.

(** The entries of a mapping loaded from a table can be sorted by key. *)
Lemma load_table_sortable (header : record) (rows : list record)
    (m : gmap key pydict) (k : key) :
  load_by_product_id (row_dict header <$> rows) ∅ = inr m ->
  sortable_keys (default [] (m !! k)) = true.
Proof.
  intros H. apply sortable_keys_text.
  destruct (m !! k) as [d|] eqn:Hk; [|by apply not_elem_of_nil].
  simpl. revert k d Hk.
  apply (load_by_product_id_values _ _ _ _ H); [by intros k d|].
  intros r Hr. apply list_elem_of_fmap in Hr. destruct Hr as (r0 & -> & _).
  apply non_key_columns_keys, row_dict_keys.
Qed.

Lemma exn_bind_inr {A B} (a : A) (f : A -> exn + B) :
  (inr a : exn + A) ≫= f = f a.
Proof. reflexivity. Qed.

Lemma judgement_item_table (header : record) (vds pis : gmap key pydict)
    (r : record) :
  Forall (fun c => c ∈ header) judgement_header ->
  length r = length header ->
  judgement_item vds pis (row_dict header r)
  = inr (joined_item header vds pis r).
Proof.
  intros Hcols Hlen. unfold judgement_header in Hcols.
  repeat (apply Forall_cons in Hcols; destruct Hcols as [? Hcols]).
  unfold judgement_item.
  rewrite !subscript_row_dict by done. reflexivity.
Qed.

Lemma count_label_lookup (lab : string) (c : gmap string nat) :
  exists c', count_label (PStr lab) c = inr c'
             /\ forall l, c' !! l
                = (fun n => n + (if decide (lab = l) then 1 else 0))
                  <$> c !! l.
Proof.
  unfold count_label. simpl. destruct (c !! lab) as [n|] eqn:Hn.
  - eexists. split; [reflexivity|]. intros l.
    destruct (decide (lab = l)) as [<-|Hne].
    + by rewrite lookup_insert_eq, Hn.
    + rewrite lookup_insert_ne by done.
      destruct (c !! l); simpl; f_equal; lia.
  - exists c. split; [reflexivity|]. intros l.
    destruct (decide (lab = l)) as [<-|Hne].
    + by rewrite Hn.
    + destruct (c !! l); simpl; f_equal; lia.
Qed.

Lemma label_count_cons (header : record) (l : string) (r : record)
    (rows : list record) :
  label_count header l (r :: rows)
  = (if decide (field header "label" r = Some l) then 1 else 0)
    + label_count header l rows.
Proof.
  unfold label_count. rewrite filter_cons.
  by destruct (decide (field header "label" r = Some l)).
Qed.

(** The loop over the judgement rows of a table: one item per row, in the
    order of the rows, and every count raised by the rows of its label. *)
Lemma judgement_loop_table (header : record) (vds pis : gmap key pydict)
    (rows : list record) :
  Forall (fun c => c ∈ header) judgement_header ->
  Forall (fun r => length r = length header) rows ->
  forall (items : list item) (c : gmap string nat),
  exists c',
    judgement_loop vds pis (row_dict header <$> rows) items c
    = inr (items ++ (joined_item header vds pis <$> rows), c')
    /\ forall l, c' !! l
       = (fun n => n + label_count header l rows) <$> c !! l.
Proof.
  intros Hcols Hlen. induction rows as [|r rows IH]; intros items c.
  - exists c. split; [by rewrite app_nil_r|].
    intros l. destruct (c !! l); simpl; f_equal. unfold label_count. simpl. lia.
  - apply Forall_cons in Hlen. destruct Hlen as [Hr Hrows].
    rewrite !fmap_cons. cbn [judgement_loop].
    rewrite (judgement_item_table header vds pis r Hcols Hr).
    assert ("label" ∈ header) as Hlab.
    { rewrite Forall_forall in Hcols. apply Hcols.
      apply (bool_decide_unpack _). vm_compute. reflexivity. }
    destruct (field_is_Some header r "label" Hlab Hr) as [lab Hf].
    rewrite exn_bind_inr.
    change (it_label (joined_item header vds pis r))
      with (PStr (default "" (field header "label" r))).
    rewrite Hf. change (default "" (Some lab)) with lab.
    destruct (count_label_lookup lab c) as (c1 & Hc1 & Hl1).
    destruct (IH Hrows (items ++ [joined_item header vds pis r]) c1)
      as (c' & Hc' & Hl').
    exists c'. split.
    + rewrite Hc1, exn_bind_inr, Hc', <- app_assoc. reflexivity.
    + intros l. rewrite Hl', Hl1, label_count_cons, Hf.
      destruct (c !! l) as [n|]; simpl; [|done]. f_equal.
      destruct (decide (lab = l)) as [->|Hne].
      * rewrite decide_True by done. lia.
      * rewrite decide_False by congruence. lia.
Qed.

Lemma keyed_header_nonempty (header : record) :
  "product_id" ∈ header -> header ≠ [].
Proof. intros H ->. by apply elem_of_nil in H. Qed.

Lemma judgement_header_product_id (header : record) :
  Forall (fun c => c ∈ header) judgement_header -> "product_id" ∈ header.
Proof.
  intros H. rewrite Forall_forall in H. apply H.
  apply (bool_decide_unpack _). vm_compute. reflexivity.
Qed.

Lemma present_file (p : path) (f : csv_file) (n : node) :
  lookup_path p n = Some (File f) ->
  bool_decide (is_Some (lookup_path p n)) = true.
Proof. intros ->. by apply bool_decide_eq_true_2. Qed.

(** The whole run of the results route on a session with three tables. *)
Lemma get_results_tables (args : list (string * string)) (u m : string)
    (w : world) (vh : record) (vrows : list record) (ph : record)
    (prows : list record) (jh : record) (jrows : list record) :
  args_get "uuid" args = JStr u -> u ≠ "" ->
  args_get "model" args = JStr m -> m ∈ MODEL_NAMES ->
  lookup_path (table_path u m VideoDescription) (root w)
  = Some (File (vh :: vrows)) ->
  lookup_path (table_path u m ProductInfo) (root w)
  = Some (File (ph :: prows)) ->
  lookup_path (table_path u m Judgement) (root w)
  = Some (File (jh :: jrows)) ->
  keyed_table vh vrows -> keyed_table ph prows -> judgement_table jh jrows ->
  exists vds pis counts,
    load_by_product_id (DictReader (vh :: vrows)) ∅ = inr vds
    /\ load_by_product_id (DictReader (ph :: prows)) ∅ = inr pis
    /\ get_results args w
       = (Response 200 (PResults counts (joined_item jh vds pis <$> jrows)),
          World (root w)
            (io_log w ++ [EvExists (table_path u m VideoDescription);
                          EvExists (table_path u m ProductInfo);
                          EvExists (table_path u m Judgement);
                          EvRead (table_path u m VideoDescription);
                          EvRead (table_path u m ProductInfo);
                          EvRead (table_path u m Judgement)])
            (rand w))
    /\ forall l, counts !! l
       = (fun n => n + label_count jh l jrows)
         <$> ({[ "Yes" := 0; "N/A" := 0; "No" := 0 ]} : gmap string nat) !! l.
Proof.
  intros Hu Hu' Hm Hm' Hv Hp Hj [Hvk Hvt] [Hpk Hpt] [Hjc Hjt].
  pose proof (keyed_header_nonempty vh Hvk) as Hvne.
  pose proof (keyed_header_nonempty ph Hpk) as Hpne.
  pose proof (keyed_header_nonempty jh (judgement_header_product_id jh Hjc))
    as Hjne.
  destruct (load_by_product_id_total vh (filter (fun r => r ≠ []) vrows) ∅ Hvk)
    as [vds Hvds].
  destruct (load_by_product_id_total ph (filter (fun r => r ≠ []) prows) ∅ Hpk)
    as [pis Hpis].
  change (dictreader_row vh <$> filter (fun r => r ≠ []) vrows)
    with (DictReader (vh :: vrows)) in Hvds.
  change (dictreader_row ph <$> filter (fun r => r ≠ []) prows)
    with (DictReader (ph :: prows)) in Hpis.
  destruct (judgement_loop_table jh vds pis jrows Hjc (proj2 Hjt) []
              {[ "Yes" := 0; "N/A" := 0; "No" := 0 ]}) as (counts & Hloop & Hc).
  exists vds, pis, counts. split; [exact Hvds|]. split; [exact Hpis|].
  split; [|exact Hc].
  unfold get_results, handler. cbv zeta.
  rewrite Hu, Hm, (truthy_str u Hu'), (in_strs_true m _ Hm'),
    (model_name_truthy m Hm').
  cbn [negb orb].
  rewrite run_bind, run_lift, get_csv_path_video_description.
  rewrite run_bind, run_lift, get_csv_path_product_info.
  rewrite run_bind, run_lift, get_csv_path_judgement.
  rewrite run_bind, run_path_exists, run_bind, run_path_exists,
    run_bind, run_path_exists.
  cbn [logged root io_log rand].
  rewrite (present_file _ _ _ Hv), (present_file _ _ _ Hp),
    (present_file _ _ _ Hj).
  cbn [negb andb].
  rewrite run_bind, run_read_file. cbn [logged root io_log rand]. rewrite Hv.
  rewrite run_bind, run_lift, Hvds.
  rewrite run_bind, run_read_file. cbn [logged root io_log rand]. rewrite Hp.
  rewrite run_bind, run_lift, Hpis.
  rewrite run_bind, run_read_file. cbn [logged root io_log rand]. rewrite Hj.
  rewrite (DictReader_table jh jrows Hjne Hjt).
  rewrite run_bind, run_lift, Hloop, run_lift. cbn [fst snd app].
  unfold jsonify_results.
  assert (forallb (fun it => sortable_keys (it_video_description it)
                             && sortable_keys (it_product_info it))
            (joined_item jh vds pis <$> jrows) = true) as ->.
  { rewrite (DictReader_table vh vrows Hvne Hvt) in Hvds.
    rewrite (DictReader_table ph prows Hpne Hpt) in Hpis.
    clear -Hvds Hpis. induction jrows as [|r jrows IH]; [done|].
    rewrite fmap_cons. cbn [forallb]. rewrite IH, andb_true_r.
    cbn [joined_item it_video_description it_product_info].
    by rewrite (load_table_sortable _ _ _ _ Hvds),
      (load_table_sortable _ _ _ _ Hpis). }
  unfold logged. cbn [root io_log rand]. rewrite <- !app_assoc. reflexivity.
Qed.

(** ** C1: the items follow the judgement rows *)

(** C1.  For a session whose three tables exist, the results route
    answers 200 with one item per judgement row, in the order of the rows
    in the judgement file.  The item of a row carries the fields of the
    row and, as [video_description] and [product_info], the entries that
    the two keyed mappings hold under the [product_id] of the row, or the
    empty mapping where a mapping has no such entry: a judgement row
    without a match is emitted all the same. *)
Theorem results_follow_judgement_rows (args : list (string * string))
    (u m : string) (w : world) (vh : record) (vrows : list record)
    (ph : record) (prows : list record) (jh : record) (jrows : list record) :
  args_get "uuid" args = JStr u -> u ≠ "" ->
  args_get "model" args = JStr m -> m ∈ MODEL_NAMES ->
  lookup_path (table_path u m VideoDescription) (root w)
  = Some (File (vh :: vrows)) ->
  lookup_path (table_path u m ProductInfo) (root w)
  = Some (File (ph :: prows)) ->
  lookup_path (table_path u m Judgement) (root w)
  = Some (File (jh :: jrows)) ->
  keyed_table vh vrows -> keyed_table ph prows -> judgement_table jh jrows ->
  exists vds pis counts items,
    load_by_product_id (DictReader (vh :: vrows)) ∅ = inr vds
    /\ load_by_product_id (DictReader (ph :: prows)) ∅ = inr pis
    /\ (get_results args w).1 = Response 200 (PResults counts items)
    /\ items = joined_item jh vds pis <$> jrows
    /\ length items = length jrows
    /\ (forall i r, jrows !! i = Some r ->
          items !! i = Some (joined_item jh vds pis r)).
Proof.
  intros Hu Hu' Hm Hm' Hv Hp Hj Hvt Hpt Hjt.
  destruct (get_results_tables args u m w vh vrows ph prows jh jrows
              Hu Hu' Hm Hm' Hv Hp Hj Hvt Hpt Hjt)
    as (vds & pis & counts & Hvds & Hpis & Hrun & _).
  exists vds, pis, counts, (joined_item jh vds pis <$> jrows).
  split; [exact Hvds|]. split; [exact Hpis|].
  split; [by rewrite Hrun|]. split; [reflexivity|].
  split; [by rewrite length_fmap|].
  intros i r Hr. by rewrite list_lookup_fmap, Hr.
Qed.

(** ** C2: the counts *)

Lemma known_label_split (header : record) (rows : list record) :
  label_count header "Yes" rows + label_count header "N/A" rows
  + label_count header "No" rows
  = length (known_label_rows header rows).
Proof.
  unfold label_count, known_label_rows.
  induction rows as [|r rows IH]; [reflexivity|].
  rewrite !filter_cons.
  destruct (decide (field header "label" r = Some "Yes")) as [H1|H1];
    destruct (decide (field header "label" r = Some "N/A")) as [H2|H2];
    destruct (decide (field header "label" r = Some "No")) as [H3|H3];
    try congruence;
    destruct (decide (Exists (fun l => field header "label" r = Some l)
                        labels)) as [H4|H4];
    cbn [length]; try lia.
  - destruct H4. by apply Exists_cons_hd.
  - destruct H4. by apply Exists_cons_tl, Exists_cons_hd.
  - destruct H4. by apply Exists_cons_tl, Exists_cons_tl, Exists_cons_hd.
  - unfold labels in H4. rewrite !Exists_cons, Exists_nil in H4. tauto.
Qed.

(** C2.  For a session whose three tables exist, the counts of the
    answer have exactly the keys [Yes], [N/A] and [No]; each count starts
    at zero and is the number of judgement rows with that label.  A row
    with another label raises no count but still gives an item, so the
    three counts add up to the number of rows with a known label, which
    is at most the number of items. *)
Theorem results_counts_known_labels (args : list (string * string))
    (u m : string) (w : world) (vh : record) (vrows : list record)
    (ph : record) (prows : list record) (jh : record) (jrows : list record) :
  args_get "uuid" args = JStr u -> u ≠ "" ->
  args_get "model" args = JStr m -> m ∈ MODEL_NAMES ->
  lookup_path (table_path u m VideoDescription) (root w)
  = Some (File (vh :: vrows)) ->
  lookup_path (table_path u m ProductInfo) (root w)
  = Some (File (ph :: prows)) ->
  lookup_path (table_path u m Judgement) (root w)
  = Some (File (jh :: jrows)) ->
  keyed_table vh vrows -> keyed_table ph prows -> judgement_table jh jrows ->
  exists counts items,
    (get_results args w).1 = Response 200 (PResults counts items)
    /\ dom counts = ({[ "Yes"; "N/A"; "No" ]} : gset string)
    /\ counts !! "Yes" = Some (label_count jh "Yes" jrows)
    /\ counts !! "N/A" = Some (label_count jh "N/A" jrows)
    /\ counts !! "No" = Some (label_count jh "No" jrows)
    /\ length items = length jrows
    /\ label_count jh "Yes" jrows + label_count jh "N/A" jrows
       + label_count jh "No" jrows
       = length (known_label_rows jh jrows)
    /\ length (known_label_rows jh jrows) <= length items.
Proof.
  intros Hu Hu' Hm Hm' Hv Hp Hj Hvt Hpt Hjt.
  destruct (get_results_tables args u m w vh vrows ph prows jh jrows
              Hu Hu' Hm Hm' Hv Hp Hj Hvt Hpt Hjt)
    as (vds & pis & counts & _ & _ & Hrun & Hc).
  exists counts, (joined_item jh vds pis <$> jrows).
  split; [by rewrite Hrun|]. split.
  - apply set_eq. intros l. rewrite elem_of_dom, Hc, fmap_is_Some.
    rewrite <- elem_of_dom, !dom_insert_L, dom_singleton_L. set_solver.
  - do 3 (split; [by rewrite Hc|]).
    split; [by rewrite length_fmap|]. split; [apply known_label_split|].
    rewrite length_fmap. unfold known_label_rows. apply length_filter.
Qed.

Lemma example_tables :
  keyed_table video_description_header (example_rows example_video_description)
  /\ keyed_table product_info_header (example_rows example_product_info)
  /\ judgement_table judgement_header (example_rows example_judgement).
Proof.
  unfold keyed_table, judgement_table, is_table.
  apply (bool_decide_unpack _). vm_compute. reflexivity.
Qed.

Lemma results_follow_judgement_rows_witness :
  (args_get "uuid" example_args = JStr "s1" /\ "s1" ≠ ""
   /\ args_get "model" example_args = JStr example_model
   /\ example_model ∈ MODEL_NAMES
   /\ lookup_path (table_path "s1" example_model VideoDescription)
        (root example_world)
      = Some (File (video_description_header
                    :: example_rows example_video_description))
   /\ lookup_path (table_path "s1" example_model ProductInfo)
        (root example_world)
      = Some (File (product_info_header :: example_rows example_product_info))
   /\ lookup_path (table_path "s1" example_model Judgement)
        (root example_world)
      = Some (File (judgement_header :: example_rows example_judgement))
   /\ keyed_table video_description_header
        (example_rows example_video_description)
   /\ keyed_table product_info_header (example_rows example_product_info)
   /\ judgement_table judgement_header (example_rows example_judgement))
  /\ exists vds pis counts items,
       load_by_product_id (DictReader example_video_description) ∅ = inr vds
       /\ load_by_product_id (DictReader example_product_info) ∅ = inr pis
       /\ (get_results example_args example_world).1
          = Response 200 (PResults counts items)
       /\ items = joined_item judgement_header vds pis
                  <$> example_rows example_judgement
       /\ length items = length (example_rows example_judgement)
       /\ (forall i r, example_rows example_judgement !! i = Some r ->
             items !! i = Some (joined_item judgement_header vds pis r)).
Proof.
  destruct example_tables as (Hv & Hp & Hj).
  split.
  - split; [reflexivity|]. split; [discriminate|]. split; [reflexivity|].
    split; [apply example_model_valid|].
    split; [vm_compute; reflexivity|]. split; [vm_compute; reflexivity|].
    split; [vm_compute; reflexivity|]. done.
  - apply (results_follow_judgement_rows example_args "s1" example_model
             example_world video_description_header
             (example_rows example_video_description) product_info_header
             (example_rows example_product_info) judgement_header
             (example_rows example_judgement)).
    + reflexivity.
    + discriminate.
    + reflexivity.
    + apply example_model_valid.
    + vm_compute; reflexivity.
    + vm_compute; reflexivity.
    + vm_compute; reflexivity.
    + exact Hv.
    + exact Hp.
    + exact Hj.
Defined.

(** The join on the example session: the items come in the order P0002,
    P0001, P0003 of the judgement file; P0002 has no product information
    and P0003 no video description. *)
Example results_join_example :
  match (get_results example_args example_world).1 with
  | Response code (PResults _ items) =>
      Some (code,
            (fun it => (it_product_id it,
                        length (it_video_description it),
                        length (it_product_info it))) <$> items)
  | _ => None
  end
  = Some (200, [(PStr "P0002", 3, 0); (PStr "P0001", 3, 4);
                (PStr "P0003", 0, 4)]).
Proof. vm_compute. reflexivity. Qed.

Lemma results_counts_known_labels_witness :
  (args_get "uuid" example_args = JStr "s1" /\ "s1" ≠ ""
   /\ args_get "model" example_args = JStr example_model
   /\ example_model ∈ MODEL_NAMES
   /\ lookup_path (table_path "s1" example_model VideoDescription)
        (root example_world)
      = Some (File (video_description_header
                    :: example_rows example_video_description))
   /\ lookup_path (table_path "s1" example_model ProductInfo)
        (root example_world)
      = Some (File (product_info_header :: example_rows example_product_info))
   /\ lookup_path (table_path "s1" example_model Judgement)
        (root example_world)
      = Some (File (judgement_header :: example_rows example_judgement))
   /\ keyed_table video_description_header
        (example_rows example_video_description)
   /\ keyed_table product_info_header (example_rows example_product_info)
   /\ judgement_table judgement_header (example_rows example_judgement))
  /\ exists counts items,
       (get_results example_args example_world).1
       = Response 200 (PResults counts items)
       /\ dom counts = ({[ "Yes"; "N/A"; "No" ]} : gset string)
       /\ counts !! "Yes"
          = Some (label_count judgement_header "Yes"
                    (example_rows example_judgement))
       /\ counts !! "N/A"
          = Some (label_count judgement_header "N/A"
                    (example_rows example_judgement))
       /\ counts !! "No"
          = Some (label_count judgement_header "No"
                    (example_rows example_judgement))
       /\ length items = length (example_rows example_judgement)
       /\ label_count judgement_header "Yes" (example_rows example_judgement)
          + label_count judgement_header "N/A" (example_rows example_judgement)
          + label_count judgement_header "No" (example_rows example_judgement)
          = length (known_label_rows judgement_header
                      (example_rows example_judgement))
       /\ length (known_label_rows judgement_header
                    (example_rows example_judgement))
          <= length items.
Proof.
  destruct example_tables as (Hv & Hp & Hj).
  split.
  - split; [reflexivity|]. split; [discriminate|]. split; [reflexivity|].
    split; [apply example_model_valid|].
    split; [vm_compute; reflexivity|]. split; [vm_compute; reflexivity|].
    split; [vm_compute; reflexivity|]. done.
  - apply (results_counts_known_labels example_args "s1" example_model
             example_world video_description_header
             (example_rows example_video_description) product_info_header
             (example_rows example_product_info) judgement_header
             (example_rows example_judgement)).
    + reflexivity.
    + discriminate.
    + reflexivity.
    + apply example_model_valid.
    + vm_compute; reflexivity.
    + vm_compute; reflexivity.
    + vm_compute; reflexivity.
    + exact Hv.
    + exact Hp.
    + exact Hj.
Defined.

(** On the example session the third judgement row has the label
    [Maybe]: three items, but the counts add up to two. *)
Example results_counts_example :
  match (get_results example_args example_world).1 with
  | Response code (PResults counts items) =>
      Some (code, counts !! "Yes", counts !! "N/A", counts !! "No",
            counts !! "Maybe", length items)
  | _ => None
  end
  = Some (200, Some 1, Some 0, Some 1, None, 3).
Proof. vm_compute. reflexivity. Qed.

(** ** C3: no table is read unless all three exist *)

Lemma get_results_missing (args : list (string * string)) (u m : string)
    (w : world) :
  args_get "uuid" args = JStr u -> u ≠ "" ->
  args_get "model" args = JStr m -> m ∈ MODEL_NAMES ->
  present (table_path u m VideoDescription) (root w)
  && present (table_path u m ProductInfo) (root w)
  && present (table_path u m Judgement) (root w) = false ->
  get_results args w
  = (Response 400 (PError "Not all required CSV files exist"),
     World (root w)
       (io_log w ++ [EvExists (table_path u m VideoDescription);
                     EvExists (table_path u m ProductInfo);
                     EvExists (table_path u m Judgement)])
       (rand w)).
Proof.
  intros Hu Hu' Hm Hm' Hmiss. unfold get_results, handler. cbv zeta.
  rewrite Hu, Hm, (truthy_str u Hu'), (in_strs_true m _ Hm'),
    (model_name_truthy m Hm').
  cbn [negb orb].
  rewrite run_bind, run_lift, get_csv_path_video_description.
  rewrite run_bind, run_lift, get_csv_path_product_info.
  rewrite run_bind, run_lift, get_csv_path_judgement.
  rewrite run_bind, run_path_exists, run_bind, run_path_exists,
    run_bind, run_path_exists.
  cbn [logged root io_log rand]. unfold present in Hmiss. rewrite Hmiss.
  cbn [negb]. rewrite run_ret. unfold logged. cbn [root io_log rand].
  rewrite <- !app_assoc. reflexivity.
Qed.

(** C3.  For a session and a valid model name: when one of the three
    tables does not exist, the results route answers 400 with the error
    [Not all required CSV files exist] and nothing else; it has probed
    the three paths for existence and has read no file, and the tree is
    as before.  So a file is read only when all three tables exist. *)
Theorem results_need_all_tables (args : list (string * string))
    (u m : string) (w : world) :
  args_get "uuid" args = JStr u -> u ≠ "" ->
  args_get "model" args = JStr m -> m ∈ MODEL_NAMES ->
  ((exists k, lookup_path (table_path u m k) (root w) = None) ->
   get_results args w
   = (Response 400 (PError "Not all required CSV files exist"),
      World (root w)
        (io_log w ++ [EvExists (table_path u m VideoDescription);
                      EvExists (table_path u m ProductInfo);
                      EvExists (table_path u m Judgement)])
        (rand w)))
  /\ (forall p, EvRead p ∈ io_log (get_results args w).2 ->
        EvRead p ∉ io_log w ->
        forall k, is_Some (lookup_path (table_path u m k) (root w))).
Proof.
  intros Hu Hu' Hm Hm'.
  assert ((exists k, lookup_path (table_path u m k) (root w) = None) ->
          present (table_path u m VideoDescription) (root w)
          && present (table_path u m ProductInfo) (root w)
          && present (table_path u m Judgement) (root w) = false) as Hmiss.
  { intros [k Hk].
    assert (present (table_path u m k) (root w) = false) as Hp.
    { unfold present. rewrite Hk. apply bool_decide_eq_false_2.
      intros [? ?]; discriminate. }
    destruct k; rewrite Hp; [reflexivity|..].
    - by rewrite andb_false_r.
    - by rewrite andb_false_r. }
  split.
  - intros Hk. apply (get_results_missing args u m w Hu Hu' Hm Hm').
    by apply Hmiss.
  - intros p Hin Hold k.
    destruct (lookup_path (table_path u m k) (root w)) eqn:Hk; [eauto|].
    rewrite (get_results_missing args u m w Hu Hu' Hm Hm') in Hin
      by (apply Hmiss; eauto).
    cbn [snd io_log] in Hin. apply elem_of_app in Hin.
    destruct Hin as [Hin|Hin]; [done|].
    rewrite !elem_of_cons, elem_of_nil in Hin.
    destruct Hin as [?|[?|[?|?]]]; done.
Qed.

Lemma results_need_all_tables_witness :
  (args_get "uuid" example_args = JStr "s1" /\ "s1" ≠ ""
   /\ args_get "model" example_args = JStr example_model
   /\ example_model ∈ MODEL_NAMES
   /\ lookup_path (table_path "s1" example_model ProductInfo)
        (root incomplete_world) = None)
  /\ get_results example_args incomplete_world
     = (Response 400 (PError "Not all required CSV files exist"),
        World (root incomplete_world)
          (io_log incomplete_world
           ++ [EvExists (table_path "s1" example_model VideoDescription);
               EvExists (table_path "s1" example_model ProductInfo);
               EvExists (table_path "s1" example_model Judgement)])
          (rand incomplete_world)).
Proof.
  split.
  - split; [reflexivity|]. split; [discriminate|]. split; [reflexivity|].
    split; [apply example_model_valid|]. vm_compute. reflexivity.
  - apply (results_need_all_tables example_args "s1" example_model
             incomplete_world).
    + reflexivity.
    + discriminate.
    + reflexivity.
    + apply example_model_valid.
    + exists ProductInfo. vm_compute. reflexivity.
Defined.

(** ** override_label on a table *)

Lemma set_field_length (header : record) (col v : string) (r : record) :
  length (set_field header col v r) = length r.
Proof.
  unfold set_field.
  destruct (list_find (fun c => c = col) header) as [[i ?]|]; [|done].
  apply length_insert.
Qed.

Lemma relabelled_length (header : record) (pid lab : string) (r : record) :
  length (relabelled header pid lab r) = length r.
Proof.
  unfold relabelled. destruct (decide _); [apply set_field_length|done].
Qed.

Lemma field_set_field_same (header r : record) (col v : string) :
  col ∈ header -> length r = length header ->
  field header col (set_field header col v r) = Some v.
Proof.
  intros Hin Hlen. unfold field, set_field.
  destruct (list_find (fun c => c = col) header) as [[i c]|] eqn:Hf.
  - apply list_find_Some in Hf. destruct Hf as (Hi & _).
    apply list_lookup_insert_eq. rewrite Hlen. by eapply lookup_lt_Some.
  - apply list_find_None in Hf. rewrite Forall_forall in Hf.
    by destruct (Hf col Hin).
Qed.

Lemma field_set_field_other (header r : record) (col col' v : string) :
  col ≠ col' ->
  field header col' (set_field header col v r) = field header col' r.
Proof.
  intros Hne. unfold field, set_field.
  destruct (list_find (fun c => c = col) header) as [[i c]|] eqn:Hf; [|done].
  destruct (list_find (fun c => c = col') header) as [[j c']|] eqn:Hf';
    [|done].
  apply list_find_Some in Hf. destruct Hf as (Hi & -> & _).
  apply list_find_Some in Hf'. destruct Hf' as (Hj & -> & _).
  apply list_lookup_insert_ne. intros ->. congruence.
Qed.

(** [row['label'] = v] on the mapping of a record sets the field. *)
Lemma dict_set_row_dict (header r : record) (col v : string) :
  col ∈ header -> length r = length header ->
  dict_set (Some col) (PStr v) (row_dict header r)
  = row_dict header (set_field header col v r).
Proof.
  unfold row_dict, set_field. revert r.
  induction header as [|c h IH]; intros r Hin Hlen.
  - by apply elem_of_nil in Hin.
  - destruct r as [|x r]; [discriminate|].
    rewrite list_find_cons_eq.
    cbn [fmap list_fmap zip_with dict_set].
    destruct (decide (c = col)) as [->|Hne].
    + by rewrite decide_True by done.
    + rewrite decide_False by congruence.
      apply elem_of_cons in Hin. destruct Hin as [Hin|Hin]; [congruence|].
      injection Hlen as Hlen. rewrite (IH r Hin Hlen).
      destruct (list_find (fun c0 => c0 = col) h) as [[i c']|] eqn:Hf;
        reflexivity.
Qed.

Lemma py_eq_str (s pid : string) :
  py_eq (PStr s) (JStr pid) = bool_decide (s = pid).
Proof.
  simpl. destruct (String.eqb_spec s pid) as [->|Hne].
  - by rewrite bool_decide_eq_true_2.
  - by rewrite bool_decide_eq_false_2.
Qed.

(** The loop that reads the judgement rows of a table. *)
Lemma override_rows_table (header : record) (pid lab : string)
    (rows : list record) :
  "product_id" ∈ header -> "label" ∈ header ->
  Forall (fun r => length r = length header) rows ->
  forall acc,
    override_rows (JStr pid) (JStr lab) (row_dict header <$> rows) acc
    = inr (acc ++ (row_dict header <$> (relabelled header pid lab <$> rows))).
Proof.
  intros Hpid Hlab Hlen. induction rows as [|r rows IH]; intros acc.
  - simpl. by rewrite app_nil_r.
  - apply Forall_cons in Hlen. destruct Hlen as [Hr Hrows].
    rewrite !fmap_cons. cbn [override_rows].
    rewrite (subscript_row_dict header r "product_id" Hpid Hr).
    rewrite exn_bind_inr, py_eq_str. cbv zeta.
    destruct (field_is_Some header r "product_id" Hpid Hr) as [s Hs].
    assert ((if bool_decide (default "" (field header "product_id" r) = pid)
             then dict_set (Some "label") (to_cell (JStr lab))
                    (row_dict header r)
             else row_dict header r)
            = row_dict header (relabelled header pid lab r)) as ->.
    { unfold relabelled. rewrite Hs. change (default "" (Some s)) with s.
      destruct (decide (s = pid)) as [->|Hne].
      - rewrite bool_decide_eq_true_2 by done. rewrite decide_True by done.
        by apply dict_set_row_dict.
      - rewrite bool_decide_eq_false_2 by done.
        by rewrite decide_False by congruence. }
    rewrite (IH Hrows), <- app_assoc. reflexivity.
Qed.

(** ** csv.DictWriter on a table *)

Lemma row_dict_dict_keys (header r : record) :
  length r = length header -> dict_keys (row_dict header r) = Some <$> header.
Proof.
  intros Hlen. unfold dict_keys, row_dict. apply fst_zip.
  rewrite !length_fmap. lia.
Qed.

Lemma key_text_header (header : record) :
  key_text <$> (Some <$> header) = header.
Proof.
  rewrite <- list_fmap_compose. induction header as [|c h IH]; [done|].
  rewrite fmap_cons, IH. reflexivity.
Qed.

(** A record of a table is written back as it was read. *)
Lemma dict_to_list_row_dict (py_str_list : list string -> string)
    (header r : list string) :
  NoDup header -> length r = length header ->
  dict_to_list py_str_list (Some <$> header) (row_dict header r) = inr r.
Proof.
  intros Hnd Hlen. unfold dict_to_list.
  rewrite (row_dict_dict_keys header r Hlen).
  match goal with
  | |- (if ?b then _ else _) = _ => assert (b = true) as ->
  end.
  { apply forallb_forall. intros k Hk. apply bool_decide_eq_true_2.
    by apply list_elem_of_In. }
  f_equal. apply list_eq. intros i.
  rewrite !list_lookup_fmap.
  destruct (header !! i) as [c|] eqn:Hi; simpl.
  - rewrite dict_get_row_dict, (field_at header r i c Hnd Hi).
    destruct (r !! i) as [x|] eqn:Hx; [done|].
    apply lookup_ge_None in Hx. apply lookup_lt_Some in Hi. lia.
  - symmetry. apply lookup_ge_None. apply lookup_ge_None in Hi. lia.
Qed.

Lemma for_each_dictwriter (py_str_list : list string -> string) (p : path)
    (header : record) (rows : list record) (c : csv_file) (w : world) :
  NoDup header -> Forall (fun r => length r = length header) rows ->
  p ≠ [] -> lookup_path p (root w) = Some (File c) ->
  exists n',
    for_each (row_dict header <$> rows) (fun row =>
      r ← lift (dict_to_list py_str_list (Some <$> header) row);
      writerow p r) w
    = (inr tt, World n' (io_log w) (rand w))
    /\ lookup_path p n' = Some (File (c ++ rows)).
Proof.
  intros Hnd Hlen Hp. revert c w.
  induction rows as [|r rows IH]; intros c w H.
  - exists (root w). simpl. rewrite app_nil_r. by destruct w.
  - apply Forall_cons in Hlen. destruct Hlen as [Hr Hrows].
    destruct (writerow_appends p r c w Hp H) as (n1 & Hw & Hl).
    destruct (IH Hrows (c ++ [r]) (World n1 (io_log w) (rand w)) Hl)
      as (n2 & Hr2 & Hl2).
    exists n2. rewrite fmap_cons. cbn [for_each].
    rewrite run_bind, run_bind, run_lift,
      (dict_to_list_row_dict py_str_list header r Hnd Hr), Hw, Hr2.
    split; [done|]. by rewrite Hl2, <- app_assoc.
Qed.

Lemma label_truthy (lab : string) : lab ∈ labels -> truthy (JStr lab) = true.
Proof.
  intros H. apply truthy_str. intros ->. revert H.
  apply (bool_decide_unpack _). vm_compute. reflexivity.
Qed.

(** The whole run of the override route on a judgement table. *)
Lemma override_label_table (py_str_list : list string -> string)
    (data : jval) (u m pid lab : string) (w : world) (jh : record)
    (jrows : list record) :
  json_get "uuid" data = inr (JStr u) -> u ≠ "" ->
  json_get "model" data = inr (JStr m) -> m ∈ MODEL_NAMES ->
  json_get "product_id" data = inr (JStr pid) -> pid ≠ "" ->
  json_get "new_label" data = inr (JStr lab) -> lab ∈ labels ->
  lookup_path (table_path u m Judgement) (root w) = Some (File (jh :: jrows)) ->
  keyed_table jh jrows -> "label" ∈ jh ->
  exists n',
    override_label py_str_list data w
    = (Response 200 POk,
       World n'
         (io_log w ++ [EvExists (table_path u m Judgement);
                       EvRead (table_path u m Judgement)]
                   ++ match jrows with
                      | [] => []
                      | _ => [EvWrite (table_path u m Judgement)]
                      end)
         (rand w))
    /\ lookup_path (table_path u m Judgement) n'
       = Some (File (jh :: (relabelled jh pid lab <$> jrows))).
Proof.
  intros Hu Hu' Hm Hm' Hp Hp' Hl Hl' Hj [Hk [Hnd Hlen]] Hlab.
  pose proof (keyed_header_nonempty jh Hk) as Hne.
  assert (table_path u m Judgement ≠ []) as Hpath by done.
  unfold override_label, handler.
  rewrite run_bind, run_lift, Hu, run_bind, run_lift, Hm,
    run_bind, run_lift, Hp, run_bind, run_lift, Hl.
  rewrite (truthy_str u Hu'), (model_name_truthy m Hm'), (truthy_str pid Hp'),
    (label_truthy lab Hl'), (in_strs_true m _ Hm').
  change ["Yes"; "N/A"; "No"] with labels. rewrite (in_strs_true lab _ Hl').
  cbn [negb andb].
  rewrite run_bind, run_lift, get_csv_path_judgement.
  rewrite run_bind, run_path_exists. cbn [logged root io_log rand].
  rewrite (present_file _ _ _ Hj). cbn [negb].
  rewrite run_bind, run_read_file. cbn [logged root io_log rand]. rewrite Hj.
  rewrite (DictReader_table jh jrows Hne (conj Hnd Hlen)).
  rewrite run_bind, run_lift,
    (override_rows_table jh pid lab jrows Hk Hlab Hlen []).
  cbn [app].
  destruct jrows as [|r jrows].
  - exists (root w). split; [|exact Hj].
    cbn [fmap list_fmap]. rewrite run_bind, !run_ret.
    unfold logged. cbn [root io_log rand]. rewrite <- !app_assoc. reflexivity.
  - set (r' := relabelled jh pid lab r).
    set (rest := relabelled jh pid lab <$> jrows).
    rewrite (fmap_cons (relabelled jh pid lab) r jrows). fold r' rest.
    assert (Forall (fun r => length r = length jh) (r' :: rest)) as Hlen'.
    { subst r' rest. rewrite <- fmap_cons. apply Forall_fmap.
      eapply Forall_impl; [exact Hlen|].
      intros r0 Hr0. simpl. by rewrite relabelled_length. }
    assert (length r' = length jh) as Hr' by exact (Forall_inv Hlen').
    set (w1 := logged (EvRead (table_path u m Judgement))
                 (logged (EvExists (table_path u m Judgement)) w)).
    destruct (write_at_over_file _ [] _ (root w1) Hpath Hj) as [n1 Hn1].
    pose proof (lookup_write_at _ _ _ _ Hn1) as Hl1.
    set (w2 := World n1 (io_log w1 ++ [EvWrite (table_path u m Judgement)])
                 (rand w1)).
    destruct (writerow_appends (table_path u m Judgement) jh [] w2 Hpath Hl1)
      as (n2 & Hw2 & Hl2).
    destruct (for_each_dictwriter py_str_list (table_path u m Judgement)
                jh (r' :: rest) [jh] (World n2 (io_log w2) (rand w2)) Hnd Hlen'
                Hpath Hl2) as (n3 & Hw3 & Hl3).
    exists n3. split; [|exact Hl3].
    rewrite fmap_cons in Hw3. rewrite fmap_cons. cbv beta iota.
    rewrite (row_dict_dict_keys jh r' Hr'), key_text_header.
    rewrite run_bind, run_bind, run_open_w, Hn1. fold w2.
    rewrite run_bind, Hw2, Hw3, run_ret.
    subst w2 w1. unfold logged. cbn [root io_log rand].
    rewrite <- !app_assoc. reflexivity.
Qed.

Lemma relabelled_other (header : record) (pid lab : string) (r : record) :
  field header "product_id" r ≠ Some pid -> relabelled header pid lab r = r.
Proof. intros H. unfold relabelled. by rewrite decide_False. Qed.

Lemma relabelled_label (header : record) (pid lab : string) (r : record) :
  "label" ∈ header -> length r = length header ->
  field header "product_id" r = Some pid ->
  field header "label" (relabelled header pid lab r) = Some lab.
Proof.
  intros Hlab Hlen H. unfold relabelled. rewrite decide_True by done.
  by apply field_set_field_same.
Qed.

Lemma relabelled_frame (header : record) (pid lab col : string) (r : record) :
  col ≠ "label" ->
  field header col (relabelled header pid lab r) = field header col r.
Proof.
  intros Hne. unfold relabelled. destruct (decide _); [|done].
  by apply field_set_field_other.
Qed.

(** ** C4: the override rewrites the label of the matching rows only *)

(** C4.  For a judgement table that exists, a product identifier and a
    new label among [Yes], [N/A] and [No], the override route answers
    200, and the file then holds the same header, in the same column
    order, and as many rows in the same order; the row at each place is
    the old one with the new label in the [label] column if its
    [product_id] is the given one (every such row, not only the first),
    and the old one unchanged otherwise; no other column of any row
    changes. *)
Theorem override_label_rewrites_matching_rows
    (py_str_list : list string -> string) (data : jval)
    (u m pid lab : string) (w : world) (jh : record) (jrows : list record) :
  json_get "uuid" data = inr (JStr u) -> u ≠ "" ->
  json_get "model" data = inr (JStr m) -> m ∈ MODEL_NAMES ->
  json_get "product_id" data = inr (JStr pid) -> pid ≠ "" ->
  json_get "new_label" data = inr (JStr lab) -> lab ∈ labels ->
  lookup_path (table_path u m Judgement) (root w) = Some (File (jh :: jrows)) ->
  keyed_table jh jrows -> "label" ∈ jh ->
  exists w' rows',
    override_label py_str_list data w = (Response 200 POk, w')
    /\ lookup_path (table_path u m Judgement) (root w')
       = Some (File (jh :: rows'))
    /\ rows' = relabelled jh pid lab <$> jrows
    /\ length rows' = length jrows
    /\ (forall i r, jrows !! i = Some r ->
          exists r',
            rows' !! i = Some r'
            /\ length r' = length r
            /\ (field jh "product_id" r = Some pid ->
                field jh "label" r' = Some lab)
            /\ (field jh "product_id" r ≠ Some pid -> r' = r)
            /\ (forall col, col ≠ "label" ->
                  field jh col r' = field jh col r)).
Proof.
  intros Hu Hu' Hm Hm' Hp Hp' Hl Hl' Hj Ht Hlab.
  destruct (override_label_table py_str_list data u m pid lab w jh jrows
              Hu Hu' Hm Hm' Hp Hp' Hl Hl' Hj Ht Hlab) as (n' & Hrun & Hfile).
  eexists _, (relabelled jh pid lab <$> jrows).
  split; [exact Hrun|]. split; [exact Hfile|]. split; [reflexivity|].
  split; [by rewrite length_fmap|].
  intros i r Hr. exists (relabelled jh pid lab r).
  split; [by rewrite list_lookup_fmap, Hr|].
  split; [apply relabelled_length|].
  destruct Ht as [_ [_ Hlen]]. rewrite Forall_forall in Hlen.
  pose proof (Hlen r (list_elem_of_lookup_2 _ _ _ Hr)) as Hrlen.
  split; [by apply relabelled_label|].
  split; [apply relabelled_other|].
  intros col Hcol. by apply relabelled_frame.
Qed.

Lemma repeated_table :
  keyed_table judgement_header repeated_judgement_rows
  /\ "label" ∈ judgement_header /\ "No" ∈ labels.
Proof.
  unfold keyed_table, is_table.
  apply (bool_decide_unpack _). vm_compute. reflexivity.
Qed.

Lemma override_label_rewrites_matching_rows_witness :
  (json_get "uuid" (override_body "P0001" "No") = inr (JStr "s1") /\ "s1" ≠ ""
   /\ json_get "model" (override_body "P0001" "No") = inr (JStr example_model)
   /\ example_model ∈ MODEL_NAMES
   /\ json_get "product_id" (override_body "P0001" "No") = inr (JStr "P0001")
   /\ "P0001" ≠ ""
   /\ json_get "new_label" (override_body "P0001" "No") = inr (JStr "No")
   /\ "No" ∈ labels
   /\ lookup_path (table_path "s1" example_model Judgement)
        (root repeated_world)
      = Some (File (judgement_header :: repeated_judgement_rows))
   /\ keyed_table judgement_header repeated_judgement_rows
   /\ "label" ∈ judgement_header)
  /\ exists w' rows',
       override_label (fun _ => "") (override_body "P0001" "No") repeated_world
       = (Response 200 POk, w')
       /\ lookup_path (table_path "s1" example_model Judgement) (root w')
          = Some (File (judgement_header :: rows'))
       /\ rows' = relabelled judgement_header "P0001" "No"
                  <$> repeated_judgement_rows
       /\ length rows' = length repeated_judgement_rows
       /\ (forall i r, repeated_judgement_rows !! i = Some r ->
             exists r',
               rows' !! i = Some r'
               /\ length r' = length r
               /\ (field judgement_header "product_id" r = Some "P0001" ->
                   field judgement_header "label" r' = Some "No")
               /\ (field judgement_header "product_id" r ≠ Some "P0001" ->
                   r' = r)
               /\ (forall col, col ≠ "label" ->
                     field judgement_header col r'
                     = field judgement_header col r)).
Proof.
  destruct repeated_table as (Ht & Hlab & Hno).
  split.
  - split; [reflexivity|]. split; [discriminate|]. split; [reflexivity|].
    split; [apply example_model_valid|]. split; [reflexivity|].
    split; [discriminate|]. split; [reflexivity|]. split; [exact Hno|].
    split; [vm_compute; reflexivity|]. done.
  - apply (override_label_rewrites_matching_rows (fun _ => "")
             (override_body "P0001" "No") "s1" example_model "P0001" "No"
             repeated_world judgement_header repeated_judgement_rows).
    + reflexivity.
    + discriminate.
    + reflexivity.
    + apply example_model_valid.
    + reflexivity.
    + discriminate.
    + reflexivity.
    + exact Hno.
    + vm_compute; reflexivity.
    + exact Ht.
    + exact Hlab.
Defined.

(** Both P0001 rows get the new label and the P0002 row keeps its own. *)
Example override_label_example :
  let w' := (override_label (fun _ => "") (override_body "P0001" "No")
               repeated_world).2 in
  (fun n => match n with
            | File f => (fun r => (hd "" r, field judgement_header "label" r))
                        <$> f
            | Dir _ => []
            end)
    <$> lookup_path (table_path "s1" example_model Judgement) (root w')
  = Some [("product_id", Some "label"); ("P0001", Some "No");
          ("P0002", Some "N/A"); ("P0001", Some "No")].
Proof. vm_compute. reflexivity. Qed.

(** After an override of P0002 from [Yes] to [No] on the example session
    the results route reports the new label and counts it. *)
Example override_then_results_example :
  let w' := (override_label (fun _ => "") (override_body "P0002" "No")
               example_world).2 in
  match (get_results example_args w').1 with
  | Response code (PResults counts items) =>
      Some (code, counts !! "Yes", counts !! "N/A", counts !! "No",
            (fun it => (it_product_id it, it_label it)) <$> items)
  | _ => None
  end
  = Some (200, Some 0, Some 0, Some 2,
          [(PStr "P0002", PStr "No"); (PStr "P0001", PStr "No");
           (PStr "P0003", PStr "Maybe")]).
Proof. vm_compute. reflexivity. Qed.

(** ** C6: overrides that change nothing *)

Lemma override_label_prefix (py_str_list : list string -> string)
    (data : jval) (u m pid lab : string) (w : world) :
  json_get "uuid" data = inr (JStr u) -> u ≠ "" ->
  json_get "model" data = inr (JStr m) -> m ∈ MODEL_NAMES ->
  json_get "product_id" data = inr (JStr pid) -> pid ≠ "" ->
  json_get "new_label" data = inr (JStr lab) -> lab ∈ labels ->
  (lookup_path (table_path u m Judgement) (root w) = None ->
   override_label py_str_list data w
   = (Response 400 (PFail "Judgement CSV not found"),
      World (root w) (io_log w ++ [EvExists (table_path u m Judgement)])
        (rand w)))
  /\ (forall f, lookup_path (table_path u m Judgement) (root w) = Some (File f) ->
        DictReader f = [] ->
        override_label py_str_list data w
        = (Response 200 POk,
           World (root w)
             (io_log w ++ [EvExists (table_path u m Judgement);
                           EvRead (table_path u m Judgement)])
             (rand w))).
Proof.
  intros Hu Hu' Hm Hm' Hp Hp' Hl Hl'.
  assert (forall k : response * world,
    override_label py_str_list data w = k <->
    (let (s, w') :=
       (present ← path_exists (table_path u m Judgement);
        if negb present then
          mret (Response 400 (PFail "Judgement CSV not found"))
        else
          f ← read_file (table_path u m Judgement);
          rows ← lift (override_rows (JStr pid) (JStr lab) (DictReader f) []);
          match rows with
          | [] => (mret tt : M unit)
          | first :: _ =>
              open_w (table_path u m Judgement);;
              let fieldnames := dict_keys first in
              writerow (table_path u m Judgement) (key_text <$> fieldnames);;
              for_each rows (fun row =>
                r ← lift (dict_to_list py_str_list fieldnames row);
                writerow (table_path u m Judgement) r)
          end;;
          mret (Response 200 POk)) w in
     match s with
     | inl e => (Response 500 (PFailExn e), w')
     | inr r => (r, w')
     end) = k) as Hrun.
  { intros k. unfold override_label, handler.
    rewrite run_bind, run_lift, Hu, run_bind, run_lift, Hm,
      run_bind, run_lift, Hp, run_bind, run_lift, Hl.
    rewrite (truthy_str u Hu'), (model_name_truthy m Hm'),
      (truthy_str pid Hp'), (label_truthy lab Hl'), (in_strs_true m _ Hm').
    change ["Yes"; "N/A"; "No"] with labels. rewrite (in_strs_true lab _ Hl').
    cbn [negb andb].
    rewrite run_bind, run_lift, get_csv_path_judgement. reflexivity. }
  split.
  - intros Hnone. apply Hrun.
    rewrite run_bind, run_path_exists. cbn [logged root io_log rand].
    rewrite Hnone, bool_decide_eq_false_2 by (intros [? ?]; discriminate).
    reflexivity.
  - intros f Hf Hrows. apply Hrun.
    rewrite run_bind, run_path_exists. cbn [logged root io_log rand].
    rewrite (present_file _ _ _ Hf). cbn [negb].
    rewrite run_bind, run_read_file. cbn [logged root io_log rand].
    rewrite Hf, Hrows. cbn [override_rows].
    rewrite run_bind, run_lift, run_bind, !run_ret.
    unfold logged. cbn [root io_log rand]. rewrite <- !app_assoc. reflexivity.
Qed.

(** C6.  For a valid override request: when no row of the judgement
    table has the given [product_id], the route answers 200 and the file
    holds what it held; when the file has no data row, the route answers
    200 without opening the file for writing (it probes the path and
    reads the file, nothing more); when there is no judgement table the
    route answers 400 with the error [Judgement CSV not found]. *)
Theorem override_label_without_effect (py_str_list : list string -> string)
    (data : jval) (u m pid lab : string) (w : world) :
  json_get "uuid" data = inr (JStr u) -> u ≠ "" ->
  json_get "model" data = inr (JStr m) -> m ∈ MODEL_NAMES ->
  json_get "product_id" data = inr (JStr pid) -> pid ≠ "" ->
  json_get "new_label" data = inr (JStr lab) -> lab ∈ labels ->
  (forall jh jrows,
     lookup_path (table_path u m Judgement) (root w)
     = Some (File (jh :: jrows)) ->
     keyed_table jh jrows -> "label" ∈ jh ->
     (forall r, r ∈ jrows -> field jh "product_id" r ≠ Some pid) ->
     exists w',
       override_label py_str_list data w = (Response 200 POk, w')
       /\ lookup_path (table_path u m Judgement) (root w')
          = Some (File (jh :: jrows)))
  /\ (forall f,
        lookup_path (table_path u m Judgement) (root w) = Some (File f) ->
        DictReader f = [] ->
        override_label py_str_list data w
        = (Response 200 POk,
           World (root w)
             (io_log w ++ [EvExists (table_path u m Judgement);
                           EvRead (table_path u m Judgement)])
             (rand w)))
  /\ (lookup_path (table_path u m Judgement) (root w) = None ->
      override_label py_str_list data w
      = (Response 400 (PFail "Judgement CSV not found"),
         World (root w) (io_log w ++ [EvExists (table_path u m Judgement)])
           (rand w))).
Proof.
  intros Hu Hu' Hm Hm' Hp Hp' Hl Hl'.
  destruct (override_label_prefix py_str_list data u m pid lab w
              Hu Hu' Hm Hm' Hp Hp' Hl Hl') as [Hnone Hempty].
  split; [|split; [exact Hempty|exact Hnone]].
  intros jh jrows Hj Ht Hlab Hno.
  destruct (override_label_table py_str_list data u m pid lab w jh jrows
              Hu Hu' Hm Hm' Hp Hp' Hl Hl' Hj Ht Hlab) as (n' & Hrun & Hfile).
  eexists. split; [exact Hrun|]. cbn [root]. rewrite Hfile. do 3 f_equal.
  clear -Hno. induction jrows as [|r jrows IH]; [done|].
  rewrite fmap_cons, relabelled_other by (apply Hno; by left).
  f_equal. apply IH. intros r0 Hr0. apply Hno. by right.
Qed.

Lemma override_label_without_effect_witness :
  (json_get "uuid" (override_body "P9999" "No") = inr (JStr "s1") /\ "s1" ≠ ""
   /\ json_get "model" (override_body "P9999" "No") = inr (JStr example_model)
   /\ example_model ∈ MODEL_NAMES
   /\ json_get "product_id" (override_body "P9999" "No") = inr (JStr "P9999")
   /\ "P9999" ≠ ""
   /\ json_get "new_label" (override_body "P9999" "No") = inr (JStr "No")
   /\ "No" ∈ labels)
  /\ (exists w',
        override_label (fun _ => "") (override_body "P9999" "No") example_world
        = (Response 200 POk, w')
        /\ lookup_path (table_path "s1" example_model Judgement) (root w')
           = Some (File (judgement_header :: example_rows example_judgement)))
  /\ override_label (fun _ => "") (override_body "P9999" "No") header_only_world
     = (Response 200 POk,
        World (root header_only_world)
          (io_log header_only_world
           ++ [EvExists (table_path "s1" example_model Judgement);
               EvRead (table_path "s1" example_model Judgement)])
          (rand header_only_world))
  /\ override_label (fun _ => "") (override_body "P9999" "No")
       no_judgement_world
     = (Response 400 (PFail "Judgement CSV not found"),
        World (root no_judgement_world)
          (io_log no_judgement_world
           ++ [EvExists (table_path "s1" example_model Judgement)])
          (rand no_judgement_world)).
Proof.
  destruct repeated_table as (_ & Hlab & Hno).
  destruct example_tables as (_ & _ & [Hcols Htab]).
  pose proof (fun w =>
    override_label_without_effect (fun _ => "") (override_body "P9999" "No")
      "s1" example_model "P9999" "No" w
      eq_refl ltac:(discriminate) eq_refl example_model_valid
      eq_refl ltac:(discriminate) eq_refl Hno) as H.
  split.
  - split; [reflexivity|]. split; [discriminate|]. split; [reflexivity|].
    split; [apply example_model_valid|]. split; [reflexivity|].
    split; [discriminate|]. split; [reflexivity|exact Hno].
  - split; [|split].
    + apply (proj1 (H example_world)).
      * vm_compute. reflexivity.
      * split; [|exact Htab]. by apply judgement_header_product_id.
      * exact Hlab.
      * apply Forall_forall. apply (bool_decide_unpack _).
        vm_compute. reflexivity.
    + apply (proj1 (proj2 (H header_only_world)) [judgement_header]).
      * vm_compute. reflexivity.
      * reflexivity.
    + apply (proj2 (proj2 (H no_judgement_world))).
      vm_compute. reflexivity.
Defined.

(** ** The generation routes called again *)

(** A generation route called for a table that exists answers 200 and
    leaves the header and 50 fresh rows, whatever the file held. *)
Lemma generation_route_regenerates (k : kind) (data : jval) (u m : string)
    (w : world) (old : csv_file) :
  json_get "uuid" data = inr (JStr u) -> u ≠ "" ->
  json_get "model" data = inr (JStr m) -> m ∈ MODEL_NAMES ->
  lookup_path (table_path u m k) (root w) = Some (File old) ->
  exists w',
    generation_route k data w = (Response 200 POk, w')
    /\ lookup_path (table_path u m k) (root w')
       = Some (File (header_of k :: rows_of k (rand w) 1 50)).
Proof.
  intros Hu Hu' Hm Hm' Hold.
  assert (table_path u m k ≠ []) as Hpath by done.
  pose proof (writable_over_file _ _ _ Hpath Hold) as Hw.
  destruct (writable_can_create _ [] _ Hw) as (n1 & n2 & Hn1 & Hn2).
  destruct (create_sample_csv_writes k _ default_num_items w n1 n2 Hn1 Hn2)
    as (n3 & Hrun & Hfile).
  destruct k; (eexists (World n3 _ _); split; [|exact Hfile]);
    unfold generation_route;
    [unfold make_video_description|unfold make_product_info|unfold judge];
    unfold handler;
    rewrite run_bind, run_lift, Hu, run_bind, run_lift, Hm,
      (truthy_str u Hu'), (model_name_truthy m Hm'), (in_strs_true m _ Hm');
    cbn [negb orb];
    rewrite run_bind, run_lift;
    [rewrite get_csv_path_video_description
    |rewrite get_csv_path_product_info
    |rewrite get_csv_path_judgement];
    rewrite run_bind; simpl kind_name in Hrun; rewrite Hrun; reflexivity.
Qed.

Lemma rows_of_keyed_table (k : kind) (rnd : nat -> nat) (n : nat) :
  keyed_table (header_of k) (rows_of k rnd 1 n).
Proof.
  split; [|split].
  - destruct k; apply (bool_decide_unpack _); vm_compute; reflexivity.
  - destruct k; apply (bool_decide_unpack _); vm_compute; reflexivity.
  - destruct k; simpl rows_of; apply Forall_fmap, Forall_forall;
      intros i _; reflexivity.
Qed.

(** ** C8: the generator writes [count] rows and replaces what was there *)

(** C8.  (1) For every kind of table and every count, wherever a file can
    be created or replaced, [create_sample_csv] returns, and the file at
    the path then holds the fixed header of the kind followed by exactly
    [num_items] data rows: each of them has one field for every column of
    the header, and a reader of the file finds [num_items] rows.  What
    the path held before plays no part: the rows are a function of the
    kind, the count and the random source alone.  (2) So each of the
    three generation routes, called for a table that exists already,
    answers 200 and replaces the content of the table, whatever it was,
    by the header and 50 such rows.  (3) In particular a label override
    applied to a judgement table is lost when [judge] is called again:
    the table is then the one that [judge] would have written without the
    override. *)
Theorem create_sample_csv_overwrites (py_str_list : list string -> string) :
  (forall (k : kind) (p : path) (num_items : nat) (w : world),
     writable p (root w) = true ->
     exists w' rows,
       create_sample_csv p (kind_name k) num_items w = (inr tt, w')
       /\ lookup_path p (root w') = Some (File (table_columns k :: rows))
       /\ length rows = num_items
       /\ Forall (fun r => length r = length (table_columns k)) rows
       /\ length (DictReader (table_columns k :: rows)) = num_items
       /\ rows = rows_of k (rand w) 1 num_items
       /\ io_log w' = io_log w ++ [EvMkdir (parent p); EvWrite p])
  /\ (forall (k : kind) (data : jval) (u m : string) (w : world)
             (old : csv_file),
        json_get "uuid" data = inr (JStr u) -> u ≠ "" ->
        json_get "model" data = inr (JStr m) -> m ∈ MODEL_NAMES ->
        lookup_path (table_path u m k) (root w) = Some (File old) ->
        exists w' rows,
          generation_route k data w = (Response 200 POk, w')
          /\ lookup_path (table_path u m k) (root w')
             = Some (File (table_columns k :: rows))
          /\ length rows = 50
          /\ Forall (fun r => length r = length (table_columns k)) rows
          /\ rows = rows_of k (rand w) 1 50)
  /\ (forall (data data' : jval) (u m pid lab : string) (w : world)
             (jh : record) (jrows : list record),
        json_get "uuid" data = inr (JStr u) -> u ≠ "" ->
        json_get "model" data = inr (JStr m) -> m ∈ MODEL_NAMES ->
        json_get "uuid" data' = inr (JStr u) ->
        json_get "model" data' = inr (JStr m) ->
        json_get "product_id" data' = inr (JStr pid) -> pid ≠ "" ->
        json_get "new_label" data' = inr (JStr lab) -> lab ∈ labels ->
        lookup_path (table_path u m Judgement) (root w)
        = Some (File (jh :: jrows)) ->
        keyed_table jh jrows -> "label" ∈ jh ->
        exists w1 w2,
          override_label py_str_list data' w = (Response 200 POk, w1)
          /\ lookup_path (table_path u m Judgement) (root w1)
             = Some (File (jh :: (relabelled jh pid lab <$> jrows)))
          /\ judge data w1 = (Response 200 POk, w2)
          /\ lookup_path (table_path u m Judgement) (root w2)
             = Some (File (table_columns Judgement
                           :: rows_of Judgement (rand w) 1 50))
          /\ lookup_path (table_path u m Judgement) (root w2)
             = lookup_path (table_path u m Judgement) (root (judge data w).2)).
Proof.
  assert (forall k rnd n,
            Forall (fun r => length r = length (table_columns k))
                   (rows_of k rnd 1 n)) as Hrows.
  { intros k rnd n. by destruct (rows_of_keyed_table k rnd n) as (_ & _ & H). }
  split; [|split].
  - intros k p num_items w H.
    destruct (writable_can_create p [] _ H) as (n1 & n2 & Hm & Ho).
    destruct (create_sample_csv_writes k p num_items w n1 n2 Hm Ho)
      as (n3 & Hr & Hl).
    eexists _, (rows_of k (rand w) 1 num_items).
    split; [exact Hr|]. split; [by destruct k|].
    split; [apply rows_of_length|]. split; [apply Hrows|].
    split; [|split; reflexivity].
    destruct (rows_of_keyed_table k (rand w) num_items) as (Hk & Ht).
    change (table_columns k) with (header_of k).
    rewrite (DictReader_table _ _ (keyed_header_nonempty _ Hk) Ht).
    by rewrite length_fmap, rows_of_length.
  - intros k data u m w old Hu Hu' Hm Hm' Hold.
    destruct (generation_route_regenerates k data u m w old Hu Hu' Hm Hm' Hold)
      as (w' & Hrun & Hfile).
    exists w', (rows_of k (rand w) 1 50).
    split; [exact Hrun|]. split; [by destruct k|].
    split; [apply rows_of_length|]. split; [apply Hrows|reflexivity].
  - intros data data' u m pid lab w jh jrows Hu Hu' Hm Hm' Hu2 Hm2 Hp Hp'
      Hl Hl' Hj Ht Hlab.
    destruct (override_label_table py_str_list data' u m pid lab w jh jrows
                Hu2 Hu' Hm2 Hm' Hp Hp' Hl Hl' Hj Ht Hlab)
      as (n1 & Hrun1 & Hfile1).
    eexists (World n1 _ _).
    destruct (generation_route_regenerates Judgement data u m
                (World n1
                   (io_log w ++ [EvExists (table_path u m Judgement);
                                 EvRead (table_path u m Judgement)]
                    ++ match jrows with
                       | [] => []
                       | _ => [EvWrite (table_path u m Judgement)]
                       end) (rand w))
                _ Hu Hu' Hm Hm' Hfile1) as (w2 & Hrun2 & Hfile2).
    destruct (generation_route_regenerates Judgement data u m w _
                Hu Hu' Hm Hm' Hj) as (w2' & Hrun2' & Hfile2').
    exists w2. split; [exact Hrun1|]. split; [exact Hfile1|].
    split; [exact Hrun2|]. split; [exact Hfile2|].
    change (generation_route Judgement data w) with (judge data w) in Hrun2'.
    rewrite Hrun2'. cbn [snd]. by rewrite Hfile2, Hfile2'.
Qed.

Lemma create_sample_csv_overwrites_witness :
  (writable (example_path Judgement) (root example_world) = true
   /\ json_get "uuid" example_body = inr (JStr "s1") /\ "s1" ≠ ""
   /\ json_get "model" example_body = inr (JStr example_model)
   /\ example_model ∈ MODEL_NAMES
   /\ json_get "uuid" (override_body "P0002" "No") = inr (JStr "s1")
   /\ json_get "model" (override_body "P0002" "No")
      = inr (JStr example_model)
   /\ json_get "product_id" (override_body "P0002" "No") = inr (JStr "P0002")
   /\ "P0002" ≠ ""
   /\ json_get "new_label" (override_body "P0002" "No") = inr (JStr "No")
   /\ "No" ∈ labels
   /\ lookup_path (table_path "s1" example_model Judgement)
        (root example_world)
      = Some (File (judgement_header :: example_rows example_judgement))
   /\ keyed_table judgement_header (example_rows example_judgement)
   /\ "label" ∈ judgement_header)
  /\ (exists w' rows,
        create_sample_csv (example_path Judgement) (kind_name Judgement) 2
          example_world = (inr tt, w')
        /\ lookup_path (example_path Judgement) (root w')
           = Some (File (table_columns Judgement :: rows))
        /\ length rows = 2
        /\ Forall (fun r => length r = length (table_columns Judgement)) rows
        /\ length (DictReader (table_columns Judgement :: rows)) = 2
        /\ rows = rows_of Judgement (rand example_world) 1 2
        /\ io_log w' = io_log example_world
                       ++ [EvMkdir (parent (example_path Judgement));
                           EvWrite (example_path Judgement)])
  /\ (exists w' rows,
        generation_route Judgement example_body example_world
        = (Response 200 POk, w')
        /\ lookup_path (table_path "s1" example_model Judgement) (root w')
           = Some (File (table_columns Judgement :: rows))
        /\ length rows = 50
        /\ Forall (fun r => length r = length (table_columns Judgement)) rows
        /\ rows = rows_of Judgement (rand example_world) 1 50)
  /\ (exists w1 w2,
        override_label (fun _ => "") (override_body "P0002" "No") example_world
        = (Response 200 POk, w1)
        /\ lookup_path (table_path "s1" example_model Judgement) (root w1)
           = Some (File (judgement_header
                         :: (relabelled judgement_header "P0002" "No"
                             <$> example_rows example_judgement)))
        /\ judge example_body w1 = (Response 200 POk, w2)
        /\ lookup_path (table_path "s1" example_model Judgement) (root w2)
           = Some (File (table_columns Judgement
                         :: rows_of Judgement (rand example_world) 1 50))
        /\ lookup_path (table_path "s1" example_model Judgement) (root w2)
           = lookup_path (table_path "s1" example_model Judgement)
               (root (judge example_body example_world).2)).
Proof.
  destruct example_tables as (_ & _ & _ & Hjt).
  assert (keyed_table judgement_header (example_rows example_judgement)
          /\ "label" ∈ judgement_header /\ "No" ∈ labels)
    as (Hk & Hlab & Hno).
  { unfold keyed_table. split; [split; [|exact Hjt]|split];
      apply (bool_decide_unpack _); vm_compute; reflexivity. }
  destruct (create_sample_csv_overwrites (fun _ => "")) as (H1 & H2 & H3).
  split.
  - split; [vm_compute; reflexivity|].
    split; [reflexivity|]. split; [discriminate|]. split; [reflexivity|].
    split; [apply example_model_valid|]. split; [reflexivity|].
    split; [reflexivity|]. split; [reflexivity|]. split; [discriminate|].
    split; [reflexivity|]. split; [exact Hno|].
    split; [vm_compute; reflexivity|]. split; [exact Hk|exact Hlab].
  - split; [|split].
    + apply (H1 Judgement (example_path Judgement) 2 example_world).
      vm_compute. reflexivity.
    + apply (H2 Judgement example_body "s1" example_model example_world
               example_judgement);
        first [reflexivity|discriminate|apply example_model_valid
              |vm_compute; reflexivity].
    + apply (H3 example_body (override_body "P0002" "No") "s1" example_model
               "P0002" "No" example_world judgement_header
               (example_rows example_judgement));
        first [reflexivity|discriminate|apply example_model_valid
              |exact Hk|exact Hlab|exact Hno|vm_compute; reflexivity].
Defined.

(** The judgement table of the example session is generated again after
    an override of P0002: the override is gone, the labels are the ones
    drawn for the new rows. *)
Example regenerate_after_override_example :
  let w1 := (override_label (fun _ => "") (override_body "P0002" "No")
               example_world).2 in
  let w2 := (judge example_body w1).2 in
  (fun n => match n with
            | File f => (length f,
                         (fun r => (hd "" r, field judgement_header "label" r))
                         <$> take 3 f)
            | Dir _ => (0, [])
            end)
    <$> lookup_path (table_path "s1" example_model Judgement) (root w2)
  = Some (51, [("product_id", Some "label"); ("P0001", Some "Yes");
               ("P0002", Some "N/A")]).
Proof. vm_compute. reflexivity. Qed.

(** The counts of the judgement loop for the labels Yes, No, Yes, N/A. *)
Example judgement_loop_counts_example :
  match judgement_loop ∅ ∅
          ((fun l => row_dict judgement_header
                       ["P"; "n"; "c"; "v"; "t"; "g"; l; "r"])
           <$> ["Yes"; "No"; "Yes"; "N/A"])
          [] {[ "Yes" := 0; "N/A" := 0; "No" := 0 ]}
  with
  | inr (items, counts) =>
      Some (length items, counts !! "Yes", counts !! "No", counts !! "N/A")
  | inl _ => None
  end
  = Some (4, Some 2, Some 1, Some 1).
Proof. vm_compute. reflexivity. Qed.

(** * More of the code *)

(** ** What a change of the tree leaves alone *)

Lemma lookup_path_empty_dir (p : path) :
  p ≠ [] -> lookup_path p (Dir ∅) = None.
Proof. destruct p; [done|]. intros _. simpl. by rewrite lookup_empty. Qed.

Lemma prefix_of_cons_inv (c : string) (q p : path) :
  ¬ (c :: q) `prefix_of` (c :: p) -> ¬ q `prefix_of` p.
Proof. intros H Hq. apply H. by apply prefix_cons. Qed.

Lemma write_at_frame (p q : path) (c : csv_file) (n n' : node) :
  write_at p c n = inr n' -> ¬ q `prefix_of` p ->
  lookup_path q n' = lookup_path q n.
Proof.
  revert q n n'. induction p as [|x p IH]; intros q n n' H Hq.
  - by rewrite write_at_nil in H.
  - destruct n as [f|es]; [discriminate|].
    destruct q as [|d q]; [destruct Hq; apply prefix_nil|].
    destruct (decide (d = x)) as [->|Hne].
    + apply prefix_of_cons_inv in Hq. destruct p as [|y p].
      * simpl in H. assert (q ≠ []) as Hq' by (intros ->; apply Hq, prefix_nil).
        destruct (es !! x) as [[f|es']|] eqn:Hx; [|discriminate|];
          injection H as <-; simpl; rewrite lookup_insert_eq, Hx; simpl;
          by destruct q.
      * rewrite write_at_cons in H.
        destruct (es !! x) as [sub|] eqn:Hx; [|discriminate].
        destruct (write_at (y :: p) c sub) as [e|sub'] eqn:Hw;
          [discriminate|].
        injection H as <-. simpl. rewrite lookup_insert_eq, Hx. simpl.
        by apply (IH q sub sub').
    + assert (forall es', lookup_path (d :: q) (Dir (<[x := es']> es))
                          = lookup_path (d :: q) (Dir es)) as Hother.
      { intros es'. simpl. by rewrite lookup_insert_ne. }
      destruct p as [|y p].
      * simpl in H. destruct (es !! x) as [[f|es']|]; [|discriminate|];
          injection H as <-; apply Hother.
      * rewrite write_at_cons in H.
        destruct (es !! x) as [sub|]; [|discriminate].
        destruct (write_at (y :: p) c sub) as [e|sub']; [discriminate|].
        injection H as <-. apply Hother.
Qed.

Lemma mkdir_parents_frame (p q : path) (n n' : node) :
  mkdir_parents p n = inr n' -> ¬ q `prefix_of` p ->
  lookup_path q n' = lookup_path q n.
Proof.
  revert q n n'. induction p as [|x p IH]; intros q n n' H Hq.
  - destruct n; [discriminate|]. by injection H as <-.
  - destruct n as [f|es]; [discriminate|]. simpl in H.
    destruct (mkdir_parents p (default (Dir ∅) (es !! x))) as [e|sub] eqn:Hs;
      [discriminate|].
    injection H as <-.
    destruct q as [|d q]; [destruct Hq; apply prefix_nil|].
    destruct (decide (d = x)) as [->|Hne].
    + apply prefix_of_cons_inv in Hq. simpl. rewrite lookup_insert_eq. simpl.
      rewrite (IH q _ _ Hs Hq).
      destruct (es !! x); [done|]. simpl. apply lookup_path_empty_dir.
      intros ->. apply Hq, prefix_nil.
    + simpl. by rewrite lookup_insert_ne.
Qed.




Lemma remove_at_frame (p q : path) (n : node) :
  ¬ q `prefix_of` p -> ¬ p `prefix_of` q ->
  lookup_path q (remove_at p n) = lookup_path q n.
Proof.
  revert q n. induction p as [|x p IH]; intros q n Hq Hp.
  - by destruct n.
  - destruct n as [f|es]; [done|].
    destruct q as [|d q]; [destruct Hq; apply prefix_nil|].
    destruct (decide (d = x)) as [->|Hne].
    + apply prefix_of_cons_inv in Hq. apply prefix_of_cons_inv in Hp.
      destruct p as [|y p]; [destruct Hp; apply prefix_nil|].
      rewrite remove_at_cons. destruct (es !! x) as [sub|] eqn:Hx; [|done].
      simpl. rewrite lookup_insert_eq, Hx. simpl. by apply IH.
    + destruct p as [|y p].
      * simpl. by rewrite lookup_delete_ne.
      * rewrite remove_at_cons. destruct (es !! x) as [sub|]; [|done].
        simpl. by rewrite lookup_insert_ne.
Qed.

(** ** ensure_model_dir and pull_data *)





Lemma run_ensure_model_dir (u m : string) (w : world) :
  (ensure_model_dir (JStr u) (JStr m);; mret tt) w =
  match mkdir_parents (model_dir_path u m) (root w) with
  | inr n' => (inr tt, World n' (io_log w ++ [EvMkdir (model_dir_path u m)])
                         (rand w))
  | inl e => (inl e, logged (EvMkdir (model_dir_path u m)) w)
  end.
Proof.
  unfold ensure_model_dir. rewrite !run_bind, run_lift.
  change (get_model_dir (JStr u) (JStr m)) with
    (inr (model_dir_path u m) : exn + list string).
  cbv beta iota. rewrite run_bind, run_mkdir.
  by destruct (mkdir_parents (model_dir_path u m) (root w)).
Qed.






(** X2.  [pull_data] with a [days_back] that is neither an integer from 1
    on nor [true] (absent, zero, negative, a string, a list, ...) answers
    400 and leaves the world as it is, whatever the session identifier
    is. *)
Theorem pull_data_rejects_days_back (o : list (string * jval)) (dv : jval)
    (w : world) :
  json_get "days_back" (JObj o) = inr dv -> positive_int dv = false ->
  status_code (pull_data (JObj o) w).1 = 400 /\ (pull_data (JObj o) w).2 = w.
Proof.
  intros Hd Hneg. destruct (json_get_obj "uuid" o) as [uv Hu].
  unfold pull_data, handler.
  rewrite run_bind, run_lift, Hu, run_bind, run_lift, Hd.
  destruct (truthy uv); cbn [negb orb]; [|done].
  destruct dv as [|[|]|z|s|l|o']; try discriminate; try done.
  - simpl in Hneg. apply Z.leb_gt in Hneg.
    destruct (decide (z = 0%Z)) as [->|Hz]; [done|].
    assert (truthy (JNum z) = true) as ->
      by (simpl; apply negb_true_iff, Z.eqb_neq; done).
    assert (below_one (JNum z) = true) as ->
      by (simpl; apply Z.ltb_lt; lia).
    done.
  - by destruct (truthy (JStr s)).
  - by destruct (truthy (JArr l)).
  - by destruct (truthy (JObj o')).
Qed.

Lemma pull_data_rejects_days_back_witness :
  (json_get "days_back" (pull_body (JNum (-3))) = inr (JNum (-3))
   /\ positive_int (JNum (-3)) = false)
  /\ status_code (pull_data (pull_body (JNum (-3))) example_world).1 = 400
  /\ (pull_data (pull_body (JNum (-3))) example_world).2 = example_world.
Proof.
  split; [split; reflexivity|].
  apply (pull_data_rejects_days_back
           [("uuid", JStr "s1"); ("days_back", JNum (-3))] (JNum (-3))
           example_world); reflexivity.
Defined.




(** ** What the computations of the routes can touch *)

Lemma handler_world (run : M response) (on_exn : exn -> payload) (w : world) :
  (handler run on_exn w).2 = (run w).2.
Proof. unfold handler. by destruct (run w) as [[e|r] w']. Qed.

Lemma read_only_ret {A} (a : A) : read_only (mret a : M A).
Proof.
  intros w. split; [done|]. split; [done|]. exists []. simpl.
  by rewrite app_nil_r.
Qed.

Lemma read_only_lift {A} (r : exn + A) : read_only (lift r).
Proof.
  intros w. split; [done|]. split; [done|]. exists []. simpl.
  by rewrite app_nil_r.
Qed.

Lemma read_only_bind {A B} (m : M A) (f : A -> M B) :
  read_only m -> (forall a, read_only (f a)) -> read_only (m ≫= f).
Proof.
  intros Hm Hf w. rewrite run_bind.
  destruct (Hm w) as (Hr & Hd & evs & Hl & He).
  destruct (m w) as [[e|a] w1]; [by eauto 6|].
  destruct (Hf a w1) as (Hr' & Hd' & evs' & Hl' & He'). simpl in *.
  split; [congruence|]. split; [congruence|].
  exists (evs ++ evs'). split; [by rewrite Hl', Hl, app_assoc|].
  by apply Forall_app.
Qed.

Lemma read_only_path_exists (p : path) : read_only (path_exists p).
Proof.
  intros w. rewrite run_path_exists. split; [done|]. split; [done|].
  exists [EvExists p]. split; [done|]. by apply Forall_singleton.
Qed.

Lemma read_only_read_file (p : path) : read_only (read_file p).
Proof.
  intros w. rewrite run_read_file.
  assert (read_only_at : forall r : exn + list (list string),
            root (r, logged (EvRead p) w).2 = root w
            /\ rand (r, logged (EvRead p) w).2 = rand w
            /\ exists evs, io_log (r, logged (EvRead p) w).2 = io_log w ++ evs
                           /\ Forall is_probe_or_read evs).
  { intros r. split; [done|]. split; [done|]. exists [EvRead p].
    split; [done|]. by apply Forall_singleton. }
  destruct (lookup_path p (root w)) as [[c|es]|]; apply read_only_at.
Qed.

Lemma touches_only_read_only {A} (p : path) (m : M A) :
  read_only m -> touches_only p m.
Proof. intros H w q _. by rewrite (proj1 (H w)). Qed.

Lemma touches_only_bind {A B} (p : path) (m : M A) (f : A -> M B) :
  touches_only p m -> (forall a, touches_only p (f a)) ->
  touches_only p (m ≫= f).
Proof.
  intros Hm Hf w q Hq. rewrite run_bind. specialize (Hm w q Hq).
  destruct (m w) as [[e|a] w1]; [done|].
  rewrite (Hf a w1 q Hq). exact Hm.
Qed.

Lemma touches_only_for_each {A} (p : path) (l : list A) (body : A -> M unit) :
  (forall x, touches_only p (body x)) -> touches_only p (for_each l body).
Proof.
  intros H. induction l as [|x l IH]; [by intros w q _|].
  cbn [for_each]. apply touches_only_bind; [apply H|by intros _].
Qed.

Lemma touches_only_mkdir (p p' : path) :
  p' `prefix_of` p -> touches_only p (mkdir p').
Proof.
  intros Hp w q Hq. rewrite run_mkdir.
  destruct (mkdir_parents p' (root w)) as [e|n'] eqn:Hm; [done|].
  apply (mkdir_parents_frame _ _ _ _ Hm). intros Hq'. apply Hq.
  by etrans.
Qed.

Lemma touches_only_open_w (p : path) : touches_only p (open_w p).
Proof.
  intros w q Hq. rewrite run_open_w.
  destruct (write_at p [] (root w)) as [e|n'] eqn:Hw; [done|].
  by apply (write_at_frame _ _ _ _ _ Hw).
Qed.

Lemma touches_only_writerow (p : path) (r : record) :
  touches_only p (writerow p r).
Proof.
  intros w q Hq. rewrite run_writerow.
  destruct (lookup_path p (root w)) as [[c|es]|]; [|done|done].
  destruct (write_at p (c ++ [r]) (root w)) as [e|n'] eqn:Hw; [done|].
  by apply (write_at_frame _ _ _ _ _ Hw).
Qed.

Lemma touches_only_random_choice (p : path) (l : list string) :
  touches_only p (random_choice l).
Proof. by intros w q _. Qed.

Lemma parent_prefix (p : path) : parent p `prefix_of` p.
Proof.
  destruct (decide (p = [])) as [->|Hp]; [done|].
  exists [List.last p ""]. by apply app_removelast_last.
Qed.

Lemma create_sample_csv_touches (p : path) (csv_type : string)
    (num_items : nat) :
  touches_only p (create_sample_csv p csv_type num_items).
Proof.
  unfold create_sample_csv.
  apply touches_only_bind; [apply touches_only_mkdir, parent_prefix|].
  intros _.
  repeat (destruct (decide _));
    try (apply touches_only_read_only, read_only_ret);
    (apply touches_only_bind; [apply touches_only_open_w|]; intros _;
     apply touches_only_bind; [apply touches_only_writerow|]; intros _;
     apply touches_only_for_each; intros i).
  - apply touches_only_writerow.
  - apply touches_only_writerow.
  - apply touches_only_bind; [apply touches_only_random_choice|].
    intros label. apply touches_only_bind;
      [apply touches_only_read_only, read_only_lift|].
    intros reason. apply touches_only_writerow.
Qed.

Ltac read_only_step :=
  first
    [ apply read_only_ret
    | apply read_only_path_exists
    | apply read_only_read_file
    | apply read_only_lift
    | apply read_only_bind; [|intros ?]
    | match goal with
      | |- read_only (if ?b then _ else _) => destruct b
      end ].

(** X4.  The status route and the results route are read-only, on every
    request and every tree, whatever they answer: the tree and the
    random source are as before, and the only operations performed are
    existence probes and reads. *)
Theorem status_and_results_read_only (args : list (string * string))
    (w : world) :
  (root (get_status args w).2 = root w
   /\ rand (get_status args w).2 = rand w
   /\ exists evs, io_log (get_status args w).2 = io_log w ++ evs
                  /\ Forall is_probe_or_read evs)
  /\ (root (get_results args w).2 = root w
      /\ rand (get_results args w).2 = rand w
      /\ exists evs, io_log (get_results args w).2 = io_log w ++ evs
                     /\ Forall is_probe_or_read evs).
Proof.
  split.
  - unfold get_status. rewrite handler_world. cbv zeta.
    match goal with
    | |- context [root (?run w).2] => assert (read_only run) as H
    end; [|exact (H w)].
    repeat read_only_step.
  - unfold get_results. rewrite handler_world. cbv zeta.
    match goal with
    | |- context [root (?run w).2] => assert (read_only run) as H
    end; [|exact (H w)].
    repeat read_only_step.
Qed.

(** ** Isolation of the sessions *)

Lemma get_csv_path_inr (uv mv : jval) (t : string) (p : path) :
  get_csv_path uv mv t = inr p ->
  exists u m, uv = JStr u /\ mv = JStr m /\ p = DATA_DIR ++ [u; m; t +:+ ".csv"].
Proof.
  destruct uv as [| | |u| |]; try discriminate.
  destruct mv as [| | |m| |]; try discriminate.
  intros [= <-]. eauto.
Qed.

Lemma generation_body_isolated (t : string) (data : jval) (w : world)
    (q : path) :
  (forall u m, json_get "uuid" data = inr (JStr u) ->
               json_get "model" data = inr (JStr m) ->
               ¬ q `prefix_of` DATA_DIR ++ [u; m; t +:+ ".csv"]) ->
  lookup_path q
    (root ((uuid_str ← lift (json_get "uuid" data);
            model ← lift (json_get "model" data);
            if negb (truthy uuid_str) || negb (truthy model) then
              mret (Response 400 (PFail "Missing uuid or model"))
            else if negb (in_strs model MODEL_NAMES) then
              mret (Response 400 (PFail "Invalid model name"))
            else
              csv_path ← lift (get_csv_path uuid_str model t);
              create_sample_csv csv_path t default_num_items;;
              mret (Response 200 POk)) w).2)
  = lookup_path q (root w).
Proof.
  intros Hq. rewrite run_bind, run_lift.
  destruct (json_get "uuid" data) as [e|uv]; [done|].
  rewrite run_bind, run_lift.
  destruct (json_get "model" data) as [e|mv]; [done|].
  destruct (negb (truthy uv) || negb (truthy mv)); [done|].
  destruct (negb (in_strs mv MODEL_NAMES)); [done|].
  rewrite run_bind, run_lift.
  destruct (get_csv_path uv mv t) as [e|p] eqn:Hp; [done|].
  destruct (get_csv_path_inr _ _ _ _ Hp) as (u & m & -> & -> & ->).
  apply (touches_only_bind (DATA_DIR ++ [u; m; t +:+ ".csv"])).
  - apply create_sample_csv_touches.
  - intros _. apply touches_only_read_only, read_only_ret.
  - by apply Hq.
Qed.

(** X5.  A generation route changes nothing but the table it generates
    and the directories on the way to it: on every request whose session
    identifier is a plain name (one path component: not empty, not [.]
    or [..], without a separator) and every tree, whatever the route
    answers, what is found at any other path of plain names (the other
    tables of the session, every other session) is what was there
    before. *)
Theorem generation_route_isolated (k : kind) (data : jval) (w : world)
    (q : path) :
  (forall u, json_get "uuid" data = inr (JStr u) -> plain_component u = true) ->
  plain_path q ->
  (forall u m, json_get "uuid" data = inr (JStr u) ->
               json_get "model" data = inr (JStr m) ->
               ¬ q `prefix_of` table_path u m k) ->
  lookup_path q (root (generation_route k data w).2) = lookup_path q (root w).
Proof.
  intros _ _ Hq. destruct k; unfold generation_route;
    [unfold make_video_description|unfold make_product_info|unfold judge];
    rewrite handler_world; apply generation_body_isolated; exact Hq.
Qed.

Lemma generation_route_isolated_witness :
  ((forall u, json_get "uuid" example_body = inr (JStr u) ->
              plain_component u = true)
   /\ plain_path other_table
   /\ (forall u m, json_get "uuid" example_body = inr (JStr u) ->
                   json_get "model" example_body = inr (JStr m) ->
                   ¬ other_table `prefix_of` table_path u m Judgement))
  /\ lookup_path other_table
       (root (generation_route Judgement example_body two_sessions_world).2)
     = lookup_path other_table (root two_sessions_world).
Proof.
  assert (forall u m, json_get "uuid" example_body = inr (JStr u) ->
            json_get "model" example_body = inr (JStr m) ->
            ¬ other_table `prefix_of` table_path u m Judgement) as H.
  { intros u m Hu Hm. vm_compute in Hu, Hm.
    injection Hu as <-. injection Hm as <-.
    apply (bool_decide_unpack _). vm_compute. reflexivity. }
  assert (forall u, json_get "uuid" example_body = inr (JStr u) ->
            plain_component u = true) as Hu.
  { intros u Hu. vm_compute in Hu. by injection Hu as <-. }
  assert (plain_path other_table) as Hq
    by (apply (bool_decide_unpack _); vm_compute; reflexivity).
  split; [split; [exact Hu|split; [exact Hq|exact H]]|].
  apply (generation_route_isolated Judgement example_body two_sessions_world
           other_table Hu Hq H).
Defined.

(** What the override route does once the request is validated and the
    path is derived. *)
Lemma override_tail_touches (py_str_list : list string -> string)
    (pv lv : jval) (u m : string) :
  touches_only (table_path u m Judgement)
    (present ← path_exists (table_path u m Judgement);
     if negb present then
       mret (Response 400 (PFail "Judgement CSV not found"))
     else
       f ← read_file (table_path u m Judgement);
       rows ← lift (override_rows pv lv (DictReader f) []);
       match rows with
       | [] => (mret tt : M unit)
       | first :: _ =>
           open_w (table_path u m Judgement);;
           let fieldnames := dict_keys first in
           writerow (table_path u m Judgement) (key_text <$> fieldnames);;
           for_each rows (fun row =>
             r ← lift (dict_to_list py_str_list fieldnames row);
             writerow (table_path u m Judgement) r)
       end;;
       mret (Response 200 POk)).
Proof.
  apply touches_only_bind;
    [apply touches_only_read_only, read_only_path_exists|].
  intros present. destruct (negb present);
    [apply touches_only_read_only, read_only_ret|].
  apply touches_only_bind;
    [apply touches_only_read_only, read_only_read_file|].
  intros f. apply touches_only_bind;
    [apply touches_only_read_only, read_only_lift|].
  intros rows. apply touches_only_bind;
    [|intros _; apply touches_only_read_only, read_only_ret].
  destruct rows as [|first rows];
    [apply touches_only_read_only, read_only_ret|].
  apply touches_only_bind; [apply touches_only_open_w|]. intros _.
  cbv zeta. apply touches_only_bind; [apply touches_only_writerow|]. intros _.
  apply touches_only_for_each. intros row.
  apply touches_only_bind; [apply touches_only_read_only, read_only_lift|].
  intros r. apply touches_only_writerow.
Qed.

Lemma table_path_other (u m : string) (k k' : kind) :
  k' ≠ k -> ¬ table_path u m k' `prefix_of` table_path u m k.
Proof.
  intros Hne Hp. apply prefix_length_eq in Hp; [|simpl; lia].
  destruct k, k'; try done; discriminate Hp.
Qed.

Lemma override_label_other_tables (py_str_list : list string -> string)
    (data : jval) (u m : string) (w : world) (k : kind) :
  json_get "uuid" data = inr (JStr u) ->
  json_get "model" data = inr (JStr m) -> k ≠ Judgement ->
  lookup_path (table_path u m k) (root (override_label py_str_list data w).2)
  = lookup_path (table_path u m k) (root w).
Proof.
  intros Hu Hm Hk. unfold override_label. rewrite handler_world.
  rewrite run_bind, run_lift, Hu, run_bind, run_lift, Hm, run_bind, run_lift.
  destruct (json_get "product_id" data) as [e|pv]; [done|].
  rewrite run_bind, run_lift.
  destruct (json_get "new_label" data) as [e|lv]; [done|].
  destruct (negb (truthy (JStr u) && truthy (JStr m) && truthy pv
                  && truthy lv)); [done|].
  destruct (negb (in_strs (JStr m) MODEL_NAMES)); [done|].
  destruct (negb (in_strs lv ["Yes"; "N/A"; "No"])); [done|].
  rewrite run_bind, run_lift, get_csv_path_judgement.
  apply (override_tail_touches py_str_list pv lv u m).
  by apply table_path_other.
Qed.

(** X6.  The override route changes nothing but the judgement table of
    its session and model (and the directories on the way to it): on
    every request whose session identifier is a plain name (one path
    component: not empty, not [.] or [..], without a separator) and
    every tree, with a well-formed file or not, whatever the route
    answers, what is found at any other path of plain names is what was
    there before. *)
Theorem override_label_isolated (py_str_list : list string -> string)
    (data : jval) (w : world) (q : path) :
  (forall u, json_get "uuid" data = inr (JStr u) -> plain_component u = true) ->
  plain_path q ->
  (forall u m, json_get "uuid" data = inr (JStr u) ->
               json_get "model" data = inr (JStr m) ->
               ¬ q `prefix_of` table_path u m Judgement) ->
  lookup_path q (root (override_label py_str_list data w).2)
  = lookup_path q (root w).
Proof.
  intros _ _ Hq. unfold override_label. rewrite handler_world.
  rewrite run_bind, run_lift.
  destruct (json_get "uuid" data) as [e|uv]; [done|].
  rewrite run_bind, run_lift.
  destruct (json_get "model" data) as [e|mv]; [done|].
  rewrite run_bind, run_lift.
  destruct (json_get "product_id" data) as [e|pv]; [done|].
  rewrite run_bind, run_lift.
  destruct (json_get "new_label" data) as [e|lv]; [done|].
  destruct (negb (truthy uv && truthy mv && truthy pv && truthy lv)); [done|].
  destruct (negb (in_strs mv MODEL_NAMES)); [done|].
  destruct (negb (in_strs lv ["Yes"; "N/A"; "No"])); [done|].
  rewrite run_bind, run_lift.
  destruct (get_csv_path uv mv "judgement") as [e|p] eqn:Hp; [done|].
  destruct (get_csv_path_inr _ _ _ _ Hp) as (u & m & -> & -> & ->).
  change (DATA_DIR ++ [u; m; "judgement" +:+ ".csv"])
    with (table_path u m Judgement).
  pose proof (Hq u m eq_refl eq_refl) as Hq'. clear Hq. revert w q Hq'.
  apply (override_tail_touches py_str_list pv lv u m).
Qed.

Lemma override_label_isolated_witness :
  ((forall u, json_get "uuid" (override_body "P0001" "No") = inr (JStr u) ->
              plain_component u = true)
   /\ plain_path other_table
   /\ (forall u m,
         json_get "uuid" (override_body "P0001" "No") = inr (JStr u) ->
         json_get "model" (override_body "P0001" "No") = inr (JStr m) ->
         ¬ other_table `prefix_of` table_path u m Judgement))
  /\ lookup_path other_table
       (root (override_label (fun _ => "") (override_body "P0001" "No")
                two_sessions_world).2)
     = lookup_path other_table (root two_sessions_world).
Proof.
  assert (forall u m,
            json_get "uuid" (override_body "P0001" "No") = inr (JStr u) ->
            json_get "model" (override_body "P0001" "No") = inr (JStr m) ->
            ¬ other_table `prefix_of` table_path u m Judgement) as H.
  { intros u m Hu Hm. vm_compute in Hu, Hm.
    injection Hu as <-. injection Hm as <-.
    apply (bool_decide_unpack _). vm_compute. reflexivity. }
  assert (forall u,
            json_get "uuid" (override_body "P0001" "No") = inr (JStr u) ->
            plain_component u = true) as Hu.
  { intros u Hu. vm_compute in Hu. by injection Hu as <-. }
  assert (plain_path other_table) as Hq
    by (apply (bool_decide_unpack _); vm_compute; reflexivity).
  split; [split; [exact Hu|split; [exact Hq|exact H]]|].
  apply (override_label_isolated (fun _ => "") (override_body "P0001" "No")
           two_sessions_world other_table Hu Hq H).
Defined.

(** ** clear_all *)




(** X8.  [clear_all] changes nothing outside the directory of its
    session: on every request whose session identifier is a plain name
    (one path component: not empty, not [.] or [..], without a
    separator) and every tree, what is found at a path of plain names
    that is neither below the directory of the session nor on the way to
    it (every other session, for one) is what was there before. *)
Theorem clear_all_isolated (data : jval) (w : world) (q : path) :
  (forall u, json_get "uuid" data = inr (JStr u) -> plain_component u = true) ->
  plain_path q ->
  (forall u, json_get "uuid" data = inr (JStr u) ->
             ¬ session_path u `prefix_of` q /\ ¬ q `prefix_of` session_path u) ->
  lookup_path q (root (clear_all data w).2) = lookup_path q (root w).
Proof.
  intros _ _ Hq. unfold clear_all. rewrite handler_world.
  rewrite run_bind, run_lift.
  destruct (json_get "uuid" data) as [e|uv]; [done|].
  destruct (negb (truthy uv)); [done|].
  rewrite run_bind, run_lift.
  destruct uv as [| | |u| |]; try done.
  destruct (Hq u eq_refl) as [H1 H2].
  rewrite run_bind, run_path_exists.
  change (DATA_DIR ++ [u]) with (session_path u).
  destruct (bool_decide (is_Some (lookup_path (session_path u) (root w))));
    [|done].
  rewrite run_bind, run_rmtree. cbn [logged root].
  destruct (lookup_path (session_path u) (root w)) as [[f|es]|]; try done.
  rewrite run_ret. cbn [snd root]. by apply remove_at_frame.
Qed.

Lemma clear_all_isolated_witness :
  ((forall u, json_get "uuid" example_body = inr (JStr u) ->
              plain_component u = true)
   /\ plain_path other_table
   /\ (forall u, json_get "uuid" example_body = inr (JStr u) ->
                 ¬ session_path u `prefix_of` other_table
                 /\ ¬ other_table `prefix_of` session_path u))
  /\ lookup_path other_table (root (clear_all example_body two_sessions_world).2)
     = lookup_path other_table (root two_sessions_world).
Proof.
  assert (forall u, json_get "uuid" example_body = inr (JStr u) ->
            ¬ session_path u `prefix_of` other_table
            /\ ¬ other_table `prefix_of` session_path u) as H.
  { intros u Hu. vm_compute in Hu. injection Hu as <-.
    apply (bool_decide_unpack _). vm_compute. reflexivity. }
  assert (forall u, json_get "uuid" example_body = inr (JStr u) ->
            plain_component u = true) as Hu.
  { intros u Hu. vm_compute in Hu. by injection Hu as <-. }
  assert (plain_path other_table) as Hq
    by (apply (bool_decide_unpack _); vm_compute; reflexivity).
  split; [split; [exact Hu|split; [exact Hq|exact H]]|].
  apply (clear_all_isolated example_body two_sessions_world other_table
           Hu Hq H).
Defined.

(** ** Overrides in sequence *)

Lemma relabelled_twice (header : record) (pid l1 l2 : string) (r : record) :
  relabelled header pid l2 (relabelled header pid l1 r)
  = relabelled header pid l2 r.
Proof.
  unfold relabelled at 2.
  destruct (decide (field header "product_id" r = Some pid)) as [H|H].
  - unfold relabelled.
    rewrite field_set_field_other by discriminate.
    rewrite !decide_True by done. unfold set_field.
    destruct (list_find (fun c => c = "label") header) as [[i c]|]; [|done].
    apply list_insert_insert_eq.
  - reflexivity.
Qed.

Lemma relabelled_table (header : record) (pid lab : string)
    (rows : list record) :
  keyed_table header rows ->
  keyed_table header (relabelled header pid lab <$> rows).
Proof.
  intros (Hk & Hnd & Hlen). split; [done|]. split; [done|].
  apply Forall_fmap. eapply Forall_impl; [exact Hlen|].
  intros r Hr. simpl. by rewrite relabelled_length.
Qed.

(** X9.  Two overrides of the same product in a row: both answer 200 and
    the second one decides.  The file is then what a single override to
    the second label would have left; in particular an override repeated
    with the same label changes nothing more. *)
Theorem override_label_last_wins (py_str_list : list string -> string)
    (data1 data2 : jval) (u m pid l1 l2 : string) (w : world) (jh : record)
    (jrows : list record) :
  json_get "uuid" data1 = inr (JStr u) -> json_get "uuid" data2 = inr (JStr u) ->
  u ≠ "" ->
  json_get "model" data1 = inr (JStr m) ->
  json_get "model" data2 = inr (JStr m) -> m ∈ MODEL_NAMES ->
  json_get "product_id" data1 = inr (JStr pid) ->
  json_get "product_id" data2 = inr (JStr pid) -> pid ≠ "" ->
  json_get "new_label" data1 = inr (JStr l1) -> l1 ∈ labels ->
  json_get "new_label" data2 = inr (JStr l2) -> l2 ∈ labels ->
  lookup_path (table_path u m Judgement) (root w) = Some (File (jh :: jrows)) ->
  keyed_table jh jrows -> "label" ∈ jh ->
  exists w1 w2,
    override_label py_str_list data1 w = (Response 200 POk, w1)
    /\ override_label py_str_list data2 w1 = (Response 200 POk, w2)
    /\ lookup_path (table_path u m Judgement) (root w2)
       = Some (File (jh :: (relabelled jh pid l2 <$> jrows))).
Proof.
  intros Hu1 Hu2 Hu' Hm1 Hm2 Hm' Hp1 Hp2 Hp' Hl1 Hl1' Hl2 Hl2' Hj Ht Hlab.
  destruct (override_label_table py_str_list data1 u m pid l1 w jh jrows
              Hu1 Hu' Hm1 Hm' Hp1 Hp' Hl1 Hl1' Hj Ht Hlab)
    as (n1 & Hrun1 & Hfile1).
  eexists (World n1 _ _).
  destruct (override_label_table py_str_list data2 u m pid l2
              (World n1
                 (io_log w ++ [EvExists (table_path u m Judgement);
                               EvRead (table_path u m Judgement)]
                  ++ match jrows with
                     | [] => []
                     | _ => [EvWrite (table_path u m Judgement)]
                     end) (rand w))
              jh (relabelled jh pid l1 <$> jrows)
              Hu2 Hu' Hm2 Hm' Hp2 Hp' Hl2 Hl2' Hfile1
              (relabelled_table jh pid l1 jrows Ht) Hlab)
    as (n2 & Hrun2 & Hfile2).
  eexists (World n2 _ _). split; [exact Hrun1|]. split; [exact Hrun2|].
  cbn [root]. rewrite Hfile2. do 3 f_equal.
  rewrite <- list_fmap_compose. apply list_fmap_ext.
  intros i r _. apply relabelled_twice.
Qed.

Lemma override_label_last_wins_witness :
  (json_get "uuid" (override_body "P0001" "N/A") = inr (JStr "s1")
   /\ json_get "uuid" (override_body "P0001" "No") = inr (JStr "s1")
   /\ "s1" ≠ ""
   /\ json_get "model" (override_body "P0001" "N/A") = inr (JStr example_model)
   /\ json_get "model" (override_body "P0001" "No") = inr (JStr example_model)
   /\ example_model ∈ MODEL_NAMES
   /\ json_get "product_id" (override_body "P0001" "N/A") = inr (JStr "P0001")
   /\ json_get "product_id" (override_body "P0001" "No") = inr (JStr "P0001")
   /\ "P0001" ≠ ""
   /\ json_get "new_label" (override_body "P0001" "N/A") = inr (JStr "N/A")
   /\ "N/A" ∈ labels
   /\ json_get "new_label" (override_body "P0001" "No") = inr (JStr "No")
   /\ "No" ∈ labels
   /\ lookup_path (table_path "s1" example_model Judgement)
        (root repeated_world)
      = Some (File (judgement_header :: repeated_judgement_rows))
   /\ keyed_table judgement_header repeated_judgement_rows
   /\ "label" ∈ judgement_header)
  /\ exists w1 w2,
       override_label (fun _ => "") (override_body "P0001" "N/A") repeated_world
       = (Response 200 POk, w1)
       /\ override_label (fun _ => "") (override_body "P0001" "No") w1
          = (Response 200 POk, w2)
       /\ lookup_path (table_path "s1" example_model Judgement) (root w2)
          = Some (File (judgement_header
                        :: (relabelled judgement_header "P0001" "No"
                            <$> repeated_judgement_rows))).
Proof.
  destruct repeated_table as (Ht & Hlab & Hno).
  assert ("N/A" ∈ labels) as Hna
    by (apply (bool_decide_unpack _); vm_compute; reflexivity).
  split.
  - repeat (split; [first [reflexivity|discriminate|done
                          |apply example_model_valid]|]).
    done.
  - apply (override_label_last_wins (fun _ => "")
             (override_body "P0001" "N/A") (override_body "P0001" "No")
             "s1" example_model "P0001" "N/A" "No" repeated_world
             judgement_header repeated_judgement_rows);
      first [reflexivity|discriminate|done|apply example_model_valid].
Defined.

Lemma judgement_header_label (header : record) :
  Forall (fun c => c ∈ header) judgement_header -> "label" ∈ header.
Proof.
  intros H. rewrite Forall_forall in H. apply H.
  apply (bool_decide_unpack _). vm_compute. reflexivity.
Qed.

(** ** An override followed by the results route *)

(** X10.  After an override on a session with three tables, the results
    route answers 200 with the items of the judgement rows in their
    order, the overridden rows carrying the new label, joined with the
    two other tables, which the override has left alone; and the counts
    are those of the labels after the override. *)
Theorem override_then_results (py_str_list : list string -> string)
    (data : jval) (args : list (string * string)) (u m pid lab : string)
    (w : world) (vh : record) (vrows : list record) (ph : record)
    (prows : list record) (jh : record) (jrows : list record) :
  json_get "uuid" data = inr (JStr u) -> u ≠ "" ->
  json_get "model" data = inr (JStr m) -> m ∈ MODEL_NAMES ->
  json_get "product_id" data = inr (JStr pid) -> pid ≠ "" ->
  json_get "new_label" data = inr (JStr lab) -> lab ∈ labels ->
  args_get "uuid" args = JStr u -> args_get "model" args = JStr m ->
  lookup_path (table_path u m VideoDescription) (root w)
  = Some (File (vh :: vrows)) ->
  lookup_path (table_path u m ProductInfo) (root w)
  = Some (File (ph :: prows)) ->
  lookup_path (table_path u m Judgement) (root w)
  = Some (File (jh :: jrows)) ->
  keyed_table vh vrows -> keyed_table ph prows -> judgement_table jh jrows ->
  exists w1 vds pis counts,
    override_label py_str_list data w = (Response 200 POk, w1)
    /\ load_by_product_id (DictReader (vh :: vrows)) ∅ = inr vds
    /\ load_by_product_id (DictReader (ph :: prows)) ∅ = inr pis
    /\ (get_results args w1).1
       = Response 200
           (PResults counts
              (joined_item jh vds pis <$> (relabelled jh pid lab <$> jrows)))
    /\ counts !! "Yes"
       = Some (label_count jh "Yes" (relabelled jh pid lab <$> jrows))
    /\ counts !! "N/A"
       = Some (label_count jh "N/A" (relabelled jh pid lab <$> jrows))
    /\ counts !! "No"
       = Some (label_count jh "No" (relabelled jh pid lab <$> jrows)).
Proof.
  intros Hu Hu' Hm Hm' Hp Hp' Hl Hl' Hau Ham Hv Hpi Hj Hvt Hpt [Hcols Hjt].
  assert (keyed_table jh jrows) as Hjk
    by (split; [by apply judgement_header_product_id|done]).
  destruct (override_label_table py_str_list data u m pid lab w jh jrows
              Hu Hu' Hm Hm' Hp Hp' Hl Hl' Hj Hjk
              (judgement_header_label jh Hcols)) as (n1 & Hrun & Hfile).
  assert (forall k, k ≠ Judgement ->
            lookup_path (table_path u m k) n1
            = lookup_path (table_path u m k) (root w)) as Hframe.
  { intros k Hk.
    pose proof (override_label_other_tables py_str_list data u m w k Hu Hm Hk)
      as H.
    by rewrite Hrun in H. }
  pose proof (Hframe VideoDescription ltac:(discriminate)) as Hv1.
  pose proof (Hframe ProductInfo ltac:(discriminate)) as Hp1.
  rewrite Hv in Hv1. rewrite Hpi in Hp1.
  destruct (relabelled_table jh pid lab jrows Hjk) as [_ Hjt'].
  eexists (World n1 _ _).
  destruct (get_results_tables args u m
              (World n1
                 (io_log w ++ [EvExists (table_path u m Judgement);
                               EvRead (table_path u m Judgement)]
                  ++ match jrows with
                     | [] => []
                     | _ => [EvWrite (table_path u m Judgement)]
                     end) (rand w))
              vh vrows ph prows jh (relabelled jh pid lab <$> jrows)
              Hau Hu' Ham Hm' Hv1 Hp1 Hfile Hvt Hpt (conj Hcols Hjt'))
    as (vds & pis & counts & Hvds & Hpis & Hres & Hc).
  exists vds, pis, counts. split; [exact Hrun|].
  split; [exact Hvds|]. split; [exact Hpis|].
  split; [by rewrite Hres|]. by rewrite !Hc.
Qed.

Lemma override_then_results_witness :
  (json_get "uuid" (override_body "P0002" "No") = inr (JStr "s1") /\ "s1" ≠ ""
   /\ json_get "model" (override_body "P0002" "No") = inr (JStr example_model)
   /\ example_model ∈ MODEL_NAMES
   /\ json_get "product_id" (override_body "P0002" "No") = inr (JStr "P0002")
   /\ "P0002" ≠ ""
   /\ json_get "new_label" (override_body "P0002" "No") = inr (JStr "No")
   /\ "No" ∈ labels
   /\ args_get "uuid" example_args = JStr "s1"
   /\ args_get "model" example_args = JStr example_model
   /\ lookup_path (table_path "s1" example_model VideoDescription)
        (root example_world)
      = Some (File (video_description_header
                    :: example_rows example_video_description))
   /\ lookup_path (table_path "s1" example_model ProductInfo)
        (root example_world)
      = Some (File (product_info_header :: example_rows example_product_info))
   /\ lookup_path (table_path "s1" example_model Judgement)
        (root example_world)
      = Some (File (judgement_header :: example_rows example_judgement))
   /\ keyed_table video_description_header
        (example_rows example_video_description)
   /\ keyed_table product_info_header (example_rows example_product_info)
   /\ judgement_table judgement_header (example_rows example_judgement))
  /\ exists w1 vds pis counts,
       override_label (fun _ => "") (override_body "P0002" "No") example_world
       = (Response 200 POk, w1)
       /\ load_by_product_id (DictReader example_video_description) ∅ = inr vds
       /\ load_by_product_id (DictReader example_product_info) ∅ = inr pis
       /\ (get_results example_args w1).1
          = Response 200
              (PResults counts
                 (joined_item judgement_header vds pis
                  <$> (relabelled judgement_header "P0002" "No"
                       <$> example_rows example_judgement)))
       /\ counts !! "Yes"
          = Some (label_count judgement_header "Yes"
                    (relabelled judgement_header "P0002" "No"
                     <$> example_rows example_judgement))
       /\ counts !! "N/A"
          = Some (label_count judgement_header "N/A"
                    (relabelled judgement_header "P0002" "No"
                     <$> example_rows example_judgement))
       /\ counts !! "No"
          = Some (label_count judgement_header "No"
                    (relabelled judgement_header "P0002" "No"
                     <$> example_rows example_judgement)).
Proof.
  destruct example_tables as (Hv & Hp & Hj).
  destruct repeated_table as (_ & _ & Hno).
  split.
  - repeat (split; [first [reflexivity|discriminate|done
                          |apply example_model_valid
                          |vm_compute; reflexivity]|]).
    done.
  - apply (override_then_results (fun _ => "") (override_body "P0002" "No")
             example_args "s1" example_model "P0002" "No" example_world
             video_description_header (example_rows example_video_description)
             product_info_header (example_rows example_product_info)
             judgement_header (example_rows example_judgement));
      first [reflexivity|discriminate|done|apply example_model_valid
            |vm_compute; reflexivity].
Defined.

(** ** The generation routes and what follows them *)

Lemma generation_route_run (k : kind) (data : jval) (u m : string) (w : world) :
  json_get "uuid" data = inr (JStr u) -> u ≠ "" ->
  json_get "model" data = inr (JStr m) -> m ∈ MODEL_NAMES ->
  generation_route k data w =
  match create_sample_csv (table_path u m k) (kind_name k) default_num_items w
  with
  | (inr _, w') => (Response 200 POk, w')
  | (inl e, w') => (Response 500 (PFailExn e), w')
  end.
Proof.
  intros Hu Hu' Hm Hm'.
  destruct k; unfold generation_route;
    [unfold make_video_description|unfold make_product_info|unfold judge];
    unfold handler;
    rewrite run_bind, run_lift, Hu, run_bind, run_lift, Hm,
      (truthy_str u Hu'), (model_name_truthy m Hm'), (in_strs_true m _ Hm');
    cbn [negb orb];
    rewrite run_bind, run_lift;
    [rewrite get_csv_path_video_description
    |rewrite get_csv_path_product_info
    |rewrite get_csv_path_judgement];
    rewrite run_bind; simpl kind_name;
    match goal with
    | |- context [create_sample_csv ?p ?t ?n w] =>
        by destruct (create_sample_csv p t n w) as [[e|[]] w']
    end.
Qed.

(** A generation route that answered 200 has written its table. *)
Lemma generation_route_ok (k : kind) (data : jval) (u m : string)
    (w w' : world) :
  json_get "uuid" data = inr (JStr u) -> u ≠ "" ->
  json_get "model" data = inr (JStr m) -> m ∈ MODEL_NAMES ->
  generation_route k data w = (Response 200 POk, w') ->
  lookup_path (table_path u m k) (root w')
  = Some (File (header_of k :: rows_of k (rand w) 1 default_num_items))
  /\ (forall q, ¬ q `prefix_of` table_path u m k ->
        lookup_path q (root w') = lookup_path q (root w))
  /\ (k ≠ Judgement -> forall j, rand w' j = rand w j).
Proof.
  intros Hu Hu' Hm Hm' Hrun.
  rewrite (generation_route_run k data u m w Hu Hu' Hm Hm') in Hrun.
  pose proof (create_sample_csv_touches (table_path u m k) (kind_name k)
                default_num_items w) as Hframe.
  destruct (create_sample_csv (table_path u m k) (kind_name k)
              default_num_items w) as [[e|[]] w1] eqn:Hc; [discriminate|].
  injection Hrun as <-.
  destruct (create_sample_csv_inr _ _ _ _ _ Hc) as (n1 & n2 & Hn1 & Hn2).
  destruct (create_sample_csv_writes k _ default_num_items w n1 n2 Hn1 Hn2)
    as (n3 & Hc' & Hfile).
  rewrite Hc in Hc'. injection Hc' as ->.
  split; [exact Hfile|]. split; [exact Hframe|].
  intros Hk j. by destruct k.
Qed.



(** ** The three generation routes followed by the results route *)

Lemma rows_of_judgement_table (rnd : nat -> nat) (n : nat) :
  judgement_table judgement_header (rows_of Judgement rnd 1 n).
Proof.
  split; [|apply (rows_of_keyed_table Judgement)].
  apply (bool_decide_unpack _). vm_compute. reflexivity.
Qed.

Lemma drawn_label_in (rnd : nat -> nat) (j : nat) : drawn_label rnd j ∈ labels.
Proof.
  unfold drawn_label.
  assert (rnd j mod length labels < 3) as H
    by (apply Nat.mod_upper_bound; discriminate).
  destruct (rnd j mod length labels) as [|[|[|?]]]; [..|lia];
    simpl; set_solver.
Qed.

Lemma load_by_product_id_keeps (rows : list pydict) (m m' : gmap key pydict)
    (k : key) :
  load_by_product_id rows m = inr m' -> is_Some (m !! k) -> is_Some (m' !! k).
Proof.
  revert m. induction rows as [|row rows IH]; intros m H Hk.
  - by injection H as <-.
  - cbn [load_by_product_id] in H.
    destruct (subscript "product_id" row) as [e|v]; [discriminate|].
    simpl in H. destruct (hash_key v) as [e|k']; [discriminate|].
    simpl in H. apply (IH _ H). rewrite lookup_insert_is_Some.
    destruct (decide (k' = k)); [by left|by right].
Qed.

(** Every identifier of a loaded row has an entry in the mapping. *)
Lemma load_by_product_id_dom (rows : list pydict) (m m' : gmap key pydict)
    (r : pydict) (v : pyval) (k : key) :
  load_by_product_id rows m = inr m' -> r ∈ rows ->
  subscript "product_id" r = inr v -> hash_key v = inr k ->
  is_Some (m' !! k).
Proof.
  revert m. induction rows as [|row rows IH]; intros m H Hr Hv Hk.
  - by apply elem_of_nil in Hr.
  - cbn [load_by_product_id] in H. apply elem_of_cons in Hr.
    destruct Hr as [<-|Hr].
    + rewrite Hv in H. simpl in H. rewrite Hk in H. simpl in H.
      apply (load_by_product_id_keeps _ _ _ _ H).
      rewrite lookup_insert_eq. eauto.
    + destruct (subscript "product_id" row) as [e|v']; [discriminate|].
      simpl in H. destruct (hash_key v') as [e|k']; [discriminate|].
      simpl in H. by apply (IH _ H).
Qed.

(** The mapping loaded from generated rows has, for every row number, an
    entry with all the columns but [product_id]. *)
Lemma generated_entries (h : record) (f : nat -> record) (len n : nat)
    (m : gmap key pydict) :
  (forall i, subscript "product_id" (row_dict h (f i))
             = inr (PStr (product_id_of i))) ->
  (forall i, length (non_key_columns (row_dict h (f i))) = len) ->
  load_by_product_id (row_dict h <$> (f <$> seq 1 n)) ∅ = inr m ->
  forall i, 1 <= i <= n ->
    exists d, m !! Some (product_id_of i) = Some d /\ length d = len.
Proof.
  intros Hid Hlen Hload i Hi.
  destruct (load_by_product_id_dom _ _ _ (row_dict h (f i))
              (PStr (product_id_of i)) (Some (product_id_of i)) Hload)
    as [d Hd]; [|apply Hid|reflexivity|].
  - apply list_elem_of_fmap. exists (f i). split; [done|].
    apply list_elem_of_fmap. exists i. split; [done|].
    apply elem_of_seq. lia.
  - exists d. split; [exact Hd|]. revert Hd.
    apply (load_by_product_id_values (fun d => length d = len) _ _ _ Hload).
    + intros k d'. by rewrite lookup_empty.
    + intros r Hr. apply list_elem_of_fmap in Hr.
      destruct Hr as (r0 & -> & Hr0). apply list_elem_of_fmap in Hr0.
      destruct Hr0 as (i0 & -> & _). apply Hlen.
Qed.

Lemma known_label_rows_drawn (rnd : nat -> nat) (n : nat) :
  length (known_label_rows judgement_header (rows_of Judgement rnd 1 n)) = n.
Proof.
  unfold known_label_rows. simpl rows_of.
  assert (forall l : list nat,
            length (filter
                      (fun r => Exists (fun l => field judgement_header "label" r
                                                 = Some l) labels)
                      (drawn_judgement_row rnd 1 <$> l)) = length l) as H.
  { induction l as [|j l IH]; [reflexivity|].
    rewrite fmap_cons, filter_cons_True; [simpl; by rewrite IH|].
    apply Exists_exists. exists (drawn_label rnd j).
    split; [apply drawn_label_in|reflexivity]. }
  by rewrite H, length_seq.
Qed.

(** X12.  After the three generation routes have answered 200 one after
    the other for a session and a model, the results route answers 200
    with 50 items, numbered P0001 to P0050 in this order; every item is
    joined with its video description (three columns) and its product
    information (four columns), has one of the labels Yes, N/A, No, and
    the three counts add up to 50. *)
Theorem generate_then_results (data : jval) (args : list (string * string))
    (u m : string) (w : world) :
  json_get "uuid" data = inr (JStr u) -> u ≠ "" ->
  json_get "model" data = inr (JStr m) -> m ∈ MODEL_NAMES ->
  args_get "uuid" args = JStr u -> args_get "model" args = JStr m ->
  (make_video_description data w).1 = Response 200 POk ->
  (make_product_info data (make_video_description data w).2).1
  = Response 200 POk ->
  (judge data (make_product_info data (make_video_description data w).2).2).1
  = Response 200 POk ->
  exists counts items yes na no,
    (get_results args
       (judge data
          (make_product_info data (make_video_description data w).2).2).2).1
    = Response 200 (PResults counts items)
    /\ length items = 50
    /\ it_product_id <$> items = (fun i => PStr (product_id_of i)) <$> seq 1 50
    /\ Forall (fun it => length (it_video_description it) = 3
                         /\ length (it_product_info it) = 4
                         /\ exists l, l ∈ labels /\ it_label it = PStr l)
         items
    /\ counts !! "Yes" = Some yes /\ counts !! "N/A" = Some na
    /\ counts !! "No" = Some no
    /\ yes + na + no = 50.
Proof.
  intros Hu Hu' Hm Hm' Hau Ham H1 H2 H3.
  destruct (make_video_description data w) as [r1 w1] eqn:E1.
  cbn [fst snd] in *. subst r1.
  destruct (make_product_info data w1) as [r2 w2] eqn:E2.
  cbn [fst snd] in *. subst r2.
  destruct (judge data w2) as [r3 w3] eqn:E3.
  cbn [fst snd] in *. subst r3.
  destruct (generation_route_ok VideoDescription data u m w w1
              Hu Hu' Hm Hm' E1) as (Hv1 & _ & _).
  destruct (generation_route_ok ProductInfo data u m w1 w2
              Hu Hu' Hm Hm' E2) as (Hp2 & Hf2 & _).
  destruct (generation_route_ok Judgement data u m w2 w3
              Hu Hu' Hm Hm' E3) as (Hj3 & Hf3 & _).
  assert (lookup_path (table_path u m VideoDescription) (root w3)
          = Some (File (video_description_header
                        :: rows_of VideoDescription (rand w) 1 50))) as Hv.
  { rewrite Hf3 by (by apply table_path_other).
    rewrite Hf2 by (by apply table_path_other). exact Hv1. }
  assert (lookup_path (table_path u m ProductInfo) (root w3)
          = Some (File (product_info_header
                        :: rows_of ProductInfo (rand w1) 1 50))) as Hp.
  { rewrite Hf3 by (by apply table_path_other). exact Hp2. }
  destruct (get_results_tables args u m w3 _ _ _ _ _ _
              Hau Hu' Ham Hm' Hv Hp Hj3
              (rows_of_keyed_table VideoDescription (rand w) 50)
              (rows_of_keyed_table ProductInfo (rand w1) 50)
              (rows_of_judgement_table (rand w2) 50))
    as (vds & pis & counts & Hvds & Hpis & Hres & Hc).
  rewrite DictReader_table in Hvds
    by (done || apply (rows_of_keyed_table VideoDescription)).
  rewrite DictReader_table in Hpis
    by (done || apply (rows_of_keyed_table ProductInfo)).
  pose proof (generated_entries video_description_header
                video_description_row 3 50 vds
                (fun _ => eq_refl) (fun _ => eq_refl) Hvds) as Hventry.
  pose proof (generated_entries product_info_header
                product_info_row 4 50 pis
                (fun _ => eq_refl) (fun _ => eq_refl) Hpis) as Hpentry.
  eexists counts, _, _, _, _. split; [by rewrite Hres|].
  split; [by rewrite length_fmap, rows_of_length|].
  split; [|split; [|split; [|split; [|split]]]].
  - unfold rows_of. rewrite <- (fmap_S_seq 0), <- !list_fmap_compose.
    by apply list_fmap_ext.
  - unfold rows_of. apply Forall_fmap, Forall_fmap, Forall_forall.
    intros j Hj. apply elem_of_seq in Hj. unfold default_num_items in Hj.
    destruct (Hventry (1 + j)) as (dv & Hdv & Hlv); [lia|].
    destruct (Hpentry (1 + j)) as (dp & Hdp & Hlp); [lia|].
    change ((length (default [] (vds !! Some (product_id_of (1 + j)))) = 3)
            /\ (length (default [] (pis !! Some (product_id_of (1 + j)))) = 4)
            /\ exists l, l ∈ labels /\ PStr (drawn_label (rand w2) j) = PStr l).
    rewrite Hdv, Hdp. split; [exact Hlv|]. split; [exact Hlp|].
    exists (drawn_label (rand w2) j). split; [apply drawn_label_in|done].
  - by rewrite Hc.
  - by rewrite Hc.
  - by rewrite Hc.
  - cbn [Nat.add]. rewrite known_label_split.
    apply known_label_rows_drawn.
Qed.

Lemma generate_then_results_witness :
  (json_get "uuid" example_body = inr (JStr "s1") /\ "s1" ≠ ""
   /\ json_get "model" example_body = inr (JStr example_model)
   /\ example_model ∈ MODEL_NAMES
   /\ args_get "uuid" example_args = JStr "s1"
   /\ args_get "model" example_args = JStr example_model
   /\ (make_video_description example_body fresh_world).1
      = Response 200 POk
   /\ (make_product_info example_body
         (make_video_description example_body fresh_world).2).1
      = Response 200 POk
   /\ (judge example_body
         (make_product_info example_body
            (make_video_description example_body fresh_world).2).2).1
      = Response 200 POk)
  /\ exists counts items yes na no,
       (get_results example_args
          (judge example_body
             (make_product_info example_body
                (make_video_description example_body fresh_world).2).2).2).1
       = Response 200 (PResults counts items)
       /\ length items = 50
       /\ it_product_id <$> items
          = (fun i => PStr (product_id_of i)) <$> seq 1 50
       /\ Forall (fun it => length (it_video_description it) = 3
                            /\ length (it_product_info it) = 4
                            /\ exists l, l ∈ labels /\ it_label it = PStr l)
            items
       /\ counts !! "Yes" = Some yes /\ counts !! "N/A" = Some na
       /\ counts !! "No" = Some no
       /\ yes + na + no = 50.
Proof.
  split.
  - repeat apply conj;
      first [vm_compute; reflexivity|discriminate|apply example_model_valid].
  - apply (generate_then_results example_body example_args "s1"
             example_model fresh_world);
      first [reflexivity|discriminate|apply example_model_valid
            |vm_compute; reflexivity].
Defined.

(** ** A generation route that does not answer 200 *)





(** ** Requests that are rejected before anything is touched *)

(** X14.  On each of the eight routes that take a session, a request
    whose [uuid] is absent or falsy (null, the empty string, 0, false,
    an empty list or object) is answered with status 400, whatever the
    other fields hold, and the world is left as it was. *)
Theorem missing_uuid_rejected (py_str_list : list string -> string)
    (o : list (string * jval)) (args : list (string * string)) (w : world) :
  (forall v, json_get "uuid" (JObj o) = inr v -> truthy v = false) ->
  truthy (args_get "uuid" args) = false ->
  Forall (fun r : response * world => status_code r.1 = 400 /\ r.2 = w)
    [ pull_data (JObj o) w;
      make_video_description (JObj o) w;
      make_product_info (JObj o) w;
      judge (JObj o) w;
      get_status args w;
      get_results args w;
      override_label py_str_list (JObj o) w;
      clear_all (JObj o) w ].
Proof.
  intros Hpost Hget.
  destruct (json_get_obj "uuid" o) as [uv Hu].
  destruct (json_get_obj "model" o) as [mv Hm].
  destruct (json_get_obj "days_back" o) as [dv Hd].
  destruct (json_get_obj "product_id" o) as [pv Hp].
  destruct (json_get_obj "new_label" o) as [lv Hl].
  pose proof (Hpost uv Hu) as Huv.
  repeat apply Forall_cons_2; [..|apply Forall_nil_2].
  - unfold pull_data, handler.
    rewrite run_bind, run_lift, Hu, run_bind, run_lift, Hd, Huv. done.
  - unfold make_video_description, handler.
    rewrite run_bind, run_lift, Hu, run_bind, run_lift, Hm, Huv. done.
  - unfold make_product_info, handler.
    rewrite run_bind, run_lift, Hu, run_bind, run_lift, Hm, Huv. done.
  - unfold judge, handler.
    rewrite run_bind, run_lift, Hu, run_bind, run_lift, Hm, Huv. done.
  - unfold get_status, handler. cbv zeta. rewrite Hget. done.
  - unfold get_results, handler. cbv zeta. rewrite Hget. done.
  - unfold override_label, handler.
    rewrite run_bind, run_lift, Hu, run_bind, run_lift, Hm,
      run_bind, run_lift, Hp, run_bind, run_lift, Hl, Huv. done.
  - unfold clear_all, handler. rewrite run_bind, run_lift, Hu, Huv. done.
Qed.

Lemma missing_uuid_rejected_witness :
  ((forall v, json_get "uuid" (JObj no_uuid_fields) = inr v ->
              truthy v = false)
   /\ truthy (args_get "uuid" no_uuid_args) = false)
  /\ Forall (fun r : response * world =>
               status_code r.1 = 400 /\ r.2 = example_world)
       [ pull_data (JObj no_uuid_fields) example_world;
         make_video_description (JObj no_uuid_fields) example_world;
         make_product_info (JObj no_uuid_fields) example_world;
         judge (JObj no_uuid_fields) example_world;
         get_status no_uuid_args example_world;
         get_results no_uuid_args example_world;
         override_label (fun _ => "") (JObj no_uuid_fields) example_world;
         clear_all (JObj no_uuid_fields) example_world ].
Proof.
  assert (forall v, json_get "uuid" (JObj no_uuid_fields) = inr v ->
                    truthy v = false) as H.
  { intros v Hv. vm_compute in Hv. by injection Hv as <-. }
  split; [split; [exact H|reflexivity]|].
  apply (missing_uuid_rejected (fun _ => "") no_uuid_fields no_uuid_args
           example_world H).
  reflexivity.
Defined.

(** X15.  [override_label] answers 400 to a request whose [new_label]
    is not one of the strings Yes, N/A, No, whatever the other fields
    hold and whether or not the judgement file exists; the world is left
    as it was, so the file is neither probed nor read. *)
Theorem override_label_rejects_label (py_str_list : list string -> string)
    (o : list (string * jval)) (w : world) :
  (forall s, json_get "new_label" (JObj o) = inr (JStr s) -> s ∉ labels) ->
  status_code (override_label py_str_list (JObj o) w).1 = 400
  /\ (override_label py_str_list (JObj o) w).2 = w.
Proof.
  intros Hlab.
  destruct (json_get_obj "uuid" o) as [uv Hu].
  destruct (json_get_obj "model" o) as [mv Hm].
  destruct (json_get_obj "product_id" o) as [pv Hp].
  destruct (json_get_obj "new_label" o) as [lv Hl].
  assert (in_strs lv ["Yes"; "N/A"; "No"] = false) as Hin.
  { apply in_strs_false. intros s ->. by apply Hlab. }
  unfold override_label, handler.
  rewrite run_bind, run_lift, Hu, run_bind, run_lift, Hm,
    run_bind, run_lift, Hp, run_bind, run_lift, Hl.
  destruct (truthy uv), (truthy mv), (truthy pv), (truthy lv),
    (in_strs mv MODEL_NAMES); simpl; rewrite ?Hin; simpl; done.
Qed.

Lemma override_label_rejects_label_witness :
  (forall s, json_get "new_label" (override_body "P0001" "Maybe")
             = inr (JStr s) -> s ∉ labels)
  /\ status_code (override_label (fun _ => "") (override_body "P0001" "Maybe")
                    example_world).1 = 400
  /\ (override_label (fun _ => "") (override_body "P0001" "Maybe")
        example_world).2 = example_world.
Proof.
  assert (forall s, json_get "new_label" (override_body "P0001" "Maybe")
                    = inr (JStr s) -> s ∉ labels) as H.
  { intros s Hs. vm_compute in Hs. injection Hs as <-.
    apply (bool_decide_unpack _). vm_compute. reflexivity. }
  split; [exact H|].
  apply (override_label_rejects_label (fun _ => "")
           [("uuid", JStr "s1"); ("model", JStr example_model);
            ("product_id", JStr "P0001"); ("new_label", JStr "Maybe")]
           example_world H).
Defined.

(** ** The columns the results route cannot do without *)

Lemma subscript_inr (k : string) (d : pydict) (v : pyval) :
  subscript k d = inr v -> is_Some (dict_get (Some k) d).
Proof.
  unfold subscript. destruct (dict_get (Some k) d); [eauto|discriminate].
Qed.

Lemma load_by_product_id_inr (rows : list pydict) :
  forall m m', load_by_product_id rows m = inr m' ->
  Forall (fun row => is_Some (dict_get (Some "product_id") row)) rows.
Proof.
  induction rows as [|row rows IH]; intros m m' H; [by apply Forall_nil|].
  cbn [load_by_product_id] in H.
  destruct (subscript "product_id" row) as [e|v] eqn:Hs; [discriminate|].
  rewrite exn_bind_inr in H.
  destruct (hash_key v) as [e|k]; [discriminate|].
  rewrite exn_bind_inr in H.
  apply Forall_cons. split; [by eapply subscript_inr|by eapply IH].
Qed.

Lemma judgement_item_inr (vds pis : gmap key pydict) (row : pydict)
    (it : item) :
  judgement_item vds pis row = inr it ->
  Forall (fun c => is_Some (dict_get (Some c) row)) (columns_read Judgement).
Proof.
  unfold judgement_item. intros H.
  repeat match type of H with
         | (subscript ?c row ≫= _) = _ =>
             let Hs := fresh "Hs" in
             destruct (subscript c row) as [?|?] eqn:Hs; [discriminate|];
             rewrite exn_bind_inr in H; apply subscript_inr in Hs
         end.
  simpl columns_read. repeat apply Forall_cons_2; try assumption.
  apply Forall_nil_2.
Qed.

Lemma judgement_loop_inr (vds pis : gmap key pydict) (rows : list pydict) :
  forall items c r, judgement_loop vds pis rows items c = inr r ->
  Forall (fun row =>
            Forall (fun c => is_Some (dict_get (Some c) row))
                   (columns_read Judgement)) rows.
Proof.
  induction rows as [|row rows IH]; intros items c r H; [by apply Forall_nil|].
  cbn [judgement_loop] in H.
  destruct (judgement_item vds pis row) as [e|it] eqn:Hit; [discriminate|].
  rewrite exn_bind_inr in H.
  destruct (count_label (it_label it) c) as [e|c']; [discriminate|].
  rewrite exn_bind_inr in H.
  apply Forall_cons. split; [by eapply judgement_item_inr|by eapply IH].
Qed.

(** The columns read in the rows of a file are columns of its header, as
    soon as the file has a row that is not blank. *)
Lemma DictReader_columns (h : record) (rows : list record) (cols : list string) :
  Forall (fun row => Forall (fun c => is_Some (dict_get (Some c) row)) cols)
         (DictReader (h :: rows)) ->
  (exists r, r ∈ rows /\ r ≠ []) ->
  Forall (fun c => c ∈ h) cols.
Proof.
  intros H (r & Hr & Hne). rewrite Forall_forall in H.
  assert (dictreader_row h r ∈ DictReader (h :: rows)) as Hin.
  { unfold DictReader. apply list_elem_of_fmap. exists r. split; [done|].
    by apply list_elem_of_filter. }
  apply (Forall_impl _ _ _ (H _ Hin)).
  intros c Hc. by eapply dictreader_row_key.
Qed.

(** X16.  The results route answers 200 only if every table it reads
    that has a data row has the columns the route reads in its rows:
    [product_id] in the video descriptions and the product information,
    and the eight columns of an item in the judgements.  (Over a table
    that lacks one of them the lookup in the first row raises, and the
    answer is 500.) *)
Theorem results_read_columns (args : list (string * string)) (u m : string)
    (w : world) (k : kind) (h : record) (rows : list record) :
  args_get "uuid" args = JStr u -> args_get "model" args = JStr m ->
  status_code (get_results args w).1 = 200 ->
  lookup_path (table_path u m k) (root w) = Some (File (h :: rows)) ->
  (exists r, r ∈ rows /\ r ≠ []) ->
  Forall (fun c => c ∈ h) (columns_read k).
Proof.
  intros Hu Hm Hs Hfile Hrow. revert Hs.
  unfold get_results, handler. cbv zeta. rewrite Hu, Hm.
  destruct (negb (truthy (JStr u)) || negb (truthy (JStr m))); [done|].
  destruct (negb (in_strs (JStr m) MODEL_NAMES)); [done|].
  rewrite run_bind, run_lift, get_csv_path_video_description.
  rewrite run_bind, run_lift, get_csv_path_product_info.
  rewrite run_bind, run_lift, get_csv_path_judgement.
  rewrite run_bind, run_path_exists, run_bind, run_path_exists,
    run_bind, run_path_exists.
  cbn [logged root io_log rand].
  match goal with
  | |- context [negb ?b] => destruct (negb b); [done|]
  end.
  rewrite run_bind, run_read_file. cbn [logged root io_log rand].
  destruct (lookup_path (table_path u m VideoDescription) (root w))
    as [[fv|?]|] eqn:Hv; [|done..].
  rewrite run_bind, run_lift.
  destruct (load_by_product_id (DictReader fv) ∅) as [e|vds] eqn:Hvds; [done|].
  rewrite run_bind, run_read_file. cbn [logged root io_log rand].
  destruct (lookup_path (table_path u m ProductInfo) (root w))
    as [[fp|?]|] eqn:Hp; [|done..].
  rewrite run_bind, run_lift.
  destruct (load_by_product_id (DictReader fp) ∅) as [e|pis] eqn:Hpis; [done|].
  rewrite run_bind, run_read_file. cbn [logged root io_log rand].
  destruct (lookup_path (table_path u m Judgement) (root w))
    as [[fj|?]|] eqn:Hj; [|done..].
  rewrite run_bind, run_lift.
  destruct (judgement_loop vds pis (DictReader fj) [] _) as [e|r] eqn:Hloop;
    [done|].
  intros _. apply (DictReader_columns h rows); [|exact Hrow].
  destruct k; rewrite Hfile in *.
  - injection Hv as <-. apply load_by_product_id_inr in Hvds.
    apply (Forall_impl _ _ _ Hvds).
    intros row Hr. by apply Forall_cons_2; [|apply Forall_nil_2].
  - injection Hp as <-. apply load_by_product_id_inr in Hpis.
    apply (Forall_impl _ _ _ Hpis).
    intros row Hr. by apply Forall_cons_2; [|apply Forall_nil_2].
  - injection Hj as <-. by eapply judgement_loop_inr.
Qed.

Lemma results_read_columns_witness :
  (args_get "uuid" example_args = JStr "s1"
   /\ args_get "model" example_args = JStr example_model
   /\ status_code (get_results example_args example_world).1 = 200
   /\ lookup_path (table_path "s1" example_model Judgement) (root example_world)
      = Some (File (judgement_header :: example_rows example_judgement))
   /\ exists r, r ∈ example_rows example_judgement /\ r ≠ [])
  /\ Forall (fun c => c ∈ judgement_header) (columns_read Judgement).
Proof.
  assert (exists r : list string,
            r ∈ example_rows example_judgement /\ r ≠ []) as Hrow.
  { eexists. split; [left|discriminate]. }
  split.
  - repeat apply conj; try exact Hrow; vm_compute; reflexivity.
  - apply (results_read_columns example_args "s1" example_model example_world
             Judgement judgement_header (example_rows example_judgement));
      try exact Hrow; vm_compute; reflexivity.
Defined.

(** ** An override that fails while it writes *)

Lemma override_rows_total (product_id new_label : jval) (reader : list pydict) :
  Forall (fun row => is_Some (dict_get (Some "product_id") row)) reader ->
  forall acc,
    override_rows product_id new_label reader acc
    = inr (acc ++ (override_row product_id new_label <$> reader)).
Proof.
  induction reader as [|row reader IH]; intros H acc.
  - simpl. by rewrite app_nil_r.
  - apply Forall_cons in H. destruct H as [[v Hv] H].
    cbn [override_rows]. unfold subscript. rewrite Hv, exn_bind_inr.
    cbv zeta. rewrite (IH H), fmap_cons, <- app_assoc.
    unfold override_row. rewrite Hv. reflexivity.
Qed.

Lemma for_each_app {A} (l1 l2 : list A) (body : A -> M unit) (w : world) :
  for_each (l1 ++ l2) body w
  = match for_each l1 body w with
    | (inr _, w') => for_each l2 body w'
    | (inl e, w') => (inl e, w')
    end.
Proof.
  revert w. induction l1 as [|x l1 IH]; intros w; [reflexivity|].
  cbn [app for_each]. rewrite !run_bind.
  destruct (body x w) as [[e|[]] w1]; [reflexivity|]. apply IH.
Qed.

Lemma dict_get_keys (k : key) (d : pydict) :
  is_Some (dict_get k d) -> k ∈ dict_keys d.
Proof.
  unfold dict_keys. induction d as [|[k0 v0] d IH]; simpl.
  - intros [? ?]. discriminate.
  - destruct (decide (k = k0)) as [->|Hne]; [left|right; by apply IH].
Qed.

(** A record longer than the header gives a row that the writer of the
    header's columns refuses, relabelled or not. *)
Lemma dict_to_list_surplus (py_str_list : list string -> string)
    (header r : record) (product_id new_label : jval) :
  length header < length r ->
  dict_to_list py_str_list (Some <$> header)
    (override_row product_id new_label (dictreader_row header r))
  = inl ValueError.
Proof.
  intros Hlen. unfold dict_to_list.
  destruct (forallb _ _) eqn:Hall; [|reflexivity].
  exfalso. rewrite forallb_forall in Hall.
  assert (None ∈ dict_keys
            (override_row product_id new_label (dictreader_row header r)))
    as Hin.
  { apply dict_get_keys. unfold override_row, dictreader_row.
    rewrite decide_True by done.
    destruct (py_eq _ _).
    - rewrite dict_get_set, decide_False by discriminate.
      rewrite dict_get_set, decide_True by done. eauto.
    - rewrite dict_get_set, decide_True by done. eauto. }
  apply list_elem_of_In, Hall, bool_decide_eq_true in Hin.
  apply list_elem_of_fmap in Hin. destruct Hin as (? & ? & _). discriminate.
Qed.

(** The rows that the reader finds in a file whose first records fit the
    header and are followed by a longer one. *)
Lemma DictReader_ragged (header : record) (good : list record) (bad : record)
    (rest : list record) :
  header ≠ [] -> is_table header good -> bad ≠ [] ->
  DictReader (header :: good ++ bad :: rest)
  = (row_dict header <$> good)
    ++ dictreader_row header bad :: DictReader (header :: rest).
Proof.
  intros Hne Ht Hbad.
  rewrite <- (DictReader_table header good Hne Ht). unfold DictReader.
  rewrite filter_app, filter_cons_True by done.
  by rewrite fmap_app, fmap_cons.
Qed.

(** X17.  [override_label] on a judgement file whose first records fit
    the header and are followed by a record with more fields than the
    header: the rows are read, the file is opened for writing, the header
    and the records before the long one are written back (relabelled
    where the identifier matches), and the long one makes the writer
    raise.  The answer is 500, and the file is left with those records
    only: the long record and every record after it are gone. *)
Theorem override_label_ragged_file (py_str_list : list string -> string)
    (data : jval) (u m pid lab : string) (w : world) (jh : record)
    (good : list record) (bad : record) (rest : list record) :
  json_get "uuid" data = inr (JStr u) -> u ≠ "" ->
  json_get "model" data = inr (JStr m) -> m ∈ MODEL_NAMES ->
  json_get "product_id" data = inr (JStr pid) -> pid ≠ "" ->
  json_get "new_label" data = inr (JStr lab) -> lab ∈ labels ->
  lookup_path (table_path u m Judgement) (root w)
  = Some (File (jh :: good ++ bad :: rest)) ->
  keyed_table jh good -> "label" ∈ jh -> good ≠ [] ->
  length jh < length bad ->
  exists n',
    override_label py_str_list data w
    = (Response 500 (PFailExn ValueError),
       World n'
         (io_log w ++ [EvExists (table_path u m Judgement);
                       EvRead (table_path u m Judgement);
                       EvWrite (table_path u m Judgement)])
         (rand w))
    /\ lookup_path (table_path u m Judgement) n'
       = Some (File (jh :: (relabelled jh pid lab <$> good))).
Proof.
  intros Hu Hu' Hm Hm' Hp Hp' Hl Hl' Hj [Hk [Hnd Hlen]] Hlab Hgood Hbad.
  pose proof (keyed_header_nonempty jh Hk) as Hne.
  assert (table_path u m Judgement ≠ []) as Hpath by done.
  assert (bad ≠ []) as Hbad' by (intros ->; simpl in Hbad; lia).
  unfold override_label, handler.
  rewrite run_bind, run_lift, Hu, run_bind, run_lift, Hm,
    run_bind, run_lift, Hp, run_bind, run_lift, Hl.
  rewrite (truthy_str u Hu'), (model_name_truthy m Hm'), (truthy_str pid Hp'),
    (label_truthy lab Hl'), (in_strs_true m _ Hm').
  change ["Yes"; "N/A"; "No"] with labels. rewrite (in_strs_true lab _ Hl').
  cbn [negb andb].
  rewrite run_bind, run_lift, get_csv_path_judgement.
  rewrite run_bind, run_path_exists. cbn [logged root io_log rand].
  rewrite (present_file _ _ _ Hj). cbn [negb].
  rewrite run_bind, run_read_file. cbn [logged root io_log rand]. rewrite Hj.
  rewrite (DictReader_ragged jh good bad rest Hne (conj Hnd Hlen) Hbad').
  assert (Forall (fun row => is_Some (dict_get (Some "product_id") row))
            ((row_dict jh <$> good)
             ++ dictreader_row jh bad :: DictReader (jh :: rest))) as Hkeys.
  { rewrite <- (DictReader_ragged jh good bad rest Hne (conj Hnd Hlen) Hbad').
    unfold DictReader. apply Forall_fmap, Forall_forall. intros r _.
    destruct (dictreader_row_has_text jh r "product_id" Hk) as (v & Hv & _).
    simpl. eauto. }
  rewrite run_bind, run_lift, (override_rows_total _ _ _ Hkeys []).
  cbn [app]. rewrite fmap_app, fmap_cons.
  assert (override_row (JStr pid) (JStr lab) <$> (row_dict jh <$> good)
          = row_dict jh <$> (relabelled jh pid lab <$> good)) as ->.
  { apply Forall_app in Hkeys. destruct Hkeys as [Hkeys _].
    pose proof (override_rows_total (JStr pid) (JStr lab) _ Hkeys []) as H1.
    rewrite (override_rows_table jh pid lab good Hk Hlab Hlen []) in H1.
    by injection H1 as <-. }
  destruct good as [|r good]; [done|].
  set (r' := relabelled jh pid lab r).
  set (good' := relabelled jh pid lab <$> good).
  rewrite (fmap_cons (relabelled jh pid lab) r good). fold r' good'.
  assert (Forall (fun r => length r = length jh) (r' :: good')) as Hlen'.
  { subst r' good'. rewrite <- fmap_cons. apply Forall_fmap.
    eapply Forall_impl; [exact Hlen|].
    intros r0 Hr0. simpl. by rewrite relabelled_length. }
  assert (length r' = length jh) as Hr' by exact (Forall_inv Hlen').
  set (w1 := logged (EvRead (table_path u m Judgement))
               (logged (EvExists (table_path u m Judgement)) w)).
  destruct (write_at_over_file _ [] _ (root w1) Hpath Hj) as [n1 Hn1].
  pose proof (lookup_write_at _ _ _ _ Hn1) as Hl1.
  set (w2 := World n1 (io_log w1 ++ [EvWrite (table_path u m Judgement)])
               (rand w1)).
  destruct (writerow_appends (table_path u m Judgement) jh [] w2 Hpath Hl1)
    as (n2 & Hw2 & Hl2).
  destruct (for_each_dictwriter py_str_list (table_path u m Judgement)
              jh (r' :: good') [jh] (World n2 (io_log w2) (rand w2)) Hnd Hlen'
              Hpath Hl2) as (n3 & Hw3 & Hl3).
  exists n3. split; [|exact Hl3].
  rewrite fmap_cons in Hw3. rewrite fmap_cons. cbn [app]. cbv beta iota.
  rewrite (row_dict_dict_keys jh r' Hr'), key_text_header.
  rewrite run_bind, run_bind, run_open_w, Hn1. fold w2.
  rewrite run_bind, Hw2.
  rewrite (app_comm_cons (row_dict jh <$> good')).
  rewrite (for_each_app (row_dict jh r' :: (row_dict jh <$> good'))), Hw3.
  cbn [for_each]. rewrite run_bind, run_bind, run_lift.
  rewrite (dict_to_list_surplus py_str_list jh bad _ _ Hbad).
  subst w2 w1. unfold logged. cbn [root io_log rand].
  rewrite <- !app_assoc. reflexivity.
Qed.

Lemma ragged_table :
  keyed_table judgement_header ragged_rows_before
  /\ "label" ∈ judgement_header /\ "No" ∈ labels.
Proof.
  unfold keyed_table, is_table.
  apply (bool_decide_unpack _). vm_compute. reflexivity.
Qed.

Lemma override_label_ragged_file_witness :
  (json_get "uuid" (override_body "P0001" "No") = inr (JStr "s1") /\ "s1" ≠ ""
   /\ json_get "model" (override_body "P0001" "No") = inr (JStr example_model)
   /\ example_model ∈ MODEL_NAMES
   /\ json_get "product_id" (override_body "P0001" "No") = inr (JStr "P0001")
   /\ "P0001" ≠ ""
   /\ json_get "new_label" (override_body "P0001" "No") = inr (JStr "No")
   /\ "No" ∈ labels
   /\ lookup_path (table_path "s1" example_model Judgement) (root ragged_world)
      = Some (File (judgement_header
                    :: ragged_rows_before ++ ragged_row :: ragged_rows_after))
   /\ keyed_table judgement_header ragged_rows_before
   /\ "label" ∈ judgement_header
   /\ ragged_rows_before ≠ []
   /\ length judgement_header < length ragged_row)
  /\ exists n',
       override_label (fun _ => "") (override_body "P0001" "No") ragged_world
       = (Response 500 (PFailExn ValueError),
          World n'
            (io_log ragged_world
             ++ [EvExists (table_path "s1" example_model Judgement);
                 EvRead (table_path "s1" example_model Judgement);
                 EvWrite (table_path "s1" example_model Judgement)])
            (rand ragged_world))
       /\ lookup_path (table_path "s1" example_model Judgement) n'
          = Some (File (judgement_header
                        :: (relabelled judgement_header "P0001" "No"
                            <$> ragged_rows_before))).
Proof.
  destruct ragged_table as (Ht & Hlab & Hno).
  split.
  - split; [reflexivity|]. split; [discriminate|]. split; [reflexivity|].
    split; [apply example_model_valid|]. split; [reflexivity|].
    split; [discriminate|]. split; [reflexivity|]. split; [exact Hno|].
    split; [vm_compute; reflexivity|]. split; [exact Ht|].
    split; [exact Hlab|]. split; [discriminate|]. vm_compute. lia.
  - apply (override_label_ragged_file (fun _ => "")
             (override_body "P0001" "No") "s1" example_model "P0001" "No"
             ragged_world judgement_header ragged_rows_before ragged_row
             ragged_rows_after);
      first [reflexivity|discriminate|apply example_model_valid
            |exact Ht|exact Hlab|exact Hno
            |vm_compute; reflexivity|vm_compute; lia].
Defined.

(** ** pull_data and the tables *)

(** The directories of the models are three names deep: what lies
    deeper is not touched when they are made. *)
Lemma ensure_model_dirs_deep (uv : jval) (ms : list string) (q : path) :
  3 < length q ->
  forall w,
    lookup_path q
      (root (for_each ms (fun m => ensure_model_dir uv (JStr m);; mret tt) w).2)
    = lookup_path q (root w).
Proof.
  intros Hq. induction ms as [|m ms IH]; intros w; [reflexivity|].
  cbn [for_each]. rewrite run_bind.
  destruct uv as [| | |u| |]; try reflexivity.
  rewrite run_ensure_model_dir.
  destruct (mkdir_parents (model_dir_path u m) (root w)) as [e|n'] eqn:Hm;
    [reflexivity|].
  rewrite IH. cbn [root]. apply (mkdir_parents_frame _ _ _ _ Hm).
  intros Hp. apply prefix_length in Hp. simpl in Hp. lia.
Qed.

Lemma pull_data_deep (data : jval) (w : world) (q : path) :
  3 < length q ->
  lookup_path q (root (pull_data data w).2) = lookup_path q (root w).
Proof.
  intros Hq. unfold pull_data. rewrite handler_world.
  rewrite run_bind, run_lift.
  destruct (json_get "uuid" data) as [e|uv]; [done|].
  rewrite run_bind, run_lift.
  destruct (json_get "days_back" data) as [e|dv]; [done|].
  destruct (negb (truthy uv) || negb (truthy dv)); [done|].
  destruct (negb (isinstance_int dv) || below_one dv); [done|].
  rewrite run_bind.
  pose proof (ensure_model_dirs_deep uv MODEL_NAMES q Hq w) as H.
  destruct (for_each MODEL_NAMES _ w) as [[e|[]] w1]; exact H.
Qed.

(** The answer of the status route depends on the tree through the
    three tables of its session only. *)
Lemma get_status_depends (args : list (string * string)) (w1 w2 : world) :
  (forall u m k, lookup_path (table_path u m k) (root w1)
                 = lookup_path (table_path u m k) (root w2)) ->
  (get_status args w1).1 = (get_status args w2).1.
Proof.
  intros H. unfold get_status, handler. cbv zeta.
  destruct (negb (truthy (args_get "uuid" args))
            || negb (truthy (args_get "model" args))); [done|].
  destruct (negb (in_strs (args_get "model" args) MODEL_NAMES)); [done|].
  rewrite !run_bind, !run_lift.
  destruct (get_csv_path _ _ "video_description") as [e|p] eqn:Hp; [done|].
  destruct (get_csv_path_inr _ _ _ _ Hp) as (u & m & Hu & Hm & ->).
  rewrite Hu, Hm, get_csv_path_product_info, get_csv_path_judgement.
  change (DATA_DIR ++ [u; m; "video_description" +:+ ".csv"])
    with (table_path u m VideoDescription).
  repeat (progress (rewrite ?run_bind, ?run_lift, ?run_path_exists, ?run_ret;
                    cbn [logged root io_log rand])).
  cbn [fst]. by rewrite !H.
Qed.

(** So does the answer of the results route. *)
Lemma get_results_depends (args : list (string * string)) (w1 w2 : world) :
  (forall u m k, lookup_path (table_path u m k) (root w1)
                 = lookup_path (table_path u m k) (root w2)) ->
  (get_results args w1).1 = (get_results args w2).1.
Proof.
  intros H. unfold get_results, handler. cbv zeta.
  destruct (negb (truthy (args_get "uuid" args))
            || negb (truthy (args_get "model" args))); [done|].
  destruct (negb (in_strs (args_get "model" args) MODEL_NAMES)); [done|].
  rewrite !run_bind, !run_lift.
  destruct (get_csv_path _ _ "video_description") as [e|p] eqn:Hp; [done|].
  destruct (get_csv_path_inr _ _ _ _ Hp) as (u & m & Hu & Hm & ->).
  rewrite Hu, Hm, get_csv_path_product_info, get_csv_path_judgement.
  change (DATA_DIR ++ [u; m; "video_description" +:+ ".csv"])
    with (table_path u m VideoDescription).
  repeat (progress (rewrite ?run_bind, ?run_lift, ?run_path_exists;
                    cbn [logged root io_log rand])).
  rewrite !H.
  match goal with
  | |- context [negb ?b] => destruct (negb b); [done|]
  end.
  rewrite !run_bind, !run_read_file. cbn [logged root io_log rand].
  rewrite !H.
  destruct (lookup_path (table_path u m VideoDescription) (root w2))
    as [[fv|?]|]; [|done..].
  rewrite !run_bind, !run_lift.
  destruct (load_by_product_id (DictReader fv) ∅) as [e|vds]; [done|].
  rewrite !run_bind, !run_read_file. cbn [logged root io_log rand].
  rewrite !H.
  destruct (lookup_path (table_path u m ProductInfo) (root w2))
    as [[fp|?]|]; [|done..].
  rewrite !run_bind, !run_lift.
  destruct (load_by_product_id (DictReader fp) ∅) as [e|pis]; [done|].
  rewrite !run_bind, !run_read_file. cbn [logged root io_log rand].
  rewrite !H.
  destruct (lookup_path (table_path u m Judgement) (root w2))
    as [[fj|?]|]; [|done..].
  rewrite !run_bind, !run_lift.
  destruct (judgement_loop vds pis (DictReader fj) [] _) as [e|r]; [done|].
  rewrite !run_lift. by destruct (jsonify_results r.2 r.1).
Qed.

(** X18.  [pull_data] makes directories and nothing else: on every
    request whose session identifier is a plain name (one path
    component: not empty, not [.] or [..], without a separator) and
    every tree, whatever it answers, everything more than three plain
    names deep (every table, for one) is found as before, and the status
    route and the results route answer every request for a session with
    a plain name afterwards as they would have answered it before. *)
Theorem pull_data_keeps_tables (data : jval) (args : list (string * string))
    (w : world) :
  (forall u, json_get "uuid" data = inr (JStr u) -> plain_component u = true) ->
  (forall u, args_get "uuid" args = JStr u -> plain_component u = true) ->
  (forall q, plain_path q -> 3 < length q ->
     lookup_path q (root (pull_data data w).2) = lookup_path q (root w))
  /\ (get_status args (pull_data data w).2).1 = (get_status args w).1
  /\ (get_results args (pull_data data w).2).1 = (get_results args w).1.
Proof.
  assert (forall u m k,
            lookup_path (table_path u m k) (root (pull_data data w).2)
            = lookup_path (table_path u m k) (root w)) as H.
  { intros u m k. apply pull_data_deep. simpl. lia. }
  intros _ _. split; [intros q _ Hq; by apply pull_data_deep|].
  split; [by apply get_status_depends|by apply get_results_depends].
Qed.

Lemma pull_data_keeps_tables_witness :
  ((forall u, json_get "uuid" (pull_body (JNum 7)) = inr (JStr u) ->
              plain_component u = true)
   /\ (forall u, args_get "uuid" example_args = JStr u ->
                 plain_component u = true)
   /\ plain_path other_table /\ 3 < length other_table)
  /\ lookup_path other_table
       (root (pull_data (pull_body (JNum 7)) two_sessions_world).2)
     = lookup_path other_table (root two_sessions_world)
  /\ (get_status example_args
        (pull_data (pull_body (JNum 7)) two_sessions_world).2).1
     = (get_status example_args two_sessions_world).1
  /\ (get_results example_args
        (pull_data (pull_body (JNum 7)) two_sessions_world).2).1
     = (get_results example_args two_sessions_world).1.
Proof.
  assert (forall u, json_get "uuid" (pull_body (JNum 7)) = inr (JStr u) ->
            plain_component u = true) as Hu.
  { intros u Hu. vm_compute in Hu. by injection Hu as <-. }
  assert (forall u, args_get "uuid" example_args = JStr u ->
            plain_component u = true) as Ha.
  { intros u Hv. vm_compute in Hv. by injection Hv as <-. }
  assert (plain_path other_table) as Hq
    by (apply (bool_decide_unpack _); vm_compute; reflexivity).
  assert (3 < length other_table) as Hlen by (vm_compute; lia).
  destruct (pull_data_keeps_tables (pull_body (JNum 7)) example_args
              two_sessions_world Hu Ha) as (H1 & H2 & H3).
  split; [split; [exact Hu|split; [exact Ha|split; [exact Hq|exact Hlen]]]|].
  split; [exact (H1 other_table Hq Hlen)|]. split; [exact H2|exact H3].
Defined.

(** ** What the generator writes is a table *)

(** X19.  Whenever the generator returns, the file it has written is a
    table that the other routes can read: no column name stands twice in
    the header, [product_id] is among the columns, and every row has as
    many fields as the header.  A generated judgement table has, in
    addition, all the columns of an item, and every row of it carries one
    of the labels Yes, N/A, No together with the reason that the
    generator gives with this label for the number of the row. *)
Theorem generated_table_well_formed (k : kind) (p : path) (num_items : nat)
    (w w' : world) :
  create_sample_csv p (kind_name k) num_items w = (inr tt, w') ->
  exists rows,
    lookup_path p (root w') = Some (File (header_of k :: rows))
    /\ keyed_table (header_of k) rows
    /\ (k = Judgement ->
        judgement_table judgement_header rows
        /\ Forall (fun r =>
                     exists l i,
                       l ∈ labels
                       /\ field judgement_header "label" r = Some l
                       /\ field judgement_header "product_id" r
                          = Some (product_id_of i)
                       /\ field judgement_header "reason" r = reasons i !! l)
             rows).
Proof.
  intros H. destruct (create_sample_csv_inr _ _ _ _ _ H) as (n1 & n2 & Hm & Ho).
  destruct (create_sample_csv_writes k p num_items w n1 n2 Hm Ho)
    as (n3 & Hr & Hl).
  rewrite Hr in H. injection H as <-.
  exists (rows_of k (rand w) 1 num_items).
  split; [exact Hl|]. split; [apply rows_of_keyed_table|].
  intros ->. split; [apply rows_of_judgement_table|].
  unfold rows_of. apply Forall_fmap, Forall_forall. intros j _.
  destruct (reasons_drawn (rand w) (1 + j) j) as [t Ht].
  exists (drawn_label (rand w) j), (1 + j).
  split; [apply drawn_label_in|]. split; [reflexivity|].
  split; [reflexivity|].
  change (Some (default "" (reasons (1 + j) !! drawn_label (rand w) j))
          = reasons (1 + j) !! drawn_label (rand w) j).
  by rewrite Ht.
Qed.

Lemma generated_table_well_formed_witness :
  let w' := (create_sample_csv (example_path Judgement)
               (kind_name Judgement) 3 fresh_world).2 in
  create_sample_csv (example_path Judgement) (kind_name Judgement) 3
    fresh_world = (inr tt, w')
  /\ exists rows,
       lookup_path (example_path Judgement) (root w')
       = Some (File (header_of Judgement :: rows))
       /\ keyed_table (header_of Judgement) rows
       /\ (Judgement = Judgement ->
           judgement_table judgement_header rows
           /\ Forall (fun r =>
                        exists l i,
                          l ∈ labels
                          /\ field judgement_header "label" r = Some l
                          /\ field judgement_header "product_id" r
                             = Some (product_id_of i)
                          /\ field judgement_header "reason" r
                             = reasons i !! l)
                rows).
Proof.
  intros w'. split; [vm_compute; reflexivity|].
  apply (generated_table_well_formed Judgement (example_path Judgement)
           3 fresh_world w').
  vm_compute. reflexivity.
Defined.
